(** * The MCP gateway of benraz-mcp-server, embedded in Rocq

    The development follows the Express/SSE server of the repository: the
    tool registrations, [zodToJsonSchemaProperty] and the
    [mcpHandshakeResponse] constant, the [/sse] route, [sendSseMessage] and
    [toolCallHandler]; and the collaborators the tools call, [weatherService]
    (src/weather.ts), [braveService] and [googleSearchService].

    JavaScript values are an inductive type.  A string is the byte string of
    its UTF-8 encoding, generalised so that a surrogate that has no partner is
    written in three bytes like the other code points of its range; lengths
    are counted in UTF-16 code units, as JavaScript counts them.  The tool
    registry, a [Map] whose order shows in the handshake, is an association
    list in insertion order; the session registry, a [Map] whose order nobody
    sees, is a [gmap].  What the server does that a client or a collaborator
    can observe is recorded, in program order, as a list of [Action]s.  The
    network, the clock, the random source, the transport's verdict on a
    write, and the built-ins of the runtime that work on Unicode tables
    ([toUpperCase], number printing, percent-encoding) are inputs. *)

From Stdlib Require Import ZArith QArith Ascii String List.
From stdpp Require Import base option list strings gmap pretty.

Local Open Scope string_scope.
Local Open Scope Z_scope.
Set Warnings "-register-all".

(** stdpp freezes [String.append] under [simpl]; the proofs below compute
    with it. *)
Arguments String.append !s1 s2.

(** ** JavaScript values *)

(** A value as [express.json()] hands it to a route, plus [undefined] (what
    reading an absent property yields).  Numbers are the exact rational value
    of a finite double. *)
Inductive jsval : Type :=
| JUndefined
| JNull
| JBool (b : bool)
| JNum (q : Q)
| JStr (s : string)
| JArr (items : list jsval)
| JObj (fields : list (string * jsval)).

(** [a.join(sep)] on an array of strings. *)
Fixpoint join (sep : string) (parts : list string) : string :=
  match parts with
  | [] => ""
  | [p] => p
  | p :: rest => p ++ sep ++ join sep rest
  end.

(** Property read [o.key]: own properties of an object, [undefined]
    otherwise.  No key the program reads is inherited from the prototype of
    an object, an array, a number or a boolean; the one key it reads that
    strings inherit, [link], is treated where it is read ([get_link]). *)
Fixpoint lookup_field (key : string) (fields : list (string * jsval)) : jsval :=
  match fields with
  | [] => JUndefined
  | (k, v) :: rest => if String.eqb k key then v else lookup_field key rest
  end.

Definition get (key : string) (o : jsval) : jsval :=
  match o with
  | JObj fields => lookup_field key fields
  | _ => JUndefined
  end.

(** Property write [o[key] = v]: replaces in place, or appends. *)
Fixpoint set_field (key : string) (v : jsval) (fields : list (string * jsval))
  : list (string * jsval) :=
  match fields with
  | [] => [(key, v)]
  | (k, w) :: rest =>
      if String.eqb k key then (k, v) :: rest else (k, w) :: set_field key v rest
  end.

(** The truthiness test of [!x], [x || y] and [if (x)]. *)
Definition truthy (v : jsval) : bool :=
  match v with
  | JUndefined | JNull => false
  | JBool b => b
  | JNum q => negb (Qeq_bool q 0)
  | JStr s => negb (String.eqb s "")
  | JArr _ | JObj _ => true
  end.

Definition truthy_str (s : string) : bool := negb (String.eqb s "").

(** [x || y] *)
Definition js_or (x y : jsval) : jsval := if truthy x then x else y.

(** [x == null]: the values on which a property read, or a destructuring
    pattern, throws. *)
Definition nullish (v : jsval) : bool :=
  match v with
  | JUndefined | JNull => true
  | _ => false
  end.

(** The object has an own property of that name, whatever it holds. *)
Definition has_own (key : string) (fields : list (string * jsval)) : bool :=
  existsb (fun kv => String.eqb (fst kv) key) fields.

(** The values [String(v)] throws on.  A value that came out of
    [JSON.parse] holds no function, so an own [toString] property of an
    object shadows [Object.prototype.toString] with something that cannot be
    called; [valueOf] then gives the object back and the conversion ends in
    a [TypeError].  An array prints its elements, so it fails when one of
    them does. *)
Fixpoint unprintable (v : jsval) : bool :=
  match v with
  | JObj fields => has_own "toString" fields
  | JArr items => existsb unprintable items
  | _ => false
  end.

(** ** Strings *)

(** The UTF-16 code units a byte of the encoding stands for: one for an
    ASCII byte and for the first byte of a sequence of two or three, two
    for the first byte of a sequence of four (a surrogate pair), none for a
    continuation byte. *)
Definition utf16_units (c : ascii) : nat :=
  let n := nat_of_ascii c in
  if (n <? 128)%nat then 1%nat
  else if (n <? 192)%nat then 0%nat
  else if (n <? 240)%nat then 1%nat
  else 2%nat.

(** [s.length] *)
Fixpoint utf16_length (s : string) : nat :=
  match s with
  | EmptyString => O
  | String c rest => (utf16_units c + utf16_length rest)%nat
  end.

(** The string holds a surrogate without its partner: the byte [ED]
    followed by a byte from [A0] up starts the three-byte form of a code
    point from U+D800 to U+DFFF, which the encoding uses for nothing else. *)
Fixpoint has_lone_surrogate (s : string) : bool :=
  match s with
  | EmptyString => false
  | String c rest =>
      match rest with
      | String c2 _ =>
          ((nat_of_ascii c =? 237)%nat && (160 <=? nat_of_ascii c2)%nat)
          || has_lone_surrogate rest
      | EmptyString => false
      end
  end.

(** Upper-casing of the ASCII letters, which is what [s.toUpperCase()] does
    to a text of ASCII characters; the examples use it. *)
Definition upper_ascii (c : ascii) : ascii :=
  let n := nat_of_ascii c in
  if (97 <=? n)%nat && (n <=? 122)%nat then ascii_of_nat (n - 32) else c.

Fixpoint ascii_toUpperCase (s : string) : string :=
  match s with
  | EmptyString => EmptyString
  | String c rest => String (upper_ascii c) (ascii_toUpperCase rest)
  end.

(** [s.substring(from, to)] for [0 <= from <= to], on a text of ASCII
    characters (its one use is on [Math.random().toString(36)]). *)
Fixpoint drop_str (n : nat) (s : string) : string :=
  match n, s with
  | O, _ => s
  | S n', String _ rest => drop_str n' rest
  | S _, EmptyString => EmptyString
  end.

Fixpoint take_str (n : nat) (s : string) : string :=
  match n, s with
  | S n', String c rest => String c (take_str n' rest)
  | _, _ => EmptyString
  end.

Definition substring (from to : nat) (s : string) : string :=
  take_str (to - from) (drop_str from s).

(** The characters of the wire format: a line feed, and the two characters
    of the source text [\\n] inside a quoted string (a backslash, then the
    letter n). *)
Definition LF : string := String (ascii_of_nat 10) EmptyString.
Definition BACKSLASH_N : string := String (ascii_of_nat 92) "n".

(** Decimal text of an integer number, as template literals print
    [Date.now()]. *)
Definition Z_toString (n : Z) : string := pretty n.

(** ** Promises and exceptions *)

(** What a [ZodError] carries: one issue per broken constraint. *)
Inductive IssueCode : Type := invalid_type | too_small | too_big.

Record ZodIssue : Type := mkIssue {
  code : IssueCode;
  path : list string;
  message : string
}.

Inductive Thrown : Type :=
| ThrownZodError (errors : list ZodIssue)   (* [instanceof z.ZodError] *)
| ThrownError (msg : string)                (* any other [Error] *)
| ThrownValue (v : jsval).                  (* a thrown non-[Error] value *)

(** How a call, or the promise of an [async] function, ends. *)
Inductive Outcome (A : Type) : Type :=
| Returned (a : A)
| Threw (e : Thrown).

Arguments Returned {A} a.
Arguments Threw {A} e.

Definition bind {A B : Type} (m : Outcome A) (k : A -> Outcome B) : Outcome B :=
  match m with
  | Returned a => k a
  | Threw e => Threw e
  end.

Notation "'try!' x ':=' m 'in' k" := (bind m (fun x => k))
  (at level 10, x name, m at level 100, k at level 200).

Section MapM.

Context {A B : Type} (f : A -> Outcome B).

(** [items.map(f)] where [f] may throw: the first exception ends the loop. *)
Fixpoint mapM (items : list A) : Outcome (list B) :=
  match items with
  | [] => Returned []
  | x :: rest => try! y := f x in try! ys := mapM rest in Returned (y :: ys)
  end.

End MapM.

(** [items.map((x, i) => f(x, i))], the index starting at [i]. *)
Fixpoint mapiM_from {A B : Type} (f : A -> nat -> Outcome B) (i : nat) (items : list A)
  : Outcome (list B) :=
  match items with
  | [] => Returned []
  | x :: rest =>
      try! y := f x i in try! ys := mapiM_from f (S i) rest in Returned (y :: ys)
  end.

(** The [TypeError] of a conversion to a primitive that found none. *)
Definition cannot_convert : Thrown :=
  ThrownError "Cannot convert object to primitive value".

Section Values.

(** [Number.prototype.toString] of a double is a built-in of the runtime. *)
Variable Number_toString : Q -> string.

(** Template-literal conversion [`${v}`].  An array prints its elements
    from left to right, an object prints through
    [Object.prototype.toString] unless an own [toString] property hides
    it. *)
Fixpoint String_of (v : jsval) : Outcome string :=
  match v with
  | JUndefined => Returned "undefined"
  | JNull => Returned "null"
  | JBool b => Returned (if b then "true" else "false")
  | JNum q => Returned (Number_toString q)
  | JStr s => Returned s
  | JArr items =>
      try! parts := mapM (fun x => match x with
                                   | JUndefined | JNull => Returned ""
                                   | _ => String_of x
                                   end) items in
      Returned (join "," parts)
  | JObj fields =>
      if has_own "toString" fields then Threw cannot_convert
      else Returned "[object Object]"
  end.

(** String quoting of [JSON.stringify]. *)
Definition hex_digit (n : nat) : ascii :=
  if (n <? 10)%nat then ascii_of_nat (48 + n) else ascii_of_nat (87 + n).

Definition json_escape_char (c : ascii) : string :=
  let n := nat_of_ascii c in
  if (n =? 34)%nat then String (ascii_of_nat 92) (String c EmptyString)
  else if (n =? 92)%nat then String c (String c EmptyString)
  else if (n =? 8)%nat then String (ascii_of_nat 92) "b"
  else if (n =? 9)%nat then String (ascii_of_nat 92) "t"
  else if (n =? 10)%nat then String (ascii_of_nat 92) "n"
  else if (n =? 12)%nat then String (ascii_of_nat 92) "f"
  else if (n =? 13)%nat then String (ascii_of_nat 92) "r"
  else if (n <? 32)%nat then
    String (ascii_of_nat 92)
      ("u00" ++ String (hex_digit (n / 16)) (String (hex_digit (n mod 16)) EmptyString))
  else String c EmptyString.

(** The escape [\udXXX] of the lone surrogate whose second and third
    bytes are [c2] and [c3]. *)
Definition json_escape_surrogate (c2 c3 : ascii) : string :=
  let x := (nat_of_ascii c2 mod 64)%nat in
  let y := (nat_of_ascii c3 mod 64)%nat in
  String (ascii_of_nat 92)
    (String "u" (String "d" (String (hex_digit (x / 4))
       (String (hex_digit ((x mod 4) * 4 + y / 16))
          (String (hex_digit (y mod 16)) EmptyString))))).

(** Well-formed [JSON.stringify]: a lone surrogate is written as an
    escape, every other character as it is quoted. *)
Fixpoint json_escape (s : string) : string :=
  match s with
  | EmptyString => EmptyString
  | String c rest =>
      match rest with
      | String c2 (String c3 rest') =>
          if (nat_of_ascii c =? 237)%nat && (160 <=? nat_of_ascii c2)%nat
          then json_escape_surrogate c2 c3 ++ json_escape rest'
          else json_escape_char c ++ json_escape rest
      | _ => json_escape_char c ++ json_escape rest
      end
  end.

Definition DQUOTE : string := String (ascii_of_nat 34) EmptyString.

Definition json_quote (s : string) : string := DQUOTE ++ json_escape s ++ DQUOTE.

(** [JSON.stringify(v)]; [None] is the [undefined] it returns for
    [undefined].  Properties holding [undefined] are left out, array slots
    holding it print as [null]. *)
Fixpoint JSON_stringify (v : jsval) : option string :=
  match v with
  | JUndefined => None
  | JNull => Some "null"
  | JBool b => Some (if b then "true" else "false")
  | JNum q => Some (Number_toString q)
  | JStr s => Some (json_quote s)
  | JArr items =>
      Some ("[" ++ join "," (map (fun x => default "null" (JSON_stringify x)) items) ++ "]")
  | JObj fields =>
      Some ("{" ++ join ","
              (omap (fun kv => match kv with
                               | (k, x) =>
                                   match JSON_stringify x with
                                   | Some s => Some (json_quote k ++ ":" ++ s)
                                   | None => None
                                   end
                               end) fields) ++ "}")
  end.

(** [`${JSON.stringify(v)}`] *)
Definition stringify_text (v : jsval) : string :=
  default "undefined" (JSON_stringify v).

End Values.

(** ** Parameter schemas

    The part of the zod library that the registered schemas and
    [zodToJsonSchemaProperty] use: strings with a length check, numbers with
    inclusive bounds, booleans, [z.any()], and the [optional]/[default]
    wrappers.  [describe] stores a description on the outermost instance. *)

Inductive StringCheck : Type :=
| SLength (n : nat).

Inductive NumberCheck : Type :=
| NMin (bound : Q)
| NMax (bound : Q).

Inductive ZodType : Type :=
| ZodString (checks : list StringCheck) (description : option string)
| ZodNumber (checks : list NumberCheck) (description : option string)
| ZodBoolean (description : option string)
| ZodAny (description : option string)
| ZodOptional (innerType : ZodType) (description : option string)
| ZodDefault (innerType : ZodType) (defaultValue : jsval) (description : option string).

(** [z.object(shape)]: the fields in the order the object literal lists
    them, which is the order [for (const key in schema.shape)] visits. *)
Definition ZodObject : Type := list (string * ZodType).

Definition typeName (t : ZodType) : string :=
  match t with
  | ZodString _ _ => "ZodString"
  | ZodNumber _ _ => "ZodNumber"
  | ZodBoolean _ => "ZodBoolean"
  | ZodAny _ => "ZodAny"
  | ZodOptional _ _ => "ZodOptional"
  | ZodDefault _ _ _ => "ZodDefault"
  end.

Definition zod_description (t : ZodType) : option string :=
  match t with
  | ZodString _ d | ZodNumber _ d | ZodBoolean d | ZodAny d
  | ZodOptional _ d | ZodDefault _ _ d => d
  end.

(** [t.describe(d)] *)
Definition describe (d : string) (t : ZodType) : ZodType :=
  match t with
  | ZodString c _ => ZodString c (Some d)
  | ZodNumber c _ => ZodNumber c (Some d)
  | ZodBoolean _ => ZodBoolean (Some d)
  | ZodAny _ => ZodAny (Some d)
  | ZodOptional i _ => ZodOptional i (Some d)
  | ZodDefault i v _ => ZodDefault i v (Some d)
  end.

(** The field carries an optional or default marker. *)
Definition is_optional_or_default (t : ZodType) : bool :=
  match t with
  | ZodOptional _ _ | ZodDefault _ _ _ => true
  | _ => false
  end.

Definition parsedType (v : jsval) : string :=
  match v with
  | JUndefined => "undefined"
  | JNull => "null"
  | JBool _ => "boolean"
  | JNum _ => "number"
  | JStr _ => "string"
  | JArr _ => "array"
  | JObj _ => "object"
  end.

Definition invalid_type_issue (p : list string) (expected : string) (v : jsval) : ZodIssue :=
  mkIssue invalid_type p
    match v with
    | JUndefined => "Required"
    | _ => "Expected " ++ expected ++ ", received " ++ parsedType v
    end.

Definition check_string (p : list string) (s : string) (c : StringCheck) : list ZodIssue :=
  match c with
  | SLength n =>
      let msg := "String must contain exactly " ++ Z_toString (Z.of_nat n) ++ " character(s)" in
      if (n <? utf16_length s)%nat then [mkIssue too_big p msg]
      else if (utf16_length s <? n)%nat then [mkIssue too_small p msg]
      else []
  end.

(** What a check asks of a value. *)
Definition string_check_holds (c : StringCheck) (s : string) : Prop :=
  match c with
  | SLength n => utf16_length s = n
  end.

Definition number_check_holds (c : NumberCheck) (x : Q) : Prop :=
  match c with
  | NMin b => (b <= x)%Q
  | NMax b => (x <= b)%Q
  end.

Section Schemas.

Variable Number_toString : Q -> string.

Definition check_number (p : list string) (x : Q) (c : NumberCheck) : list ZodIssue :=
  match c with
  | NMin b =>
      if Qle_bool b x then []
      else [mkIssue too_small p ("Number must be greater than or equal to " ++ Number_toString b)]
  | NMax b =>
      if Qle_bool x b then []
      else [mkIssue too_big p ("Number must be less than or equal to " ++ Number_toString b)]
  end.

(** The issues a value raises against a field schema, all of them, in check
    order; a value of the wrong type raises the type issue only. *)
Fixpoint zod_issues (t : ZodType) (p : list string) (v : jsval) : list ZodIssue :=
  match t with
  | ZodString checks _ =>
      match v with
      | JStr s => flat_map (check_string p s) checks
      | _ => [invalid_type_issue p "string" v]
      end
  | ZodNumber checks _ =>
      match v with
      | JNum x => flat_map (check_number p x) checks
      | _ => [invalid_type_issue p "number" v]
      end
  | ZodBoolean _ =>
      match v with
      | JBool _ => []
      | _ => [invalid_type_issue p "boolean" v]
      end
  | ZodAny _ => []
  | ZodOptional inner _ =>
      match v with
      | JUndefined => []
      | _ => zod_issues inner p v
      end
  | ZodDefault inner dflt _ =>
      match v with
      | JUndefined => zod_issues inner p dflt
      | _ => zod_issues inner p v
      end
  end.

(** The parsed value of a field that raised no issue. *)
Fixpoint zod_output (t : ZodType) (v : jsval) : jsval :=
  match t with
  | ZodDefault inner dflt _ =>
      match v with
      | JUndefined => zod_output inner dflt
      | _ => zod_output inner v
      end
  | ZodOptional inner _ =>
      match v with
      | JUndefined => JUndefined
      | _ => zod_output inner v
      end
  | _ => v
  end.

Inductive ParseResult : Type :=
| Parsed (value : jsval)
| ZodErrorThrown (errors : list ZodIssue).

Definition object_issues (shape : ZodObject) (fields : list (string * jsval)) : list ZodIssue :=
  flat_map (fun kt => zod_issues (snd kt) [fst kt] (lookup_field (fst kt) fields)) shape.

Definition object_output (shape : ZodObject) (fields : list (string * jsval))
  : list (string * jsval) :=
  omap (fun kt =>
          match zod_output (snd kt) (lookup_field (fst kt) fields) with
          | JUndefined => None
          | out => Some (fst kt, out)
          end) shape.

(** [schema.parse(parameters)]: unknown keys are stripped, every field is
    checked, and a [ZodError] carrying all issues is thrown if there is one. *)
Definition parse (shape : ZodObject) (parameters : jsval) : ParseResult :=
  match parameters with
  | JObj fields =>
      match object_issues shape fields with
      | [] => Parsed (JObj (object_output shape fields))
      | errors => ZodErrorThrown errors
      end
  | _ => ZodErrorThrown [invalid_type_issue [] "object" parameters]
  end.

End Schemas.

(** [x?.key] *)
Definition opt_get (key : string) (o : jsval) : jsval :=
  match o with
  | JUndefined | JNull => JUndefined
  | _ => get key o
  end.

(** [x.length]: arrays and strings have one, objects may carry a property
    of that name. *)
Definition length_of (o : jsval) : jsval :=
  match o with
  | JArr items => JNum (inject_Z (Z.of_nat (length items)))
  | JStr s => JNum (inject_Z (Z.of_nat (utf16_length s)))
  | _ => get "length" o
  end.

(** [x === 0] *)
Definition is_zero (v : jsval) : bool :=
  match v with
  | JNum q => Qeq_bool q 0
  | _ => false
  end.

(** ** Collaborators *)

(** What [await fetch(url)] followed by [response.json()] comes to. *)
Inductive FetchResult : Type :=
| FetchFailed                                      (* [fetch] rejects *)
| FetchResponse (ok : bool) (json : option jsval). (* [None]: the body is not JSON *)

(** The network while one handler runs: the answer to its n-th request. *)
Definition Network : Type := nat -> string -> FetchResult.

Record Config : Type := mkConfig {
  WEATHER_API_BASE : string;
  BRAVE_BASE_URL : string;
  BRAVE_API_KEY : string;
  GOOGLE_API_KEY : string;
  GOOGLE_CSE_ID : string
}.

(** The text a tool hands back: [{ type: "text", text }]. *)
Definition text_content (text : string) : jsval :=
  JObj [("type", JStr "text"); ("text", JStr text)].

(** ** Configuration (config.ts)

    The loader of the [.env] file and the [ConfigImpl] constructor, over an
    environment [process.env] that is a finite map from names to strings. *)

(** [s.split(sep)] for a separator of one character. *)
Fixpoint split_on (sep : ascii) (s : string) : list string :=
  match s with
  | EmptyString => [EmptyString]
  | String c rest =>
      if Ascii.eqb c sep then EmptyString :: split_on sep rest
      else match split_on sep rest with
           | [] => [String c EmptyString]
           | piece :: pieces => String c piece :: pieces
           end
  end.

(** The white space and line terminators [trim] removes.  Of one byte:
    U+0009 to U+000D and the space. *)
Definition is_space (c : ascii) : bool :=
  let n := nat_of_ascii c in
  ((9 <=? n)%nat && (n <=? 13)%nat) || (n =? 32)%nat.

(** Of two bytes: the no-break space U+00A0. *)
Definition is_space2 (c1 c2 : ascii) : bool :=
  (nat_of_ascii c1 =? 194)%nat && (nat_of_ascii c2 =? 160)%nat.

(** Of three bytes: U+1680, U+2000 to U+200A, U+2028, U+2029, U+202F,
    U+205F, U+3000 and the byte order mark U+FEFF. *)
Definition is_space3 (c1 c2 c3 : ascii) : bool :=
  let n1 := nat_of_ascii c1 in
  let n2 := nat_of_ascii c2 in
  let n3 := nat_of_ascii c3 in
  ((n1 =? 225) && (n2 =? 154) && (n3 =? 128))%nat
  || ((n1 =? 226) && (n2 =? 128)
      && (((128 <=? n3) && (n3 <=? 138)) || (n3 =? 168) || (n3 =? 169) || (n3 =? 175)))%nat
  || ((n1 =? 226) && (n2 =? 129) && (n3 =? 159))%nat
  || ((n1 =? 227) && (n2 =? 128) && (n3 =? 128))%nat
  || ((n1 =? 239) && (n2 =? 187) && (n3 =? 191))%nat.

Fixpoint trimStart (s : string) : string :=
  match s with
  | EmptyString => EmptyString
  | String c1 rest1 =>
      if is_space c1 then trimStart rest1
      else
        match rest1 with
        | String c2 rest2 =>
            if is_space2 c1 c2 then trimStart rest2
            else
              match rest2 with
              | String c3 rest3 => if is_space3 c1 c2 c3 then trimStart rest3 else s
              | EmptyString => s
              end
        | EmptyString => s
        end
  end.

(** The text is white space from end to end. *)
Fixpoint all_space (s : string) : bool :=
  match s with
  | EmptyString => true
  | String c1 rest1 =>
      if is_space c1 then all_space rest1
      else
        match rest1 with
        | String c2 rest2 =>
            if is_space2 c1 c2 then all_space rest2
            else
              match rest2 with
              | String c3 rest3 => is_space3 c1 c2 c3 && all_space rest3
              | EmptyString => false
              end
        | EmptyString => false
        end
  end.

(** The text is cut where its last run of white space starts. *)
Fixpoint trimEnd (s : string) : string :=
  match s with
  | EmptyString => EmptyString
  | String c rest => if all_space s then EmptyString else String c (trimEnd rest)
  end.

Definition trim (s : string) : string := trimEnd (trimStart s).

Definition is_quote (c : ascii) : bool :=
  let n := nat_of_ascii c in (n =? 34)%nat || (n =? 39)%nat.

(** The second alternative of the pattern, a quote and an optional
    semicolon at the end of the text, removed where it first matches. *)
Fixpoint strip_closing_quote (s : string) : string :=
  match s with
  | EmptyString => EmptyString
  | String c rest =>
      if is_quote c && (String.eqb rest "" || String.eqb rest ";") then EmptyString
      else String c (strip_closing_quote rest)
  end.

(** [value.replace(/^["']|["'];?$/g, '')]: a quote at the start is removed,
    and after it a closing quote with its optional semicolon. *)
Definition strip_quotes (value : string) : string :=
  match value with
  | String c rest => if is_quote c then strip_closing_quote rest
                     else strip_closing_quote value
  | EmptyString => EmptyString
  end.

(** The callback of [map]: one line to its [[key, value]] pair. *)
Definition parse_env_line (line : string) : string * string :=
  match split_on "=" line with
  | key :: valueParts => (trim key, strip_quotes (trim (join "=" valueParts)))
  | [] => (EmptyString, EmptyString)
  end.

(** The predicate of [filter]: [line && !line.startsWith('#')]. *)
Definition is_env_line (line : string) : bool :=
  match line with
  | EmptyString => false
  | String c _ => negb (Ascii.eqb c "#")
  end.

Definition env_entries (envContent : string) : list (string * string) :=
  map parse_env_line (List.filter is_env_line (split_on (ascii_of_nat 10) envContent)).

(** [process.env[name] = value], for a name and a value without NUL
    character (the C library, to which the runtime hands both, would cut
    them there): the variable is set, unless the name is empty, which the
    environment refuses without a report. *)
Definition setenv (name value : string) (env : gmap string string) : gmap string string :=
  if String.eqb name "" then env else <[name := value]> env.

(** [Object.assign(process.env, Object.fromEntries(entries))]: among the
    entries of one name the last decides, and it replaces what the
    environment held. *)
Definition assign_env (entries : list (string * string)) (env : gmap string string)
  : gmap string string :=
  fold_left (fun acc kv => setenv (fst kv) (snd kv) acc) entries env.

(** The [try] block.  [cwdExists] is [existsSync(cwdEnvPath)]; [cwdFile]
    and [scriptFile] are what [readFileSync] gives for the file in the
    working directory and for the one beside the script, [None] when it
    throws.  The file beside the script is read only if the other does not
    exist; a file that cannot be read leaves the environment as it is. *)
Definition load_env (cwdExists : bool) (cwdFile scriptFile : option string)
  (env : gmap string string) : gmap string string :=
  match (if cwdExists then cwdFile else scriptFile) with
  | Some envContent => assign_env (env_entries envContent) env
  | None => env
  end.

Record ConfigImpl : Type := mkConfigImpl {
  impl_BRAVE_API_KEY : string;
  impl_BRAVE_BASE_URL : string;
  impl_WEATHER_USER_AGENT : string;
  impl_WEATHER_API_BASE : string
}.

(** [process.env.NAME || fallback] *)
Definition env_or (env : gmap string string) (name fallback : string) : string :=
  match env !! name with
  | Some value => if truthy_str value then value else fallback
  | None => fallback
  end.

(** [new ConfigImpl()] *)
Definition new_ConfigImpl (env : gmap string string) : Outcome ConfigImpl :=
  let this :=
    mkConfigImpl (env_or env "BRAVE_API_KEY" "")
      (env_or env "BRAVE_BASE_URL" "https://api.search.brave.com/res/v1")
      (env_or env "WEATHER_USER_AGENT" "WeatherApp/1.0")
      (env_or env "WEATHER_API_BASE" "https://api.weather.gov") in
  if negb (truthy_str (impl_BRAVE_API_KEY this))
  then Threw (ThrownError "BRAVE_API_KEY is required")
  else Returned this.

(** A character occurs in a text. *)
Fixpoint occurs (c : ascii) (s : string) : bool :=
  match s with
  | EmptyString => false
  | String c' rest => Ascii.eqb c' c || occurs c rest
  end.

(** ** Sessions and the push channel *)

(** An Express [Response] is known by its identity. *)
Definition Response : Type := nat.

(** Everything a client, or a test double standing in for a collaborator,
    can observe, in the order the program does it. *)
Inductive Action : Type :=
| SseWrite (res : Response) (chunk : string)    (* [res.write(chunk)] returned *)
| SseWriteThrew (res : Response) (chunk : string) (* [res.write(chunk)] threw *)
| SseEnd (res : Response)                       (* [res.end()] *)
| HandlerCalled (tool_name : string) (params : jsval) (* [tool.handler(validatedParams)] *)
| HttpReply (status : Z) (body : jsval)         (* [res.status(status).json(body)] *)
| RouteThrew (error : Thrown).  (* an exception left the route: its promise is
                                   rejected, and the route has sent no reply *)

(** The process state: the session registry [activeSseClients], and the
    responses whose [write] throws at this moment (the transport decides
    that, not the program). *)
Record Server : Type := mkServer {
  activeSseClients : gmap string Response;
  broken : gset Response
}.

Definition write_throws (srv : Server) (res : Response) : bool :=
  bool_decide (res ∈ broken srv).

Definition sessions_delete (clientId : string) (srv : Server) : Server :=
  mkServer (delete clientId (activeSseClients srv)) (broken srv).

Definition sessions_set (clientId : string) (res : Response) (srv : Server) : Server :=
  mkServer (<[clientId := res]> (activeSseClients srv)) (broken srv).

Definition sessions_has (clientId : string) (srv : Server) : bool :=
  bool_decide (is_Some (activeSseClients srv !! clientId)).

(** The frame the program assembles:
    [[`id: ${id}`, `event: ${event}`, `data: ${data}`, ''].join('\\n') + '\\n'],
    the separator being the string the source spells [\\n]. *)
Definition sse_frame (id event data : string) : string :=
  join BACKSLASH_N [ "id: " ++ id; "event: " ++ event; "data: " ++ data; "" ]
  ++ BACKSLASH_N.

(** The frame of the server-push wire format: the same four pieces, each
    ended by a line feed. *)
Definition wire_frame (id event data : string) : string :=
  "id: " ++ id ++ LF ++ "event: " ++ event ++ LF ++ "data: " ++ data ++ LF ++ LF.

(** *** Reading a trace *)

Definition is_push (a : Action) : bool :=
  match a with
  | SseWrite _ _ | SseWriteThrew _ _ => true
  | _ => false
  end.

Definition is_handler_call (a : Action) : bool :=
  match a with
  | HandlerCalled _ _ => true
  | _ => false
  end.

(** An action satisfying [p] happens before the first synchronous reply. *)
Fixpoint before_reply (p : Action -> bool) (trace : list Action) : bool :=
  match trace with
  | [] => false
  | HttpReply _ _ :: _ => false
  | a :: rest => p a || before_reply p rest
  end.

(** The [error_type] of the synchronous reply, if there is one. *)
Fixpoint reply_error_type (trace : list Action) : jsval :=
  match trace with
  | [] => JUndefined
  | HttpReply _ body :: _ => get "error_type" body
  | _ :: rest => reply_error_type rest
  end.

(** The acceptance protocol "acknowledge, then run the tool": neither the
    tool handler nor a push comes before the synchronous reply. *)
Definition acknowledged_first (trace : list Action) : Prop :=
  before_reply is_handler_call trace = false /\ before_reply is_push trace = false.

(** Nothing is pushed on any channel. *)
Definition no_push (trace : list Action) : Prop :=
  Forall (fun a => is_push a = false) trace.

(** The number of occurrences of a character in a text. *)
Fixpoint count_char (c : ascii) (s : string) : nat :=
  match s with
  | EmptyString => O
  | String c' rest => (if Ascii.eqb c c' then 1 else 0) + count_char c rest
  end.

(** [res.write] of [chunk] on [res], as the transport takes it. *)
Definition write_action (srv : Server) (res : Response) (chunk : string) : Action :=
  if write_throws srv res then SseWriteThrew res chunk else SseWrite res chunk.

(** ** A sample environment

    Values for the examples further down: a number printer that is exact on
    the integers the examples use, the configuration defaults of
    [config.ts], a registry holding one session, and a weather service that
    reports no alerts. *)

Definition integer_toString (q : Q) : string := Z_toString (Qnum q / Zpos (Qden q)).

Definition integer_toFixed4 (q : Q) : string := integer_toString q ++ ".0000".

Definition sample_config : Config :=
  mkConfig "https://api.weather.gov" "https://api.search.brave.com/res/v1"
    "brave-key" "google-key" "google-cx".

Definition sample_clientId : string := "client-1700000000000-4fzyo".

Definition sample_server : Server := mkServer {[ sample_clientId := 7%nat ]} ∅.

(** The same session, on a transport that refuses writes. *)
Definition sample_broken_server : Server :=
  mkServer {[ sample_clientId := 7%nat ]} {[ 7%nat ]}.

Definition no_alerts_network : Network :=
  fun _ _ => FetchResponse true (Some (JObj [("type", JStr "FeatureCollection");
                                             ("features", JArr [])])).

(** Networks for the further examples: one that answers nothing, one
    that answers the points request with a forecast link and nothing else,
    a weather service whose answer has no [features], one whose only alert
    is null, and a search provider whose second result is null, or a bare
    string. *)
Definition down_network : Network := fun _ _ => FetchFailed.

Definition sample_forecast_link : string :=
  "https://api.weather.gov/gridpoints/TOP/31,80/forecast".

Definition points_only_network : Network :=
  fun n _ =>
    match n with
    | O => FetchResponse true
             (Some (JObj [("properties", JObj [("forecast", JStr sample_forecast_link)])]))
    | S _ => FetchFailed
    end.

Definition featureless_network : Network :=
  fun _ _ => FetchResponse true (Some (JObj [("title", JStr "Not Found")])).

Definition null_alert_network : Network :=
  fun _ _ => FetchResponse true (Some (JObj [("features", JArr [JNull])])).

Definition sample_search_data : jsval :=
  JObj [ ("web", JObj [("results", JArr [JObj [("title", JStr "Rocq")]; JNull])]);
         ("items", JArr [JObj [("title", JStr "Rocq")]; JStr "rocq-prover.org"]) ].

Definition search_network : Network :=
  fun _ _ => FetchResponse true (Some sample_search_data).

Definition sample_request (client_id tool_name parameters : jsval) : jsval :=
  JObj [ ("id", JStr "req-1"); ("tool_name", tool_name);
         ("parameters", parameters); ("client_id", client_id) ].

Section Gateway.

Variable Number_toString : Q -> string.
(** [x.toFixed(4)], [s.toUpperCase()] and the percent-encoding that
    [encodeURIComponent] gives a well-formed string are built-ins of the
    runtime. *)
Variable toFixed4 : Q -> string.
Variable toUpperCase : string -> string.
Variable percent_encode : string -> string.
Variable config : Config.

Local Abbreviation to_str := (String_of Number_toString).

(** How error messages name the two values that have no properties. *)
Definition nullish_name (o : jsval) : string :=
  match o with
  | JNull => "null"
  | _ => "undefined"
  end.

Definition cannot_read (key : string) (o : jsval) : Thrown :=
  ThrownError ("Cannot read properties of " ++ nullish_name o
               ++ " (reading '" ++ key ++ "')").

(** The [TypeError] of a destructuring pattern applied to [null] or
    [undefined]; [key] is the first property of the pattern and [what] the
    text by which the message names the value. *)
Definition cannot_destructure (key what : string) (o : jsval) : Thrown :=
  ThrownError ("Cannot destructure property '" ++ key ++ "' of '" ++ what
               ++ "' as it is " ++ nullish_name o ++ ".").

(** [x.key] where [x] may be [null] or [undefined]. *)
Definition get_strict (key : string) (o : jsval) : Outcome jsval :=
  match o with
  | JUndefined | JNull => Threw (cannot_read key o)
  | _ => Returned (get key o)
  end.

(** A destructuring default: [{ count = d }], or a parameter [count = d]. *)
Definition or_default (v d : jsval) : jsval :=
  match v with
  | JUndefined => d
  | _ => v
  end.

(** [encodeURIComponent(v)]: the argument is converted to a string, and a
    string that holds a lone surrogate is refused with a [URIError]. *)
Definition encodeURIComponent (v : jsval) : Outcome string :=
  try! s := to_str v in
  if has_lone_surrogate s then Threw (ThrownError "URI malformed")
  else Returned (percent_encode s).

(** *** [weatherService] (src/weather.ts) *)

Definition NWS_API_BASE : string := WEATHER_API_BASE config.

(** Every failure (rejected fetch, non-2xx status, unreadable body) is
    caught and turned into [null]. *)
Definition makeNWSRequest (net : Network) (n : nat) (url : string) : jsval :=
  match net n url with
  | FetchResponse true (Some data) => data
  | _ => JNull
  end.

Definition formatAlert (feature : jsval) : Outcome string :=
  try! props := get_strict "properties" feature in
  match props with
  | JUndefined | JNull => Threw (cannot_read "event" props)
  | _ =>
      try! event := to_str (js_or (get "event" props) (JStr "Unknown")) in
      try! areaDesc := to_str (js_or (get "areaDesc" props) (JStr "Unknown")) in
      try! severity := to_str (js_or (get "severity" props) (JStr "Unknown")) in
      try! status := to_str (js_or (get "status" props) (JStr "Unknown")) in
      try! headline := to_str (js_or (get "headline" props) (JStr "No headline")) in
      Returned (join LF
        [ "Event: " ++ event;
          "Area: " ++ areaDesc;
          "Severity: " ++ severity;
          "Status: " ++ status;
          "Headline: " ++ headline;
          "---" ])
  end.

(** *** [braveService] (src/unnamed/part_000) *)

Record SearchResult : Type := mkSearchResult {
  sr_title : jsval;
  sr_url : jsval;
  sr_description : jsval
}.

Definition brave_result (result : jsval) : Outcome SearchResult :=
  try! title := get_strict "title" result in
  Returned (mkSearchResult title (get "url" result) (get "description" result)).

(** The address is put together before the [try] block, so what its
    template literal throws leaves [search]; what the request and the
    reading of its answer throw is caught there. *)
Definition brave_search (net : Network) (query count : jsval)
  : Outcome (list SearchResult) :=
  let count := or_default count (JNum 10) in
  try! q := encodeURIComponent query in
  try! c := to_str count in
  let url := BRAVE_BASE_URL config ++ "/web/search?q=" ++ q ++ "&count=" ++ c in
  Returned
    match net 0%nat url with
    | FetchResponse true (Some data) =>
        match data with
        | JUndefined | JNull => []                 (* [data.web] throws, caught *)
        | _ =>
            match opt_get "results" (get "web" data) with
            | JUndefined | JNull => []             (* [undefined || []] *)
            | JArr items =>
                match mapM brave_result items with
                | Returned results => results
                | Threw _ => []
                end
            | _ => []                              (* [.map] is not a function, caught *)
            end
        end
    | _ => []
    end.

(** *** [googleSearchService] (src/modules/googleSearch.ts) *)

(** What [item.link] reads: a property of the item, or, when the item is a
    string, the method [String.prototype.link] that strings inherit. *)
Inductive LinkProperty : Type :=
| LinkValue (v : jsval)
| StringPrototypeLink.

Definition get_link (item : jsval) : LinkProperty :=
  match item with
  | JStr _ => StringPrototypeLink
  | _ => LinkValue (get "link" item)
  end.

Record GoogleSearchResult : Type := mkGoogleSearchResult {
  gr_title : jsval;
  gr_link : LinkProperty;
  gr_snippet : jsval
}.

Definition google_result (item : jsval) : Outcome GoogleSearchResult :=
  try! title := get_strict "title" item in
  Returned (mkGoogleSearchResult title (get_link item) (get "snippet" item)).

Definition google_search (net : Network) (query count : jsval)
  : Outcome (list GoogleSearchResult) :=
  let count := or_default count (JNum 5) in
  try! q := encodeURIComponent query in
  try! c := to_str count in
  let url := "https://www.googleapis.com/customsearch/v1?key=" ++ GOOGLE_API_KEY config
             ++ "&cx=" ++ GOOGLE_CSE_ID config ++ "&q=" ++ q ++ "&num=" ++ c in
  Returned
    match net 0%nat url with
    | FetchResponse true (Some data) =>
        match data with
        | JUndefined | JNull => []
        | _ =>
            match js_or (get "items" data) (JArr []) with
            | JArr items =>
                match mapM google_result items with
                | Returned results => results
                | Threw _ => []
                end
            | _ => []
            end
        end
    | _ => []
    end.

(** ** The registered tools *)

Definition ToolHandler : Type := Network -> jsval -> Outcome jsval.

Record ToolDefinition : Type := mkTool {
  description : string;
  schema : ZodObject;
  handler : ToolHandler
}.

Definition not_a_function (what : string) : Thrown :=
  ThrownError (what ++ " is not a function").

(** *** get-alerts *)

Definition get_alerts_schema : ZodObject :=
  [ ("state", describe "Two-letter state code (e.g. CA, NY)" (ZodString [SLength 2] None)) ].

Definition get_alerts_handler : ToolHandler := fun net params =>
  if nullish params
  then Threw (cannot_destructure "state" (nullish_name params) params)
  else
  match get "state" params with
  | JStr state =>
      let stateCode := toUpperCase state in
      let alertsUrl := NWS_API_BASE ++ "/alerts?area=" ++ stateCode in
      let alertsData := makeNWSRequest net 0%nat alertsUrl in
      if negb (truthy alertsData) then
        Returned (text_content "Failed to retrieve alerts data")
      else
        let features := js_or (get "features" alertsData) (JArr []) in
        if is_zero (length_of features) then
          Returned (text_content ("No active alerts for " ++ stateCode))
        else
          match features with
          | JArr items =>
              try! formattedAlerts := mapM formatAlert items in
              Returned (text_content
                ("Active alerts for " ++ stateCode ++ ":" ++ BACKSLASH_N ++ BACKSLASH_N
                 ++ join BACKSLASH_N formattedAlerts))
          | _ => Threw (not_a_function "features.map")
          end
  | JUndefined | JNull => Threw (cannot_read "toUpperCase" (get "state" params))
  | _ => Threw (not_a_function "state.toUpperCase")
  end.

(** *** get-forecast *)

Definition get_forecast_schema : ZodObject :=
  [ ("latitude", describe "Latitude of the location" (ZodNumber [NMin (-90); NMax 90] None));
    ("longitude", describe "Longitude of the location" (ZodNumber [NMin (-180); NMax 180] None)) ].

Definition DEGREE : string := String (ascii_of_nat 194) (String (ascii_of_nat 176) EmptyString).

Definition format_period (period : jsval) : Outcome string :=
  try! name := get_strict "name" period in
  try! name := to_str (js_or name (JStr "Unknown")) in
  try! temperature := to_str (js_or (get "temperature" period) (JStr "Unknown")) in
  try! temperatureUnit := to_str (js_or (get "temperatureUnit" period) (JStr "F")) in
  try! windSpeed := to_str (js_or (get "windSpeed" period) (JStr "Unknown")) in
  try! windDirection := to_str (js_or (get "windDirection" period) (JStr "")) in
  try! shortForecast :=
    to_str (js_or (get "shortForecast" period) (JStr "No forecast available")) in
  Returned (join BACKSLASH_N
    [ name ++ ":";
      "Temperature: " ++ temperature ++ DEGREE ++ temperatureUnit;
      "Wind: " ++ windSpeed ++ " " ++ windDirection;
      shortForecast;
      "---" ]).

Definition get_forecast_handler : ToolHandler := fun net params =>
  if nullish params
  then Threw (cannot_destructure "latitude" (nullish_name params) params)
  else
  match get "latitude" params, get "longitude" params with
  | JNum latitude, JNum longitude =>
      let pointsUrl := NWS_API_BASE ++ "/points/" ++ toFixed4 latitude ++ ","
                       ++ toFixed4 longitude in
      let pointsData := makeNWSRequest net 0%nat pointsUrl in
      let forecast := opt_get "forecast" (opt_get "properties" pointsData) in
      if negb (truthy forecast) then
        Returned (text_content "Failed to get forecast data for this location")
      else
        let forecastData :=
          match to_str forecast with        (* [fetch] converts what it is given, *)
          | Returned url => makeNWSRequest net 1%nat url
          | Threw _ => JNull                (* inside the [try] block *)
          end in
        let periods := opt_get "periods" (opt_get "properties" forecastData) in
        let len := match periods with
                   | JUndefined | JNull => JUndefined
                   | _ => length_of periods
                   end in
        if negb (truthy len) then
          Returned (text_content "No forecast data available")
        else
          match periods with
          | JArr items =>
              try! formattedForecast := mapM format_period items in
              Returned (text_content
                ("Forecast for " ++ Number_toString latitude ++ ", "
                 ++ Number_toString longitude ++ ":" ++ BACKSLASH_N ++ BACKSLASH_N
                 ++ join BACKSLASH_N formattedForecast))
          | _ => Threw (not_a_function "forecastData.properties.periods.map")
          end
  | JNum _, o => Threw (match o with
                        | JUndefined | JNull => cannot_read "toFixed" o
                        | _ => not_a_function "longitude.toFixed"
                        end)
  | o, _ => Threw (match o with
                   | JUndefined | JNull => cannot_read "toFixed" o
                   | _ => not_a_function "latitude.toFixed"
                   end)
  end.

(** *** brave-web-search *)

Definition brave_web_search_schema : ZodObject :=
  [ ("query", describe "The search query" (ZodString [] None));
    ("count", describe "Number of results to return (max 20)"
                (ZodOptional (ZodNumber [NMin 1; NMax 20] None) None)) ].

Definition format_search_result (result : SearchResult) : Outcome string :=
  try! title := to_str (sr_title result) in
  try! url := to_str (sr_url result) in
  try! description :=
    (if truthy (sr_description result)
     then try! text := to_str (sr_description result) in Returned ("Description: " ++ text)
     else Returned "") in
  Returned (join BACKSLASH_N
    (filter (fun line => truthy_str line = true)
       [ "Title: " ++ title; "URL: " ++ url; description; "---" ])).

Definition brave_web_search_handler : ToolHandler := fun net params =>
  if nullish params
  then Threw (cannot_destructure "query" (nullish_name params) params)
  else
  let query := get "query" params in
  let count := or_default (get "count" params) (JNum 10) in
  try! results := brave_search net query count in
  match results with
  | [] => Returned (text_content "No search results found")
  | _ =>
      try! formattedResults := mapM format_search_result results in
      try! printed := to_str query in
      Returned (text_content
        ("Search results for " ++ DQUOTE ++ printed ++ DQUOTE ++ ":"
         ++ BACKSLASH_N ++ BACKSLASH_N ++ join BACKSLASH_N formattedResults))
  end.

(** *** google-search *)

Definition google_search_schema : ZodObject :=
  [ ("query", describe "The search query" (ZodString [] None));
    ("count", describe "Number of results to return (max 10)"
                (ZodOptional (ZodNumber [NMin 1; NMax 10] None) None)) ].

(** [`${r.link}`]: a built-in method prints as its source text. *)
Definition print_link (link : LinkProperty) : Outcome string :=
  match link with
  | LinkValue v => to_str v
  | StringPrototypeLink => Returned "function link() { [native code] }"
  end.

Definition format_google_result (r : GoogleSearchResult) (i : nat) : Outcome string :=
  try! title := to_str (gr_title r) in
  try! link := print_link (gr_link r) in
  try! snippet := to_str (gr_snippet r) in
  Returned (Z_toString (Z.of_nat i + 1) ++ ". " ++ title ++ BACKSLASH_N
            ++ link ++ BACKSLASH_N ++ snippet).

Definition google_search_handler : ToolHandler := fun net params =>
  if nullish params
  then Threw (cannot_destructure "query" (nullish_name params) params)
  else
  let query := get "query" params in
  let count := or_default (get "count" params) (JNum 5) in
  try! results := google_search net query count in
  match results with
  | [] => Returned (text_content "No results found from Google Search.")
  | _ =>
      try! formattedResults := mapiM_from format_google_result 0 results in
      try! printed := to_str query in
      Returned (text_content
        ("Google Search results for " ++ DQUOTE ++ printed ++ DQUOTE ++ ":"
         ++ BACKSLASH_N ++ BACKSLASH_N
         ++ join (BACKSLASH_N ++ BACKSLASH_N) formattedResults))
  end.

(** ** Tool registry: [const tools = new Map<string, ToolDefinition>()] *)

(** A [Map] keeps its keys in insertion order; [set] on a present key
    replaces the value where it stands. *)
Definition ToolMap : Type := list (string * ToolDefinition).

Fixpoint map_set (name : string) (def : ToolDefinition) (m : ToolMap) : ToolMap :=
  match m with
  | [] => [(name, def)]
  | (k, d) :: rest =>
      if String.eqb k name then (k, def) :: rest else (k, d) :: map_set name def rest
  end.

Fixpoint map_get (name : string) (m : ToolMap) : option ToolDefinition :=
  match m with
  | [] => None
  | (k, d) :: rest => if String.eqb k name then Some d else map_get name rest
  end.

Definition registerTool (name description : string) (schema : ZodObject)
  (handler : ToolHandler) (m : ToolMap) : ToolMap :=
  map_set name (mkTool description schema handler) m.

(** The registry after the four registrations of the module body. *)
Definition tools : ToolMap :=
  registerTool "google-search" "Search the web using Google Custom Search"
    google_search_schema google_search_handler
  (registerTool "brave-web-search" "Search the web using Brave Search"
    brave_web_search_schema brave_web_search_handler
  (registerTool "get-forecast" "Get weather forecast for a location"
    get_forecast_schema get_forecast_handler
  (registerTool "get-alerts" "Get weather alerts for a state"
    get_alerts_schema get_alerts_handler []))).

(** The same four registrations, as a run of calls. *)
Definition registrations : list (string * ToolDefinition) :=
  [ ("get-alerts",
      mkTool "Get weather alerts for a state" get_alerts_schema get_alerts_handler);
    ("get-forecast",
      mkTool "Get weather forecast for a location" get_forecast_schema get_forecast_handler);
    ("brave-web-search",
      mkTool "Search the web using Brave Search" brave_web_search_schema
        brave_web_search_handler);
    ("google-search",
      mkTool "Search the web using Google Custom Search" google_search_schema
        google_search_handler) ].

(** *** get-alerts as the stdio server registers it (src/index.ts)

    The same lookup; the text is wrapped as [{ content: [{ type, text }] }]
    and alerts are joined by line feeds. *)

Definition stdio_content (text : string) : jsval :=
  JObj [("content", JArr [text_content text])].

Definition stdio_get_alerts_handler : ToolHandler := fun net params =>
  if nullish params
  then Threw (cannot_destructure "state" (nullish_name params) params)
  else
  match get "state" params with
  | JStr state =>
      let stateCode := toUpperCase state in
      let alertsUrl := NWS_API_BASE ++ "/alerts?area=" ++ stateCode in
      let alertsData := makeNWSRequest net 0%nat alertsUrl in
      if negb (truthy alertsData) then
        Returned (stdio_content "Failed to retrieve alerts data")
      else
        let features := js_or (get "features" alertsData) (JArr []) in
        if is_zero (length_of features) then
          Returned (stdio_content ("No active alerts for " ++ stateCode))
        else
          match features with
          | JArr items =>
              try! formattedAlerts := mapM formatAlert items in
              Returned (stdio_content
                ("Active alerts for " ++ stateCode ++ ":" ++ LF ++ LF
                 ++ join LF formattedAlerts))
          | _ => Threw (not_a_function "features.map")
          end
  | JUndefined | JNull => Threw (cannot_read "toUpperCase" (get "state" params))
  | _ => Threw (not_a_function "state.toUpperCase")
  end.

(** ** Capability advertisement *)

Definition description_truthy (d : option string) : bool :=
  match d with
  | Some text => truthy_str text
  | None => false
  end.

Definition with_description (d : option string) (schema : list (string * jsval))
  : list (string * jsval) :=
  match d with
  | Some text => if truthy_str text then set_field "description" (JStr text) schema else schema
  | None => schema
  end.

Fixpoint zodToJsonSchemaProperty (zodType : ZodType) : list (string * jsval) :=
  let description := zod_description zodType in
  match zodType with
  | ZodOptional innerType _ | ZodDefault innerType _ _ =>
      let innerSchema := zodToJsonSchemaProperty innerType in
      if description_truthy description
         && negb (truthy (lookup_field "description" innerSchema))
      then with_description description innerSchema
      else innerSchema
  | ZodString _ _ => with_description description [("type", JStr "string")]
  | ZodNumber _ _ => with_description description [("type", JStr "number")]
  | ZodBoolean _ => with_description description [("type", JStr "boolean")]
  | _ =>
      with_description description
        [ ("type", JStr "object");
          ("description", JStr ("Complex type: " ++ typeName zodType)) ]
  end.

(** The loop [for (const key in schema.shape)]: the accumulated
    [properties] object and [required] array. *)
Fixpoint shape_loop (shape : ZodObject) (properties : list (string * jsval))
  (required : list string) : list (string * jsval) * list string :=
  match shape with
  | [] => (properties, required)
  | (key, fieldSchema) :: rest =>
      let properties' := set_field key (JObj (zodToJsonSchemaProperty fieldSchema)) properties in
      let required' := if negb (is_optional_or_default fieldSchema)
                       then (required ++ [key])%list else required in
      shape_loop rest properties' required'
  end.

Definition tool_entry (entry : string * ToolDefinition) : jsval :=
  let '(name, def) := entry in
  let '(properties, required) := shape_loop (schema def) [] [] in
  JObj [ ("name", JStr name);
         ("description", JStr (description def));
         ("parameters",
           JObj (app [ ("type", JStr "object"); ("properties", JObj properties) ]
                   match required with
                   | [] => []
                   | _ => [("required", JArr (map JStr required))]
                   end)) ].

(** [mcpHandshakeResponse], for a given registry. *)
Definition handshake_of (m : ToolMap) : jsval :=
  JObj [ ("type", JStr "mcp_handshake_response");
         ("mcp_version", JStr "1.0");
         ("server_name", JStr "MyCustom_MCP_Express_Server");
         ("server_version", JStr "1.0.0");
         ("capabilities",
           JObj [ ("tools", JArr (map tool_entry m));
                  ("resources", JObj []) ]) ].

Definition mcpHandshakeResponse : jsval := handshake_of tools.

(** Readers of a handshake payload. *)
Definition capability_list (handshake : jsval) : list jsval :=
  match get "tools" (get "capabilities" handshake) with
  | JArr entries => entries
  | _ => []
  end.

Definition entry_name (entry : jsval) : jsval := get "name" entry.

Definition entry_required (entry : jsval) : list jsval :=
  match get "required" (get "parameters" entry) with
  | JArr names => names
  | _ => []
  end.

(** The fields of a schema that carry no optional or default marker. *)
Definition required_fields (shape : ZodObject) : list string :=
  map fst (List.filter (fun kt => negb (is_optional_or_default (snd kt))) shape).

(** The keys of a [Map] after a run of [set] calls: each name once, at the
    place of its first insertion. *)
Fixpoint insertion_order (seen names : list string) : list string :=
  match names with
  | [] => []
  | n :: rest =>
      if bool_decide (n ∈ seen) then insertion_order seen rest
      else n :: insertion_order (seen ++ [n])%list rest
  end.

(** A run of [registerTool] calls. *)
Definition register_all (regs : list (string * ToolDefinition)) (m : ToolMap) : ToolMap :=
  fold_left (fun acc r => map_set (fst r) (snd r) acc) regs m.

(** ** Pushing events *)

Local Abbreviation stringify := (stringify_text Number_toString).

(** [sendSseMessage(clientId, eventName, data, messageIdPrefix)] at time
    [now]: a write failure is caught and logged, the registry is left as it
    is. *)
Definition sendSseMessage (srv : Server) (now : Z) (clientId eventName : string)
  (data : jsval) (messageIdPrefix : string) : Server * list Action :=
  match activeSseClients srv !! clientId with
  | Some clientRes =>
      let sseMessageId := messageIdPrefix ++ "-" ++ Z_toString now in
      let message := sse_frame sseMessageId eventName (stringify data) in
      (srv, [write_action srv clientRes message])
  | None => (srv, [])
  end.

(** *** The [/sse] route *)

Definition new_clientId (now : Z) (random36 : string) : string :=
  "client-" ++ Z_toString now ++ "-" ++ substring 2 7 random36.

Definition clientIdMessagePayload (clientId : string) : jsval :=
  JObj [ ("type", JStr "client_id_assigned"); ("client_id", JStr clientId) ].

Definition handshakeMessage (now : Z) : string :=
  sse_frame ("sse-handshake-" ++ Z_toString now) "mcp" (stringify mcpHandshakeResponse).

Definition clientIdMessage (now : Z) (clientId : string) : string :=
  sse_frame ("sse-clientid-" ++ Z_toString now) "mcp"
    (stringify (clientIdMessagePayload clientId)).

(** What a channel-open request leaves behind: the new state, the token,
    what was written, and whether the three teardown listeners were
    registered. *)
Record Opened : Type := mkOpened {
  opened_server : Server;
  opened_clientId : string;
  opened_actions : list Action;
  opened_listening : bool
}.

(** [app.get('/sse', (req, res) => ...)].  [t0], [t1], [t2] are the three
    readings of [Date.now()], [random36] is [Math.random().toString(36)]. *)
Definition sse_open (srv : Server) (res : Response) (t0 t1 t2 : Z) (random36 : string)
  : Opened :=
  let clientId := new_clientId t0 random36 in
  let srv1 := sessions_set clientId res srv in
  if write_throws srv1 res then
    mkOpened (sessions_delete clientId srv1) clientId
      [SseWriteThrew res (handshakeMessage t1); SseEnd res] false
  else
    mkOpened srv1 clientId
      [SseWrite res (handshakeMessage t1); SseWrite res (clientIdMessage t2 clientId)] true.

(** The listeners: [req.on('close')], [req.on('error')], [res.on('error')].
    Each one deletes the token its closure captured. *)
Inductive ChannelEvent : Type := ReqClose | ReqError | ResError.

Definition on_channel_event (clientId : string) (ev : ChannelEvent) (srv : Server) : Server :=
  match ev with
  | ReqClose => sessions_delete clientId srv
  | ReqError => sessions_delete clientId srv
  | ResError => sessions_delete clientId srv
  end.

(** A channel's events delivered in turn; the count is the number of times
    [activeSseClients.delete(clientId)] ran. *)
Fixpoint run_channel_events (clientId : string) (evs : list ChannelEvent) (srv : Server)
  : Server * nat :=
  match evs with
  | [] => (srv, O)
  | ev :: rest =>
      let '(srv', n) := run_channel_events clientId rest (on_channel_event clientId ev srv) in
      (srv', S n)
  end.

(** *** The [/tool_call] route *)

Definition error_payload (id : jsval) (error_type message : string) : jsval :=
  JObj [ ("id", id); ("type", JStr "error");
         ("error_type", JStr error_type); ("message", JStr message) ].

(** [sendSseMessage(...); res.status(status).json(payload); return;] *)
Definition push_and_reply (srv : Server) (now : Z) (clientId : string) (payload : jsval)
  (prefix : string) (status : Z) (reply : jsval) : list Action :=
  (snd (sendSseMessage srv now clientId "mcp" payload prefix) ++ [HttpReply status reply])%list.

(** The [catch (error)] block. *)
Definition catch_block (srv : Server) (now : Z) (clientId : string) (messageId : jsval)
  (error : Thrown) : list Action :=
  let '(errorType, errorMessage, httpStatus) :=
    match error with
    | ThrownZodError errors =>
        ("invalid_parameters",
         "Parameter validation failed: " ++ join ", " (map message errors), 400)
    | ThrownError msg => ("tool_error", msg, 500)
    | ThrownValue _ => ("tool_error", "Tool execution failed.", 500)
    end in
  let errorPayload := error_payload messageId errorType errorMessage in
  push_and_reply srv now clientId errorPayload "err" httpStatus errorPayload.

(** The handler up to its only [await]: it has answered, or a tool handler
    is to be called, or an exception has left it. *)
Inductive Dispatch : Type :=
| Answered (actions : list Action)
| Invoke (clientId : string) (messageId : jsval) (tool_name : string)
    (tool : ToolDefinition) (validatedParams : jsval)
| Thrown_out (error : Thrown).

(** The reply to a truthy [client_id] that names no session.  The message
    is a template literal, evaluated after [res.status(400)] and before
    [.json(...)] is called: when printing the value throws, nothing is
    sent. *)
Definition invalid_client_id (messageId clientId : jsval) : Dispatch :=
  match to_str clientId with
  | Returned printed =>
      Answered [HttpReply 400
        (error_payload (js_or messageId (JStr "unknown")) "invalid_client_id"
           ("No active SSE session found for client_id: " ++ printed
            ++ ". Please connect to /sse first."))]
  | Threw error => Thrown_out error
  end.

(** The branch of an unknown tool.  Its message too is a template literal,
    evaluated before anything is pushed or replied. *)
Definition unknown_tool (srv : Server) (now : Z) (cid : string) (messageId tool_name : jsval)
  : Dispatch :=
  match to_str tool_name with
  | Returned printed =>
      let errorPayload :=
        error_payload messageId "unknown_tool" ("Tool '" ++ printed ++ "' not found.") in
      Answered (push_and_reply srv now cid errorPayload "err" 400 errorPayload)
  | Threw error => Thrown_out error
  end.

Definition dispatch (srv : Server) (now : Z) (body : jsval) : Dispatch :=
  if nullish body
  then Thrown_out (cannot_destructure "id" "req.body" body)
  else
  let messageId := get "id" body in
  let tool_name := get "tool_name" body in
  let parameters := get "parameters" body in
  let clientId := get "client_id" body in
  if negb (truthy clientId) then
    Answered [HttpReply 400
      (error_payload (js_or messageId (JStr "unknown")) "missing_client_id"
         "client_id is required in the request body for /tool_call.")]
  else
    match clientId with
    | JStr cid =>
        if negb (sessions_has cid srv) then invalid_client_id messageId clientId
        else
          match tool_name with
          | JStr name =>
              match (if truthy tool_name then map_get name tools else None) with
              | Some tool =>
                  match parse Number_toString (schema tool) parameters with
                  | Parsed validatedParams => Invoke cid messageId name tool validatedParams
                  | ZodErrorThrown errors =>
                      Answered (catch_block srv now cid messageId (ThrownZodError errors))
                  end
              | None => unknown_tool srv now cid messageId tool_name
              end
          | _ =>                    (* falsy, or not a key of the [Map] *)
              unknown_tool srv now cid messageId tool_name
          end
    | _ =>                          (* a key that is not a string is in no [Map] *)
        invalid_client_id messageId clientId
    end.

Definition tool_response_message (messageId : jsval) (tool_name : string) (result : jsval)
  : jsval :=
  JObj [ ("id", messageId); ("type", JStr "tool_response");
         ("tool_name", JStr tool_name); ("tool_response", result) ].

Definition accepted_reply (messageId : jsval) : jsval :=
  JObj [ ("id", messageId); ("status", JStr "processing");
         ("message", JStr "Tool call accepted, response will be sent via SSE.") ].

(** The handler after the [await]: [srv] and [now] are the state and the
    clock when the tool's promise settles. *)
Definition settle (srv : Server) (now : Z) (clientId : string) (messageId : jsval)
  (tool_name : string) (outcome : Outcome jsval) : list Action :=
  match outcome with
  | Returned result =>
      let toolResponseMessage := tool_response_message messageId tool_name result in
      push_and_reply srv now clientId toolResponseMessage "toolrsp" 202
        (accepted_reply messageId)
  | Threw error => catch_block srv now clientId messageId error
  end.

(** [toolCallHandler]: the request arrives in state [srv] at time [now];
    if a tool is called, its promise settles in state [srv'] at time [now'],
    [net] being the network it saw. *)
Definition toolCallHandler (srv : Server) (now : Z) (body : jsval)
  (net : Network) (srv' : Server) (now' : Z) : list Action :=
  match dispatch srv now body with
  | Answered actions => actions
  | Invoke clientId messageId tool_name tool validatedParams =>
      HandlerCalled tool_name validatedParams
      :: settle srv' now' clientId messageId tool_name (handler tool net validatedParams)
  | Thrown_out error => [RouteThrew error]
  end.

(** A synchronous reply of the [/tool_call] route. *)
Definition is_reply (a : Action) : bool :=
  match a with
  | HttpReply _ _ => true
  | _ => false
  end.

(** How a request that got past the session check can end before a tool is
    called: with one push on the session's response and a 400 reply. *)
Definition rejected_with_push (srv : Server) (cid : string) (trace : list Action) : Prop :=
  exists res chunk payload,
    activeSseClients srv !! cid = Some res
    /\ trace = [write_action srv res chunk; HttpReply 400 payload].

(** Readers used by the further properties. *)
Definition entry_properties (entry : jsval) : list (string * jsval) :=
  match get "properties" (get "parameters" entry) with
  | JObj properties => properties
  | _ => []
  end.

(** A request the collaborator could not answer: the fetch was rejected,
    the status was not 2xx, or the body was not JSON. *)
Definition request_failed (r : FetchResult) : Prop :=
  match r with
  | FetchResponse true (Some _) => False
  | _ => True
  end.

(** The schema type under its optional and default wrappers. *)
Fixpoint unwrap (t : ZodType) : ZodType :=
  match t with
  | ZodOptional inner _ | ZodDefault inner _ _ => unwrap inner
  | _ => t
  end.

(** The JSON-schema type name the advertisement gives a field. *)
Definition advertised_type (t : ZodType) : string :=
  match unwrap t with
  | ZodString _ _ => "string"
  | ZodNumber _ _ => "number"
  | ZodBoolean _ => "boolean"
  | _ => "object"
  end.

(** What [braveService.search] and [googleSearchService.search] make of one
    entry of the provider's answer. *)
Definition to_search_result (result : jsval) : SearchResult :=
  mkSearchResult (get "title" result) (get "url" result) (get "description" result).

Definition to_google_result (item : jsval) : GoogleSearchResult :=
  mkGoogleSearchResult (get "title" item) (get_link item) (get "snippet" item).

(** * Properties *)

(** ** Strings and small facts *)

Lemma truthy_str_iff (s : string) : truthy_str s = true <-> s <> "".
Proof.
  unfold truthy_str. destruct (String.eqb_spec s ""); simpl; split; intros; congruence.
Qed.

Lemma join_three (sep a b c d : string) :
  join sep [a; b; c; d] = a ++ sep ++ b ++ sep ++ c ++ sep ++ d.
Proof. reflexivity. Qed.

Lemma string_app_assoc (a b c : string) : (a ++ b) ++ c = a ++ (b ++ c).
Proof. induction a as [|ch a IH]; simpl; [reflexivity | now rewrite IH]. Qed.

Lemma string_app_inv_head (a b c : string) : a ++ b = a ++ c -> b = c.
Proof.
  induction a as [|ch a IH]; simpl; intros H; [exact H | injection H as H; auto].
Qed.

(** A value with a property is neither [null] nor [undefined]. *)
Lemma get_defined (key : string) (o : jsval) :
  get key o <> JUndefined -> nullish o = false.
Proof. destruct o; intros H; try reflexivity; now destruct H. Qed.

Lemma get_string_defined (key : string) (o : jsval) (s : string) :
  get key o = JStr s -> nullish o = false.
Proof. intros H. apply (get_defined key). rewrite H. discriminate. Qed.

(** Induction on a value and on the values it holds. *)
Lemma jsval_nested_ind (P : jsval -> Prop) :
  P JUndefined -> P JNull -> (forall b, P (JBool b)) -> (forall q, P (JNum q)) ->
  (forall s, P (JStr s)) ->
  (forall items, Forall P items -> P (JArr items)) ->
  (forall fields, Forall (fun kv => P (snd kv)) fields -> P (JObj fields)) ->
  forall v, P v.
Proof.
  intros Hu Hn Hb Hq Hs Ha Ho.
  fix IH 1. intros [ | |b|q|s|items|fields];
    [exact Hu | exact Hn | apply Hb | apply Hq | apply Hs | |].
  - apply Ha. induction items as [|x items IHitems]; constructor; [apply IH | exact IHitems].
  - apply Ho. induction fields as [|[k x] fields IHfields]; constructor;
      [apply IH | exact IHfields].
Qed.

(** Printing a value fails exactly on the values [unprintable] names, and
    then with the [TypeError] of the conversion. *)
Lemma String_of_cases (v : jsval) :
  (unprintable v = false /\ exists printed, to_str v = Returned printed)
  \/ (unprintable v = true /\ to_str v = Threw cannot_convert).
Proof.
  induction v as [ | |b|q|s|items IH|fields _] using jsval_nested_ind;
    try (left; split; [reflexivity | eexists; reflexivity]).
  - cbn [String_of unprintable].
    set (element := fun x => match x with
                             | JUndefined | JNull => Returned ""
                             | _ => to_str x
                             end).
    assert (Hitems :
      (existsb unprintable items = false /\ exists parts, mapM element items = Returned parts)
      \/ (existsb unprintable items = true /\ mapM element items = Threw cannot_convert)).
    { induction IH as [|x items Hx _ IHitems]; [left; split; [reflexivity | eexists; reflexivity] |].
      cbn [existsb mapM].
      assert (Helement :
        (unprintable x = false /\ exists printed, element x = Returned printed)
        \/ (unprintable x = true /\ element x = Threw cannot_convert)).
      { destruct x; try exact Hx; left; split; try reflexivity; eexists; reflexivity. }
      destruct Helement as [[-> [printed ->]] | [-> ->]]; [| right; split; reflexivity].
      cbn [orb bind].
      destruct IHitems as [[-> [parts ->]] | [-> ->]];
        [left; split; [reflexivity | eexists; reflexivity] | right; split; reflexivity]. }
    destruct Hitems as [[-> [parts ->]] | [-> ->]];
      [left; split; [reflexivity | eexists; reflexivity] | right; split; reflexivity].
  - cbn [String_of unprintable].
    destruct (has_own "toString" fields);
      [right; split; reflexivity | left; split; [reflexivity | eexists; reflexivity]].
Qed.

Lemma String_of_printable (v : jsval) :
  unprintable v = false -> exists printed, to_str v = Returned printed.
Proof. destruct (String_of_cases v) as [[_ H] | [H _]]; [auto | congruence]. Qed.

Lemma String_of_unprintable (v : jsval) :
  unprintable v = true -> to_str v = Threw cannot_convert.
Proof. destruct (String_of_cases v) as [[H _] | [_ H]]; [congruence | auto]. Qed.

Lemma String_of_threw (v : jsval) (e : Thrown) :
  to_str v = Threw e -> unprintable v = true /\ e = cannot_convert.
Proof.
  destruct (String_of_cases v) as [[_ [printed ->]] | [H ->]]; [discriminate |].
  intros [= <-]. auto.
Qed.

(** The frame the program writes, spelled out. *)
Lemma sse_frame_spelled (id event data : string) :
  sse_frame id event data =
  "id: " ++ id ++ BACKSLASH_N ++ "event: " ++ event ++ BACKSLASH_N
  ++ "data: " ++ data ++ BACKSLASH_N ++ BACKSLASH_N.
Proof.
  unfold sse_frame. rewrite join_three.
  repeat (rewrite !string_app_assoc; simpl). reflexivity.
Qed.

(** ** The registry *)

Lemma tools_get_alerts :
  map_get "get-alerts" tools
  = Some (mkTool "Get weather alerts for a state" get_alerts_schema get_alerts_handler).
Proof. reflexivity. Qed.

Lemma tools_brave :
  map_get "brave-web-search" tools
  = Some (mkTool "Search the web using Brave Search" brave_web_search_schema
            brave_web_search_handler).
Proof. reflexivity. Qed.

Lemma tools_no_empty_name : map_get "" tools = None.
Proof. reflexivity. Qed.

Lemma tools_registered : tools = register_all registrations [].
Proof. reflexivity. Qed.

Lemma sessions_has_lookup (srv : Server) (cid : string) :
  sessions_has cid srv = true <-> exists res, activeSseClients srv !! cid = Some res.
Proof.
  unfold sessions_has. rewrite bool_decide_eq_true. unfold is_Some. reflexivity.
Qed.

Lemma sendSseMessage_live (srv : Server) (now : Z) (cid ev : string) (data : jsval)
  (prefix : string) (res : Response) :
  activeSseClients srv !! cid = Some res ->
  sendSseMessage srv now cid ev data prefix
  = (srv, [write_action srv res
             (sse_frame (prefix ++ "-" ++ Z_toString now) ev (stringify data))]).
Proof.
  intros H. unfold sendSseMessage. rewrite H. reflexivity.
Qed.

(** ** Dispatch *)

(** Past the session and tool checks, the request is decided by the
    parameter schema. *)
Lemma dispatch_checked (srv : Server) (now : Z) (body : jsval) (cid name : string)
  (tool : ToolDefinition) :
  get "client_id" body = JStr cid -> cid <> "" -> sessions_has cid srv = true ->
  get "tool_name" body = JStr name -> map_get name tools = Some tool ->
  dispatch srv now body
  = match parse Number_toString (schema tool) (get "parameters" body) with
    | Parsed params => Invoke cid (get "id" body) name tool params
    | ZodErrorThrown errors =>
        Answered (catch_block srv now cid (get "id" body) (ThrownZodError errors))
    end.
Proof.
  intros Hc Hne Hlive Ht Hreg. unfold dispatch.
  rewrite (get_string_defined "client_id" body cid Hc), Hc, Ht.
  assert (Hn : name <> "").
  { intros ->. rewrite tools_no_empty_name in Hreg. discriminate. }
  apply truthy_str_iff in Hne, Hn. unfold truthy_str in Hne, Hn.
  cbn [truthy]. rewrite Hne, Hn, Hlive. cbn [negb].
  rewrite Hreg. reflexivity.
Qed.

(** A request passes the four checks: the token is present and names a live
    session, the tool is registered, and the parameters parse. *)
Lemma dispatch_invoke (srv : Server) (now : Z) (body : jsval) (cid name : string)
  (tool : ToolDefinition) (params : jsval) :
  get "client_id" body = JStr cid -> cid <> "" -> sessions_has cid srv = true ->
  get "tool_name" body = JStr name -> map_get name tools = Some tool ->
  parse Number_toString (schema tool) (get "parameters" body) = Parsed params ->
  dispatch srv now body = Invoke cid (get "id" body) name tool params.
Proof.
  intros Hc Hne Hlive Ht Hreg Hparse.
  rewrite (dispatch_checked srv now body cid name tool Hc Hne Hlive Ht Hreg), Hparse.
  reflexivity.
Qed.

(** What the [catch] block answers: one error payload, pushed and replied,
    with a status that is never 202. *)
Lemma catch_block_shape (srv : Server) (now : Z) (cid : string) (mid : jsval) (e : Thrown) :
  exists (status : Z) (errorType msg : string),
    catch_block srv now cid mid e
    = (snd (sendSseMessage srv now cid "mcp" (error_payload mid errorType msg) "err")
       ++ [HttpReply status (error_payload mid errorType msg)])%list
    /\ (status = 400 \/ status = 500).
Proof.
  destruct e as [errors | msg | v]; unfold catch_block, push_and_reply;
    do 3 eexists; (split; [reflexivity | auto]).
Qed.

(** C1 (amended): a request that passes the four checks has its tool
    handler called first; the handler's promise is awaited, then the session
    is pushed the [tool_response] Event (if it is still registered), and only
    then the synchronous 202 reply [{ id, status: "processing" }] is sent.
    If the handler fails, an error Event is pushed and the synchronous reply
    is an error with status 400 or 500; no 202 is sent. *)
Theorem handler_runs_before_acceptance (srv : Server) (now : Z) (body : jsval)
  (net : Network) (srv' : Server) (now' : Z) (cid name : string)
  (tool : ToolDefinition) (params : jsval) :
  get "client_id" body = JStr cid -> cid <> "" -> sessions_has cid srv = true ->
  get "tool_name" body = JStr name -> map_get name tools = Some tool ->
  parse Number_toString (schema tool) (get "parameters" body) = Parsed params ->
  let trace := toolCallHandler srv now body net srv' now' in
  let mid := get "id" body in
  before_reply is_handler_call trace = true
  /\ (forall result, handler tool net params = Returned result ->
       trace = (HandlerCalled name params
                :: snd (sendSseMessage srv' now' cid "mcp"
                          (tool_response_message mid name result) "toolrsp")
                ++ [HttpReply 202 (accepted_reply mid)])%list)
  /\ (forall e, handler tool net params = Threw e ->
       exists (status : Z) (errorType msg : string),
         (status = 400 \/ status = 500)
         /\ trace = (HandlerCalled name params
                     :: snd (sendSseMessage srv' now' cid "mcp"
                               (error_payload mid errorType msg) "err")
                     ++ [HttpReply status (error_payload mid errorType msg)])%list).
Proof.
  intros Hc Hne Hlive Ht Hreg Hparse trace mid. subst trace mid.
  unfold toolCallHandler.
  rewrite (dispatch_invoke srv now body cid name tool params Hc Hne Hlive Ht Hreg Hparse).
  split; [reflexivity | split].
  - intros result Hres. rewrite Hres. reflexivity.
  - intros e He. rewrite He. unfold settle.
    destruct (catch_block_shape srv' now' cid (get "id" body) e)
      as (status & errorType & msg & Heq & Hst).
    exists status, errorType, msg. split; [exact Hst | now rewrite Heq].
Qed.

(** ** Capability advertisement *)

Lemma map_set_keys (name : string) (def : ToolDefinition) (m : ToolMap) :
  map fst (map_set name def m)
  = if bool_decide (name ∈ map fst m) then map fst m else (map fst m ++ [name])%list.
Proof.
  induction m as [|[k d] m IH]; cbn [map_set map fst].
  - case_bool_decide as H; [now apply not_elem_of_nil in H | reflexivity].
  - destruct (String.eqb_spec k name) as [->|Hne]; cbn [map fst].
    + clear IH. case_bool_decide as H; [reflexivity | exfalso; apply H, list_elem_of_here].
    + rewrite IH. clear IH. repeat case_bool_decide; try reflexivity.
      * exfalso. match goal with H : ~ _ |- _ => apply H end. now apply list_elem_of_further.
      * exfalso. match goal with H : _ ∈ _ :: _ |- _ => apply elem_of_cons in H as [->|H] end;
          [now apply Hne | contradiction].
Qed.

Lemma register_all_keys (regs : list (string * ToolDefinition)) (m : ToolMap) :
  map fst (register_all regs m)
  = (map fst m ++ insertion_order (map fst m) (map fst regs))%list.
Proof.
  revert m. induction regs as [|[k d] regs IH]; intros m; simpl.
  - now rewrite app_nil_r.
  - rewrite IH, map_set_keys.
    destruct (bool_decide (k ∈ map fst m)); [reflexivity |].
    now rewrite <- app_assoc.
Qed.

Lemma insertion_order_spec (names seen : list string) :
  NoDup seen ->
  NoDup (seen ++ insertion_order seen names)
  /\ (forall n, n ∈ (seen ++ insertion_order seen names)%list <-> n ∈ seen \/ n ∈ names).
Proof.
  revert seen. induction names as [|x names IH]; intros seen Hnd; simpl.
  - rewrite app_nil_r. split; [exact Hnd |].
    intros n. split; [auto | intros [H|H]; [exact H | now apply not_elem_of_nil in H]].
  - destruct (bool_decide (x ∈ seen)) eqn:Hin.
    + apply bool_decide_eq_true in Hin. destruct (IH seen Hnd) as [Hn Hm].
      split; [exact Hn |]. intros n. rewrite Hm, elem_of_cons.
      split; [tauto | intros [H|[->|H]]; auto].
    + apply bool_decide_eq_false in Hin.
      assert (Hnd' : NoDup (seen ++ [x])).
      { apply NoDup_app. split; [exact Hnd | split].
        - intros y Hy Hy'. apply list_elem_of_singleton in Hy'. now subst.
        - apply NoDup_singleton. }
      destruct (IH (seen ++ [x])%list Hnd') as [Hn Hm].
      rewrite <- app_assoc in Hn, Hm. simpl in Hn, Hm.
      split; [exact Hn |]. intros n. rewrite Hm, elem_of_app, list_elem_of_singleton, elem_of_cons.
      tauto.
Qed.

Lemma shape_loop_required (shape : ZodObject) (properties : list (string * jsval))
  (required : list string) :
  snd (shape_loop shape properties required) = (required ++ required_fields shape)%list.
Proof.
  revert properties required. induction shape as [|[key fieldSchema] shape IH];
    intros properties required; simpl.
  - now rewrite app_nil_r.
  - rewrite IH. unfold required_fields. simpl.
    destruct (is_optional_or_default fieldSchema); simpl; [reflexivity |].
    now rewrite <- app_assoc.
Qed.

Lemma entry_name_tool_entry (name : string) (def : ToolDefinition) :
  entry_name (tool_entry (name, def)) = JStr name.
Proof.
  unfold tool_entry. destruct (shape_loop (schema def) [] []). reflexivity.
Qed.

Lemma entry_required_tool_entry (name : string) (def : ToolDefinition) :
  entry_required (tool_entry (name, def)) = map JStr (required_fields (schema def)).
Proof.
  pose proof (shape_loop_required (schema def) [] []) as H. simpl in H.
  unfold tool_entry. destruct (shape_loop (schema def) [] []) as [properties required].
  simpl in H. subst required.
  destruct (required_fields (schema def)); reflexivity.
Qed.

(** C2: the capability list of the handshake has one entry per registered
    tool, in insertion order, and the required list of an entry is the list
    of the schema fields without an optional or default marker; for the four
    registered tools these are state; latitude and longitude; query; query. *)
Theorem handshake_lists_registered_tools :
  (forall regs : list (string * ToolDefinition),
     let names := map entry_name (capability_list (handshake_of (register_all regs []))) in
     names = map JStr (insertion_order [] (map fst regs))
     /\ NoDup (insertion_order [] (map fst regs))
     /\ (forall n, n ∈ insertion_order [] (map fst regs) <-> n ∈ map fst regs))
  /\ (forall m : ToolMap,
       capability_list (handshake_of m) = map tool_entry m
       /\ Forall2 (fun entry tool =>
                     entry_name entry = JStr (fst tool)
                     /\ entry_required entry = map JStr (required_fields (schema (snd tool))))
            (capability_list (handshake_of m)) m)
  /\ map entry_name (capability_list mcpHandshakeResponse)
     = [JStr "get-alerts"; JStr "get-forecast"; JStr "brave-web-search"; JStr "google-search"]
  /\ map entry_required (capability_list mcpHandshakeResponse)
     = [ [JStr "state"]; [JStr "latitude"; JStr "longitude"]; [JStr "query"]; [JStr "query"] ].
Proof.
  split; [| split; [| split; reflexivity]].
  - intros regs names. subst names.
    change (capability_list (handshake_of (register_all regs [])))
      with (map tool_entry (register_all regs [])).
    destruct (insertion_order_spec (map fst regs) [] (NoDup_nil_2 (A:=string))) as [Hnd Hmem].
    simpl in Hnd, Hmem. split; [| split; [exact Hnd |]].
    + pose proof (register_all_keys regs []) as Hk. simpl in Hk. rewrite <- Hk.
      rewrite !map_map. apply map_ext. intros [n d]. apply entry_name_tool_entry.
    + intros n. rewrite Hmem. split; [intros [H|H]; [now apply not_elem_of_nil in H | exact H] | auto].
  - intros m. split; [reflexivity |].
    change (capability_list (handshake_of m)) with (map tool_entry m).
    induction m as [|[n d] m IH]; simpl; constructor; [| exact IH].
    split; [apply entry_name_tool_entry | apply entry_required_tool_entry].
Qed.

(** ** Parameter validation *)

(** A check raises an issue exactly when the value breaks it. *)
Lemma check_number_passes (p : list string) (x : Q) (c : NumberCheck) :
  check_number Number_toString p x c = [] <-> number_check_holds c x.
Proof.
  destruct c as [b|b]; simpl.
  - destruct (Qle_bool b x) eqn:H; split; intros H'; try reflexivity; try discriminate.
    + now apply Qle_bool_iff.
    + apply Qle_bool_iff in H'. congruence.
  - destruct (Qle_bool x b) eqn:H; split; intros H'; try reflexivity; try discriminate.
    + now apply Qle_bool_iff.
    + apply Qle_bool_iff in H'. congruence.
Qed.

Lemma check_string_passes (p : list string) (s : string) (c : StringCheck) :
  check_string p s c = [] <-> string_check_holds c s.
Proof.
  destruct c as [n]; simpl.
  destruct (Nat.ltb_spec n (utf16_length s)); [split; [discriminate | lia] |].
  destruct (Nat.ltb_spec (utf16_length s) n); [split; [discriminate | lia] |].
  split; [lia | reflexivity].
Qed.

(** The issues of a failed parse of an object are the issues of all its
    fields. *)
Lemma parse_reports_every_issue (shape : ZodObject) (fields : list (string * jsval))
  (errors : list ZodIssue) :
  parse Number_toString shape (JObj fields) = ZodErrorThrown errors ->
  errors = object_issues Number_toString shape fields
  /\ forall (k : string) (t : ZodType) (i : ZodIssue),
       In (k, t) shape ->
       In i (zod_issues Number_toString t [k] (lookup_field k fields)) ->
       In i errors.
Proof.
  unfold parse. intros H.
  assert (He : errors = object_issues Number_toString shape fields).
  { destruct (object_issues Number_toString shape fields); [discriminate | congruence]. }
  split; [exact He |]. intros k t i Hk Hi. subst errors.
  unfold object_issues. apply in_flat_map. exists (k, t). split; [exact Hk | exact Hi].
Qed.

Lemma parse_errors_nonempty (shape : ZodObject) (v : jsval) (errors : list ZodIssue) :
  parse Number_toString shape v = ZodErrorThrown errors -> errors <> [].
Proof.
  unfold parse. destruct v; try (intros [= <-]; discriminate).
  destruct (object_issues Number_toString shape fields); [discriminate |].
  intros [= <-]. discriminate.
Qed.

(** A broken bound of a number field, optional or not, is among the issues
    of the failed parse. *)
Lemma broken_bound_is_reported (shape : ZodObject) (fields : list (string * jsval))
  (errors : list ZodIssue) (k : string) (t : ZodType) (checks : list NumberCheck)
  (d : option string) (x : Q) (c : NumberCheck) :
  parse Number_toString shape (JObj fields) = ZodErrorThrown errors ->
  In (k, t) shape ->
  (t = ZodNumber checks d \/ exists d', t = ZodOptional (ZodNumber checks d) d') ->
  lookup_field k fields = JNum x ->
  In c checks -> ~ number_check_holds c x ->
  exists i, In i errors /\ path i = [k] /\ check_number Number_toString [k] x c = [i].
Proof.
  intros Hparse Hk Ht Hx Hc Hbroken.
  assert (Hi : exists i, check_number Number_toString [k] x c = [i] /\ path i = [k]).
  { destruct c as [b|b]; simpl in *.
    - destruct (Qle_bool b x) eqn:E; [apply Qle_bool_iff in E; contradiction |].
      eexists; split; reflexivity.
    - destruct (Qle_bool x b) eqn:E; [apply Qle_bool_iff in E; contradiction |].
      eexists; split; reflexivity. }
  destruct Hi as (i & Hi & Hpath). exists i. split; [| split; assumption].
  apply (proj2 (parse_reports_every_issue _ _ _ Hparse) k t i Hk).
  rewrite Hx.
  assert (Hin : In i (flat_map (check_number Number_toString [k] x) checks)).
  { apply in_flat_map. exists c. split; [exact Hc |]. rewrite Hi. now left. }
  destruct Ht as [-> | [d' ->]]; exact Hin.
Qed.

(** So is a broken length of a string field. *)
Lemma broken_length_is_reported (shape : ZodObject) (fields : list (string * jsval))
  (errors : list ZodIssue) (k : string) (checks : list StringCheck)
  (d : option string) (s : string) (c : StringCheck) :
  parse Number_toString shape (JObj fields) = ZodErrorThrown errors ->
  In (k, ZodString checks d) shape ->
  lookup_field k fields = JStr s ->
  In c checks -> ~ string_check_holds c s ->
  exists i, In i errors /\ path i = [k] /\ check_string [k] s c = [i].
Proof.
  intros Hparse Hk Hs Hc Hbroken.
  assert (Hi : exists i, check_string [k] s c = [i] /\ path i = [k]).
  { destruct c as [n]; simpl in *.
    destruct (Nat.ltb_spec n (utf16_length s)); [eexists; split; reflexivity |].
    destruct (Nat.ltb_spec (utf16_length s) n); [eexists; split; reflexivity |].
    exfalso. apply Hbroken. lia. }
  destruct Hi as (i & Hi & Hpath). exists i. split; [| split; assumption].
  apply (proj2 (parse_reports_every_issue _ _ _ Hparse) k _ i Hk).
  rewrite Hs. apply in_flat_map. exists c. split; [exact Hc |]. rewrite Hi. now left.
Qed.

Lemma rejected_parameters_trace (srv : Server) (now : Z) (body : jsval)
  (net : Network) (srv' : Server) (now' : Z) (cid name : string) (res : Response)
  (tool : ToolDefinition) (errors : list ZodIssue) :
  get "client_id" body = JStr cid -> cid <> "" ->
  activeSseClients srv !! cid = Some res ->
  get "tool_name" body = JStr name -> map_get name tools = Some tool ->
  parse Number_toString (schema tool) (get "parameters" body) = ZodErrorThrown errors ->
  let payload :=
    error_payload (get "id" body) "invalid_parameters"
      ("Parameter validation failed: " ++ join ", " (map message errors)) in
  toolCallHandler srv now body net srv' now'
  = [ write_action srv res
        (sse_frame ("err-" ++ Z_toString now) "mcp" (stringify payload));
      HttpReply 400 payload ].
Proof.
  intros Hc Hne Hlive Ht Hreg Hparse payload. subst payload.
  unfold toolCallHandler.
  rewrite (dispatch_checked srv now body cid name tool Hc Hne), Hparse; try assumption.
  - unfold catch_block, push_and_reply.
    rewrite (sendSseMessage_live srv now cid "mcp" _ "err" res Hlive). reflexivity.
  - apply sessions_has_lookup. eauto.
Qed.

Lemma write_action_is_push (srv : Server) (res : Response) (chunk : string) :
  is_push (write_action srv res chunk) = true
  /\ is_handler_call (write_action srv res chunk) = false.
Proof. unfold write_action. destruct (write_throws srv res); split; reflexivity. Qed.

(** C3: when the session and tool checks pass and the parameters fail the
    schema, the gateway pushes one error Event on the session and replies
    with status 400; both carry the same payload,
    [{ id, type: "error", error_type: "invalid_parameters", message }],
    whose message is [Parameter validation failed: ] followed by the
    messages of all issues, separated by commas: the message of every
    constraint a field breaks is in it.  The tool handler is not called. *)
Theorem invalid_parameters_rejected (srv : Server) (now : Z) (body : jsval)
  (net : Network) (srv' : Server) (now' : Z) (cid name : string) (res : Response)
  (tool : ToolDefinition) (errors : list ZodIssue) :
  get "client_id" body = JStr cid -> cid <> "" ->
  activeSseClients srv !! cid = Some res ->
  get "tool_name" body = JStr name -> map_get name tools = Some tool ->
  parse Number_toString (schema tool) (get "parameters" body) = ZodErrorThrown errors ->
  let payload :=
    JObj [ ("id", get "id" body);
           ("type", JStr "error");
           ("error_type", JStr "invalid_parameters");
           ("message",
             JStr ("Parameter validation failed: " ++ join ", " (map message errors))) ] in
  let trace := toolCallHandler srv now body net srv' now' in
  trace = [ write_action srv res
              (sse_frame ("err-" ++ Z_toString now) "mcp" (stringify payload));
            HttpReply 400 payload ]
  /\ reply_error_type trace = JStr "invalid_parameters"
  /\ Forall (fun a => is_handler_call a = false) trace
  /\ errors <> []
  /\ (forall fields, get "parameters" body = JObj fields ->
       forall (k : string) (t : ZodType) (i : ZodIssue),
         In (k, t) (schema tool) ->
         In i (zod_issues Number_toString t [k] (lookup_field k fields)) ->
         In (message i) (map message errors))
  /\ (forall fields (k : string) (checks : list StringCheck) (d : option string)
         (s : string) (c : StringCheck),
         get "parameters" body = JObj fields ->
         In (k, ZodString checks d) (schema tool) ->
         lookup_field k fields = JStr s ->
         In c checks -> ~ string_check_holds c s ->
         exists i, check_string [k] s c = [i] /\ In (message i) (map message errors))
  /\ (forall fields (k : string) (t : ZodType) (checks : list NumberCheck)
         (d : option string) (x : Q) (c : NumberCheck),
         get "parameters" body = JObj fields ->
         In (k, t) (schema tool) ->
         (t = ZodNumber checks d \/ exists d', t = ZodOptional (ZodNumber checks d) d') ->
         lookup_field k fields = JNum x ->
         In c checks -> ~ number_check_holds c x ->
         exists i, check_number Number_toString [k] x c = [i]
                   /\ In (message i) (map message errors)).
Proof.
  intros Hc Hne Hlive Ht Hreg Hparse payload trace.
  pose proof (rejected_parameters_trace srv now body net srv' now' cid name res tool
                errors Hc Hne Hlive Ht Hreg Hparse) as Htrace.
  change (error_payload (get "id" body) "invalid_parameters"
            ("Parameter validation failed: " ++ join ", " (map message errors)))
    with payload in Htrace.
  cbv zeta in Htrace. fold trace in Htrace.
  split; [exact Htrace |]. rewrite Htrace.
  split; [unfold write_action; destruct (write_throws srv res); reflexivity |].
  split; [unfold write_action; destruct (write_throws srv res); repeat constructor |].
  split; [exact (parse_errors_nonempty _ _ _ Hparse) |].
  split; [| split].
  - intros fields Hf k t i Hk Hi. rewrite Hf in Hparse.
    apply in_map. now apply (proj2 (parse_reports_every_issue _ _ _ Hparse) k t i).
  - intros fields k checks d s c Hf Hk Hs Hin Hbroken. rewrite Hf in Hparse.
    destruct (broken_length_is_reported _ _ _ k checks d s c Hparse Hk Hs Hin Hbroken)
      as (i & Hi & _ & Hcheck).
    exists i. split; [exact Hcheck | now apply in_map].
  - intros fields k t checks d x c Hf Hk Hkind Hx Hin Hbroken. rewrite Hf in Hparse.
    destruct (broken_bound_is_reported _ _ _ k t checks d x c Hparse Hk Hkind Hx Hin Hbroken)
      as (i & Hi & _ & Hcheck).
    exists i. split; [exact Hcheck | now apply in_map].
Qed.

(** The Brave schema refuses a count of 25, whatever else the payload
    holds. *)
Lemma brave_count_25_fails (fields : list (string * jsval)) :
  lookup_field "count" fields = JNum 25 ->
  exists errors,
    parse Number_toString brave_web_search_schema (JObj fields) = ZodErrorThrown errors
    /\ In ("Number must be less than or equal to " ++ Number_toString 20)
         (map message errors).
Proof.
  intros Hcount.
  set (too_big_count := mkIssue too_big ["count"]
         ("Number must be less than or equal to " ++ Number_toString 20)).
  assert (Hiss : exists pre, object_issues Number_toString brave_web_search_schema fields
                             = (pre ++ [too_big_count])%list).
  { unfold object_issues, brave_web_search_schema. cbn [flat_map fst snd describe].
    rewrite Hcount.
    exists (zod_issues Number_toString (ZodString [] (Some "The search query")) ["query"]
              (lookup_field "query" fields)).
    f_equal. }
  destruct Hiss as [pre Hiss]. exists (pre ++ [too_big_count])%list. split.
  - unfold parse. rewrite Hiss. destruct pre; reflexivity.
  - rewrite map_app. apply in_or_app. right. left. reflexivity.
Qed.

(** C4 (amended): a [brave-web-search] invocation with [count: 25] on a
    live session is answered with status 400 and [error_type]
    [invalid_parameters]; exactly one error Event, carrying the same
    payload, is pushed on the session's channel; the tool handler is not
    called. *)
Theorem brave_count_25_rejected (srv : Server) (now : Z) (body : jsval)
  (net : Network) (srv' : Server) (now' : Z) (cid : string) (res : Response)
  (fields : list (string * jsval)) :
  get "client_id" body = JStr cid -> cid <> "" ->
  activeSseClients srv !! cid = Some res ->
  get "tool_name" body = JStr "brave-web-search" ->
  get "parameters" body = JObj fields ->
  lookup_field "count" fields = JNum 25 ->
  let trace := toolCallHandler srv now body net srv' now' in
  exists msg,
    let payload := error_payload (get "id" body) "invalid_parameters" msg in
    trace = [ write_action srv res
                (sse_frame ("err-" ++ Z_toString now) "mcp" (stringify payload));
              HttpReply 400 payload ]
    /\ length (List.filter is_push trace) = 1%nat
    /\ Forall (fun a => is_handler_call a = false) trace.
Proof.
  intros Hc Hne Hlive Ht Hp Hcount trace.
  destruct (brave_count_25_fails fields Hcount) as (errors & Hparse & _).
  rewrite <- Hp in Hparse.
  pose proof (rejected_parameters_trace srv now body net srv' now' cid
                "brave-web-search" res _ errors Hc Hne Hlive Ht tools_brave Hparse)
    as Htrace.
  cbv zeta in Htrace. fold trace in Htrace.
  eexists. cbv zeta. split; [exact Htrace |]. rewrite Htrace.
  destruct (write_action_is_push srv res
              (sse_frame ("err-" ++ Z_toString now) "mcp"
                 (stringify (error_payload (get "id" body) "invalid_parameters"
                    ("Parameter validation failed: " ++ join ", " (map message errors))))))
    as [Hpush Hcall].
  split.
  - cbn [List.filter]. rewrite Hpush. reflexivity.
  - repeat constructor. exact Hcall.
Qed.

(** ** Early rejections *)

Lemma dispatch_unmapped (srv : Server) (now : Z) (body : jsval) :
  truthy (get "client_id" body) = true ->
  (forall cid, get "client_id" body = JStr cid -> sessions_has cid srv = false) ->
  dispatch srv now body = invalid_client_id (get "id" body) (get "client_id" body).
Proof.
  intros Htruthy Hunmapped. unfold dispatch.
  rewrite (get_defined "client_id" body)
    by (intros Hc; rewrite Hc in Htruthy; discriminate Htruthy).
  rewrite Htruthy. cbn [negb].
  destruct (get "client_id" body) as [ | |b|q|cid|items|fields] eqn:Hc; try reflexivity.
  rewrite (Hunmapped cid eq_refl). reflexivity.
Qed.

(** C7 (amended): a request whose body has no [client_id], or a falsy one
    (null, false, 0, the empty string), is answered with status 400 and
    [error_type] [missing_client_id]; one whose [client_id] is truthy, names
    no live session and can be printed in the message is answered with
    status 400 and [invalid_client_id], the message quoting it (a string as
    it is).  The reply is then all that happens; and whatever the request,
    as long as its [client_id] is falsy or names no live session, nothing is
    pushed. *)
Theorem client_id_rejected (srv : Server) (now : Z) (body : jsval)
  (net : Network) (srv' : Server) (now' : Z) :
  (truthy (get "client_id" body) = false
   \/ forall cid, get "client_id" body = JStr cid -> sessions_has cid srv = false) ->
  let clientId := get "client_id" body in
  let trace := toolCallHandler srv now body net srv' now' in
  no_push trace
  /\ (nullish body = false -> truthy clientId = false ->
      trace = [ HttpReply 400
                  (JObj [ ("id", js_or (get "id" body) (JStr "unknown"));
                          ("type", JStr "error");
                          ("error_type", JStr "missing_client_id");
                          ("message",
                            JStr "client_id is required in the request body for /tool_call.") ]) ])
  /\ (truthy clientId = true -> unprintable clientId = false ->
      exists printed,
        to_str clientId = Returned printed
        /\ (forall cid, clientId = JStr cid -> printed = cid)
        /\ trace = [ HttpReply 400
                       (JObj [ ("id", js_or (get "id" body) (JStr "unknown"));
                               ("type", JStr "error");
                               ("error_type", JStr "invalid_client_id");
                               ("message",
                                 JStr ("No active SSE session found for client_id: "
                                       ++ printed ++ ". Please connect to /sse first.")) ]) ]).
Proof.
  intros H clientId trace. subst clientId trace. unfold toolCallHandler.
  split; [| split].
  - destruct (truthy (get "client_id" body)) eqn:Htruthy.
    + destruct H as [H|H]; [discriminate |].
      rewrite (dispatch_unmapped srv now body Htruthy H). unfold invalid_client_id.
      destruct (to_str (get "client_id" body)); repeat constructor.
    + unfold dispatch. destruct (nullish body); [repeat constructor |].
      rewrite Htruthy. repeat constructor.
  - intros Hbody Htruthy. unfold dispatch. rewrite Hbody, Htruthy. reflexivity.
  - intros Htruthy Hprint. destruct H as [H|H]; [congruence |].
    rewrite (dispatch_unmapped srv now body Htruthy H). unfold invalid_client_id.
    destruct (String_of_printable _ Hprint) as [printed Hprinted].
    exists printed. rewrite Hprinted. split; [reflexivity | split; [| reflexivity]].
    intros cid Hcid. rewrite Hcid in Hprinted. injection Hprinted as <-. reflexivity.
Qed.

(** C10: a request on a live session whose body has no [tool_name] is
    rejected as [unknown_tool]: the error Event is pushed on that session
    and the synchronous reply has status 400 and the same payload. *)
Theorem missing_tool_name_is_unknown_tool (srv : Server) (now : Z) (body : jsval)
  (net : Network) (srv' : Server) (now' : Z) (cid : string) (res : Response) :
  get "client_id" body = JStr cid -> cid <> "" ->
  activeSseClients srv !! cid = Some res ->
  get "tool_name" body = JUndefined ->
  let payload :=
    error_payload (get "id" body) "unknown_tool" "Tool 'undefined' not found." in
  let trace := toolCallHandler srv now body net srv' now' in
  trace = [ write_action srv res
              (sse_frame ("err-" ++ Z_toString now) "mcp" (stringify payload));
            HttpReply 400 payload ]
  /\ reply_error_type trace = JStr "unknown_tool".
Proof.
  intros Hc Hne Hlive Ht payload trace.
  assert (Htrace : trace = [ write_action srv res
              (sse_frame ("err-" ++ Z_toString now) "mcp" (stringify payload));
            HttpReply 400 payload ]).
  { subst trace payload. unfold toolCallHandler, dispatch.
    rewrite (get_string_defined "client_id" body cid Hc), Hc, Ht.
    apply truthy_str_iff in Hne. unfold truthy_str in Hne.
    cbn [truthy]. rewrite Hne. cbn [negb].
    assert (Hhas : sessions_has cid srv = true) by (apply sessions_has_lookup; eauto).
    rewrite Hhas. cbn [negb]. unfold unknown_tool. cbn [String_of]. unfold push_and_reply.
    rewrite (sendSseMessage_live srv now cid "mcp" _ "err" res Hlive). reflexivity. }
  split; [exact Htrace |]. rewrite Htrace.
  unfold write_action. destruct (write_throws srv res); reflexivity.
Qed.

(** ** Session lifecycle *)

Lemma sessions_delete_lookup (cid : string) (srv : Server) :
  activeSseClients (sessions_delete cid srv) !! cid = None.
Proof. unfold sessions_delete. simpl. apply lookup_delete_eq. Qed.

Lemma sessions_delete_idempotent (cid : string) (srv : Server) :
  sessions_delete cid (sessions_delete cid srv) = sessions_delete cid srv.
Proof. unfold sessions_delete. simpl. now rewrite delete_delete_eq. Qed.

Lemma on_channel_event_delete (cid : string) (ev : ChannelEvent) (srv : Server) :
  on_channel_event cid ev srv = sessions_delete cid srv.
Proof. destruct ev; reflexivity. Qed.

Lemma run_channel_events_spec (cid : string) (evs : list ChannelEvent) (srv : Server) :
  snd (run_channel_events cid evs srv) = length evs
  /\ fst (run_channel_events cid evs srv)
     = match evs with
       | [] => srv
       | _ => sessions_delete cid srv
       end.
Proof.
  revert srv. induction evs as [|ev evs IH]; intros srv; [split; reflexivity |].
  cbn [run_channel_events].
  destruct (IH (on_channel_event cid ev srv)) as [Hn Hs].
  destruct (run_channel_events cid evs (on_channel_event cid ev srv)) as [srv1 n].
  simpl in Hn, Hs. simpl. split; [now rewrite Hn |].
  rewrite Hs, on_channel_event_delete.
  destruct evs; [reflexivity | apply sessions_delete_idempotent].
Qed.

(** C5 (amended): a session is removed from the registry when one of the
    teardown events of its channel fires (request close, request error,
    response error), and at channel open when writing the initial frames
    fails (the listeners are then not registered).  [sendSseMessage] leaves
    the registry as it is, also when its write fails.  The removal is an
    idempotent [Map.delete] that runs once per teardown event delivered, so
    possibly several times for one channel. *)
Theorem session_removed_on_teardown_only :
  (forall (cid : string) (ev : ChannelEvent) (srv : Server),
     activeSseClients (on_channel_event cid ev srv) !! cid = None)
  /\ (forall (srv : Server) (res : Response) (t0 t1 t2 : Z) (random36 : string),
       let o := sse_open srv res t0 t1 t2 random36 in
       activeSseClients (opened_server o) !! opened_clientId o
       = (if write_throws srv res then None else Some res)
       /\ opened_listening o = negb (write_throws srv res))
  /\ (forall (srv : Server) (now : Z) (cid ev : string) (data : jsval) (prefix : string),
       fst (sendSseMessage srv now cid ev data prefix) = srv)
  /\ (forall (cid : string) (evs : list ChannelEvent) (srv : Server),
       snd (run_channel_events cid evs srv) = length evs)
  /\ (forall (cid : string) (e1 e2 : ChannelEvent) (srv : Server),
       on_channel_event cid e2 (on_channel_event cid e1 srv) = on_channel_event cid e1 srv).
Proof.
  split; [| split; [| split; [| split]]].
  - intros cid ev srv. rewrite on_channel_event_delete. apply sessions_delete_lookup.
  - intros srv res t0 t1 t2 random36 o. subst o. unfold sse_open.
    change (write_throws (sessions_set (new_clientId t0 random36) res srv) res)
      with (write_throws srv res).
    destruct (write_throws srv res); cbn [opened_server opened_clientId opened_listening negb].
    + split; [apply sessions_delete_lookup | reflexivity].
    + split; [| reflexivity]. unfold sessions_set. simpl. apply lookup_insert_eq.
  - intros srv now cid ev data prefix. unfold sendSseMessage.
    destruct (activeSseClients srv !! cid); reflexivity.
  - intros cid evs srv. apply run_channel_events_spec.
  - intros cid e1 e2 srv. rewrite !on_channel_event_delete. apply sessions_delete_idempotent.
Qed.

(** ** The wire frame *)

Lemma sse_frame_differs (id event data : string) :
  sse_frame id event data <> wire_frame id event data.
Proof.
  rewrite sse_frame_spelled. unfold wire_frame. intros H.
  apply string_app_inv_head in H. apply string_app_inv_head in H.
  discriminate H.
Qed.

(** C6: what [sendSseMessage] and the [/sse] route write for an Event is
    the three labelled pieces and the empty piece, each followed by the two
    characters backslash and n, never by a line feed; so no frame is the
    frame of the wire format.  The two frames of a channel open hold no line
    feed at all, nor does the frame of the Event [{}] sent with prefix [msg]
    at time 5, where the wire frame holds four. *)
Theorem written_frame_has_no_line_feed :
  (forall id event data : string,
     sse_frame id event data
     = "id: " ++ id ++ BACKSLASH_N ++ "event: " ++ event ++ BACKSLASH_N
       ++ "data: " ++ data ++ BACKSLASH_N ++ BACKSLASH_N
     /\ sse_frame id event data <> wire_frame id event data)
  /\ opened_actions (sse_open sample_server 3%nat 5 5 5 "0.4fzyo82mvyr")
     = [ SseWrite 3%nat (handshakeMessage 5);
         SseWrite 3%nat (clientIdMessage 5 "client-5-4fzyo") ]
  /\ count_char (ascii_of_nat 10) (handshakeMessage 5) = 0%nat
  /\ count_char (ascii_of_nat 10) (clientIdMessage 5 "client-5-4fzyo") = 0%nat
  /\ snd (sendSseMessage sample_server 5 sample_clientId "mcp" (JObj []) "msg")
     = [ SseWrite 7%nat "id: msg-5\nevent: mcp\ndata: {}\n\n" ]
  /\ count_char (ascii_of_nat 10) "id: msg-5\nevent: mcp\ndata: {}\n\n" = 0%nat
  /\ count_char (ascii_of_nat 10) (wire_frame "msg-5" "mcp" "{}") = 4%nat.
Proof.
  split; [| repeat split; reflexivity].
  intros id event data. split; [apply sse_frame_spelled | apply sse_frame_differs].
Qed.

(** ** Channel open *)

(** C8: when the channel's writes succeed, a channel-open request pushes
    exactly two Events, in this order: the handshake, of type
    [mcp_handshake_response] and listing the four tools, then the identity
    assignment, of type [client_id_assigned] and carrying the new, non-empty
    token under which the session is registered. *)
Theorem channel_open_pushes_handshake_then_identity (srv : Server) (res : Response)
  (t0 t1 t2 : Z) (random36 : string) :
  write_throws srv res = false ->
  let o := sse_open srv res t0 t1 t2 random36 in
  let cid := opened_clientId o in
  opened_actions o
  = [ SseWrite res (sse_frame ("sse-handshake-" ++ Z_toString t1) "mcp"
                      (stringify mcpHandshakeResponse));
      SseWrite res (sse_frame ("sse-clientid-" ++ Z_toString t2) "mcp"
                      (stringify (JObj [ ("type", JStr "client_id_assigned");
                                         ("client_id", JStr cid) ]))) ]
  /\ get "type" mcpHandshakeResponse = JStr "mcp_handshake_response"
  /\ map entry_name (capability_list mcpHandshakeResponse)
     = [JStr "get-alerts"; JStr "get-forecast"; JStr "brave-web-search"; JStr "google-search"]
  /\ cid <> ""
  /\ activeSseClients (opened_server o) !! cid = Some res.
Proof.
  intros Hw o cid. subst cid o. unfold sse_open.
  change (write_throws (sessions_set (new_clientId t0 random36) res srv) res)
    with (write_throws srv res).
  rewrite Hw. cbn [opened_actions opened_clientId opened_server].
  split; [reflexivity | split; [reflexivity | split; [reflexivity | split]]].
  - unfold new_clientId. simpl. discriminate.
  - unfold sessions_set. simpl. apply lookup_insert_eq.
Qed.

(** ** get-alerts *)

(** The handler the stdio server registers gives the same text. *)
Lemma stdio_get_alerts_without_alerts (net : Network) (state : string) (data : jsval) :
  net 0%nat (NWS_API_BASE ++ "/alerts?area=" ++ toUpperCase state)
    = FetchResponse true (Some data) ->
  get "features" data = JArr [] ->
  stdio_get_alerts_handler net (JObj [("state", JStr state)])
  = Returned (stdio_content ("No active alerts for " ++ toUpperCase state)).
Proof.
  intros Hnet Hfeat. unfold stdio_get_alerts_handler.
  cbn [get lookup_field String.eqb Ascii.eqb Bool.eqb nullish].
  unfold makeNWSRequest. rewrite Hnet.
  destruct data as [ | |b|q|str|items|dfields]; try discriminate Hfeat.
  cbn [truthy negb]. rewrite Hfeat. reflexivity.
Qed.

(** What the [get-alerts] schema makes of a payload. *)
Lemma alerts_parse (fields : list (string * jsval)) (state : string) :
  lookup_field "state" fields = JStr state -> utf16_length state = 2%nat ->
  parse Number_toString get_alerts_schema (JObj fields)
  = Parsed (JObj [("state", JStr state)]).
Proof.
  intros Hstate Hlen. unfold parse, object_issues, object_output, get_alerts_schema.
  cbn [flat_map omap fst snd describe zod_issues zod_output check_string list_omap].
  rewrite Hstate. cbn [flat_map check_string]. rewrite Hlen. reflexivity.
Qed.

(** C9: a [get-alerts] invocation whose [state] is a string of two
    characters (two UTF-16 code units, which is what the schema counts), and
    for which the weather service answers with an empty [features] array, is
    a success: the handler is called, the Event pushed on the session is
    [{ id, type: "tool_response", tool_name: "get-alerts", tool_response:
    { type: "text", text } }] whose text is [No active alerts for ] followed
    by the upper-cased state, and the synchronous reply is the 202.  The
    handler the stdio server registers returns the same text, as
    [{ content: [{ type: "text", text }] }]. *)
Theorem get_alerts_without_alerts (srv : Server) (now : Z) (body : jsval)
  (net : Network) (srv' : Server) (now' : Z) (cid : string) (res : Response)
  (fields : list (string * jsval)) (state : string) (data : jsval) :
  get "client_id" body = JStr cid -> cid <> "" -> sessions_has cid srv = true ->
  get "tool_name" body = JStr "get-alerts" ->
  get "parameters" body = JObj fields ->
  lookup_field "state" fields = JStr state -> utf16_length state = 2%nat ->
  net 0%nat (NWS_API_BASE ++ "/alerts?area=" ++ toUpperCase state)
    = FetchResponse true (Some data) ->
  get "features" data = JArr [] ->
  activeSseClients srv' !! cid = Some res ->
  let text := "No active alerts for " ++ toUpperCase state in
  toolCallHandler srv now body net srv' now'
  = [ HandlerCalled "get-alerts" (JObj [("state", JStr state)]);
      write_action srv' res
        (sse_frame ("toolrsp-" ++ Z_toString now') "mcp"
           (stringify
              (JObj [ ("id", get "id" body);
                      ("type", JStr "tool_response");
                      ("tool_name", JStr "get-alerts");
                      ("tool_response",
                        JObj [("type", JStr "text"); ("text", JStr text)]) ])));
      HttpReply 202
        (JObj [ ("id", get "id" body);
                ("status", JStr "processing");
                ("message", JStr "Tool call accepted, response will be sent via SSE.") ]) ]
  /\ stdio_get_alerts_handler net (JObj [("state", JStr state)])
     = Returned (JObj [("content", JArr [JObj [("type", JStr "text");
                                               ("text", JStr text)]])]).
Proof.
  intros Hc Hne Hlive Ht Hp Hstate Hlen Hnet Hfeat Hlive' text. subst text.
  split; [| exact (stdio_get_alerts_without_alerts net state data Hnet Hfeat)].
  assert (Hparse : parse Number_toString get_alerts_schema (get "parameters" body)
                   = Parsed (JObj [("state", JStr state)])).
  { rewrite Hp. exact (alerts_parse fields state Hstate Hlen). }
  unfold toolCallHandler.
  rewrite (dispatch_invoke srv now body cid "get-alerts" _ _ Hc Hne Hlive Ht
             tools_get_alerts Hparse).
  cbn [handler]. unfold get_alerts_handler.
  cbn [get lookup_field String.eqb Ascii.eqb Bool.eqb nullish].
  unfold makeNWSRequest. rewrite Hnet.
  destruct data as [ | |b|q|str|items|dfields]; try discriminate Hfeat.
  cbn [truthy negb]. rewrite Hfeat. unfold js_or. cbn [truthy length_of length is_zero].
  change (Qeq_bool (inject_Z (Z.of_nat 0)) 0) with true. cbv iota.
  unfold settle, push_and_reply.
  rewrite (sendSseMessage_live srv' now' cid "mcp" _ "toolrsp" res Hlive').
  reflexivity.
Qed.

(** * Further properties of the gateway *)

(** ** The shape of every trace *)

Lemma sendSseMessage_actions (srv : Server) (now : Z) (cid ev : string) (data : jsval)
  (prefix : string) :
  snd (sendSseMessage srv now cid ev data prefix)
  = match activeSseClients srv !! cid with
    | Some res =>
        [write_action srv res (sse_frame (prefix ++ "-" ++ Z_toString now) ev (stringify data))]
    | None => []
    end.
Proof. unfold sendSseMessage. destruct (activeSseClients srv !! cid); reflexivity. Qed.

Lemma push_and_reply_shape (srv : Server) (now : Z) (cid : string) (payload : jsval)
  (prefix : string) (status : Z) (reply : jsval) :
  (activeSseClients srv !! cid = None
   /\ push_and_reply srv now cid payload prefix status reply = [HttpReply status reply])
  \/ (exists res,
        activeSseClients srv !! cid = Some res
        /\ push_and_reply srv now cid payload prefix status reply
           = [ write_action srv res
                 (sse_frame (prefix ++ "-" ++ Z_toString now) "mcp" (stringify payload));
               HttpReply status reply ]).
Proof.
  unfold push_and_reply. rewrite sendSseMessage_actions.
  destruct (activeSseClients srv !! cid) as [res|]; [right; exists res | left]; auto.
Qed.

Lemma invalid_client_id_shape (mid clientId : jsval) :
  (exists payload, invalid_client_id mid clientId = Answered [HttpReply 400 payload])
  \/ (exists e, invalid_client_id mid clientId = Thrown_out e).
Proof. unfold invalid_client_id. destruct (to_str clientId); eauto. Qed.

Lemma unknown_tool_shape (srv : Server) (now : Z) (cid : string) (res : Response)
  (mid tool_name : jsval) :
  activeSseClients srv !! cid = Some res ->
  (exists trace,
     unknown_tool srv now cid mid tool_name = Answered trace
     /\ rejected_with_push srv cid trace)
  \/ (exists e, unknown_tool srv now cid mid tool_name = Thrown_out e).
Proof.
  intros Hres. unfold unknown_tool. destruct (to_str tool_name) as [printed|e]; [left | eauto].
  eexists. split; [reflexivity |].
  unfold rejected_with_push, push_and_reply.
  rewrite (sendSseMessage_live srv now cid "mcp" _ "err" res Hres).
  exists res. do 2 eexists. split; [exact Hres | reflexivity].
Qed.

Lemma dispatch_shape (srv : Server) (now : Z) (body : jsval) :
  (exists payload, dispatch srv now body = Answered [HttpReply 400 payload])
  \/ (exists cid trace,
        get "client_id" body = JStr cid
        /\ dispatch srv now body = Answered trace
        /\ rejected_with_push srv cid trace)
  \/ (exists cid name tool params,
        get "client_id" body = JStr cid /\ cid <> ""
        /\ sessions_has cid srv = true
        /\ get "tool_name" body = JStr name
        /\ map_get name tools = Some tool
        /\ parse Number_toString (schema tool) (get "parameters" body) = Parsed params
        /\ dispatch srv now body = Invoke cid (get "id" body) name tool params)
  \/ (exists e, dispatch srv now body = Thrown_out e).
Proof.
  unfold dispatch.
  destruct (nullish body); [right; right; right; eauto |].
  destruct (truthy (get "client_id" body)) eqn:Htruthy; cbn [negb]; [| left; eauto].
  assert (Hinvalid : forall A B : Prop,
            (exists payload,
               invalid_client_id (get "id" body) (get "client_id" body)
               = Answered [HttpReply 400 payload])
            \/ A \/ B
            \/ (exists e,
                  invalid_client_id (get "id" body) (get "client_id" body) = Thrown_out e)).
  { intros A B.
    destruct (invalid_client_id_shape (get "id" body) (get "client_id" body)) as [H|H]; auto. }
  destruct (get "client_id" body) as [ | |b|q|cid|items|fields] eqn:Hc; try apply Hinvalid.
  destruct (sessions_has cid srv) eqn:Hlive; cbn [negb]; [| apply Hinvalid].
  clear Hinvalid.
  assert (Hne : cid <> "").
  { apply truthy_str_iff. exact Htruthy. }
  destruct (proj1 (sessions_has_lookup srv cid) Hlive) as [res Hres].
  assert (Hunknown : forall A B : Prop,
            A
            \/ (exists cid' trace,
                  JStr cid = JStr cid'
                  /\ unknown_tool srv now cid (get "id" body) (get "tool_name" body)
                     = Answered trace
                  /\ rejected_with_push srv cid' trace)
            \/ B
            \/ (exists e,
                  unknown_tool srv now cid (get "id" body) (get "tool_name" body)
                  = Thrown_out e)).
  { intros A B.
    destruct (unknown_tool_shape srv now cid res (get "id" body) (get "tool_name" body) Hres)
      as [(trace & Heq & Hpush) | H]; [| auto].
    right; left. exists cid, trace. auto. }
  destruct (get "tool_name" body) as [ | |b|q|name|items|fields] eqn:Ht; try apply Hunknown.
  destruct (if truthy (JStr name) then map_get name tools else None) as [tool|] eqn:Hreg;
    [| apply Hunknown].
  assert (Hreg' : map_get name tools = Some tool).
  { destruct (truthy (JStr name)); [exact Hreg | discriminate]. }
  destruct (parse Number_toString (schema tool) (get "parameters" body))
    as [params | errors] eqn:Hparse.
  - right; right; left. exists cid, name, tool, params. repeat split; auto.
  - right; left. exists cid. eexists. split; [reflexivity | split; [reflexivity |]].
    unfold catch_block, rejected_with_push, push_and_reply.
    rewrite (sendSseMessage_live srv now cid "mcp" _ "err" res Hres).
    exists res. do 2 eexists. split; [exact Hres | reflexivity].
Qed.

Lemma settle_shape (srv : Server) (now : Z) (cid : string) (mid : jsval) (name : string)
  (outcome : Outcome jsval) :
  exists pushes status reply,
    settle srv now cid mid name outcome = (pushes ++ [HttpReply status reply])%list
    /\ ((activeSseClients srv !! cid = None /\ pushes = [])
        \/ exists res chunk,
             activeSseClients srv !! cid = Some res
             /\ pushes = [write_action srv res chunk])
    /\ ((status = 202 /\ exists result, outcome = Returned result)
        \/ ((status = 400 \/ status = 500) /\ exists e, outcome = Threw e)).
Proof.
  assert (Hp : forall payload prefix status reply,
            exists pushes,
              push_and_reply srv now cid payload prefix status reply
              = (pushes ++ [HttpReply status reply])%list
              /\ ((activeSseClients srv !! cid = None /\ pushes = [])
                  \/ exists res chunk,
                       activeSseClients srv !! cid = Some res
                       /\ pushes = [write_action srv res chunk])).
  { intros payload prefix status reply.
    destruct (push_and_reply_shape srv now cid payload prefix status reply)
      as [[Hnone Heq] | (res & Hres & Heq)].
    - exists []. split; [exact Heq | left; auto].
    - eexists [_]. split; [exact Heq | right; eauto]. }
  destruct outcome as [result | e]; unfold settle.
  - destruct (Hp (tool_response_message mid name result) "toolrsp" 202 (accepted_reply mid))
      as (pushes & Heq & Hpushes).
    exists pushes, 202, (accepted_reply mid). split; [exact Heq | split; [exact Hpushes |]].
    left. eauto.
  - unfold catch_block.
    destruct e as [errors | msg | v];
      match goal with
      | |- context [push_and_reply srv now cid ?payload ?prefix ?status ?reply] =>
          destruct (Hp payload prefix status reply) as (pushes & Heq & Hpushes);
          exists pushes, status, reply;
          (split; [exact Heq | split; [exact Hpushes | right; split; [auto | eauto]]])
      end.
Qed.

Lemma toolCallHandler_shape (srv : Server) (now : Z) (body : jsval)
  (net : Network) (srv' : Server) (now' : Z) :
  let trace := toolCallHandler srv now body net srv' now' in
  (exists payload, trace = [HttpReply 400 payload])
  \/ (exists cid, get "client_id" body = JStr cid /\ rejected_with_push srv cid trace)
  \/ (exists cid name tool params pushes status reply,
        get "client_id" body = JStr cid /\ cid <> ""
        /\ sessions_has cid srv = true
        /\ get "tool_name" body = JStr name
        /\ map_get name tools = Some tool
        /\ parse Number_toString (schema tool) (get "parameters" body) = Parsed params
        /\ trace = (HandlerCalled name params :: pushes ++ [HttpReply status reply])%list
        /\ ((activeSseClients srv' !! cid = None /\ pushes = [])
            \/ exists res chunk,
                 activeSseClients srv' !! cid = Some res
                 /\ pushes = [write_action srv' res chunk])
        /\ ((status = 202 /\ exists result, handler tool net params = Returned result)
            \/ ((status = 400 \/ status = 500)
                /\ exists e, handler tool net params = Threw e)))
  \/ (exists e, trace = [RouteThrew e]).
Proof.
  intros trace. subst trace. unfold toolCallHandler.
  destruct (dispatch_shape srv now body)
    as [[payload Hd] | [(cid & trace & Hc & Hd & Hpush)
                       | [(cid & name & tool & params & Hc & Hne & Hlive & Ht & Hreg & Hparse & Hd)
                         | [e Hd]]]];
    rewrite Hd.
  - left. eauto.
  - right; left. eauto.
  - right; right; left.
    destruct (settle_shape srv' now' cid (get "id" body) name (handler tool net params))
      as (pushes & status & reply & Heq & Hpushes & Hstatus).
    exists cid, name, tool, params, pushes, status, reply.
    rewrite Heq. repeat (split; [assumption || reflexivity |]). exact Hstatus.
  - right; right; right. eauto.
Qed.

(** ** What every invocation does, and what none does *)

(** X1: a request on a live session that names no registered tool is
    rejected as [unknown_tool]: one error Event is written on the session's
    response, and the reply has status 400 and the same payload, whose
    message quotes the name as the template literal prints it (a string as
    it is).  A [tool_name] that cannot be printed, an object with an own
    [toString] property or an array that holds one, makes the route throw
    while it builds the message: nothing is pushed and nothing is replied. *)
Theorem unregistered_tool_is_unknown_tool (srv : Server) (now : Z) (body : jsval)
  (net : Network) (srv' : Server) (now' : Z) (cid : string) (res : Response) :
  get "client_id" body = JStr cid -> cid <> "" ->
  activeSseClients srv !! cid = Some res ->
  (forall name, get "tool_name" body = JStr name -> map_get name tools = None) ->
  let tool_name := get "tool_name" body in
  let trace := toolCallHandler srv now body net srv' now' in
  (unprintable tool_name = false ->
   exists printed,
     to_str tool_name = Returned printed
     /\ (forall name, tool_name = JStr name -> printed = name)
     /\ let payload :=
          JObj [ ("id", get "id" body);
                 ("type", JStr "error");
                 ("error_type", JStr "unknown_tool");
                 ("message", JStr ("Tool '" ++ printed ++ "' not found.")) ] in
        trace = [ write_action srv res
                    (sse_frame ("err-" ++ Z_toString now) "mcp" (stringify payload));
                  HttpReply 400 payload ])
  /\ (unprintable tool_name = true -> trace = [RouteThrew cannot_convert]).
Proof.
  intros Hc Hne Hlive Hunreg tool_name trace.
  assert (Hd : dispatch srv now body
               = unknown_tool srv now cid (get "id" body) (get "tool_name" body)).
  { unfold dispatch. rewrite (get_string_defined "client_id" body cid Hc), Hc.
    apply truthy_str_iff in Hne. unfold truthy_str in Hne.
    cbn [truthy]. rewrite Hne. cbn [negb].
    assert (Hhas : sessions_has cid srv = true) by (apply sessions_has_lookup; eauto).
    rewrite Hhas. cbn [negb].
    destruct (get "tool_name" body) as [ | |b|q|name|items|fields] eqn:Ht; try reflexivity.
    rewrite (Hunreg name eq_refl). destruct (truthy (JStr name)); reflexivity. }
  subst trace tool_name. unfold toolCallHandler. rewrite Hd. unfold unknown_tool.
  split; intros Hprint.
  - destruct (String_of_printable _ Hprint) as [printed Hprinted].
    exists printed. rewrite Hprinted. split; [reflexivity | split].
    + intros name Hname. rewrite Hname in Hprinted. injection Hprinted as <-. reflexivity.
    + cbv zeta. unfold push_and_reply.
      rewrite (sendSseMessage_live srv now cid "mcp" _ "err" res Hlive). reflexivity.
  - rewrite (String_of_unprintable _ Hprint). reflexivity.
Qed.

(** How a trace ends: with the one reply, or with the exception that left
    the route. *)
Lemma trace_ends (srv : Server) (now : Z) (body : jsval)
  (net : Network) (srv' : Server) (now' : Z) :
  (exists (before : list Action) (status : Z) (reply : jsval),
     toolCallHandler srv now body net srv' now' = (before ++ [HttpReply status reply])%list
     /\ Forall (fun a => is_push a || is_handler_call a = true) before
     /\ (status = 202 \/ status = 400 \/ status = 500)
     /\ (length (List.filter is_push before) <= 1)%nat
     /\ (status = 202 -> exists name params, In (HandlerCalled name params) before))
  \/ (exists e, toolCallHandler srv now body net srv' now' = [RouteThrew e]).
Proof.
  destruct (toolCallHandler_shape srv now body net srv' now')
    as [[payload Heq] | [(cid & Hc & res & chunk & payload & Hres & Heq)
       | [(cid & name & tool & params & pushes & status & reply & Hc & Hne & Hlive & Ht
          & Hreg & Hparse & Heq & Hpushes & Hstatus) | [e Heq]]]];
    cbv zeta in Heq; rewrite Heq; [left | left | left | right; eauto].
  - exists [], 400, payload. repeat split; auto. discriminate.
  - exists [write_action srv res chunk], 400, payload.
    destruct (write_action_is_push srv res chunk) as [Hpush _].
    split; [reflexivity |]. split.
    + constructor; [| constructor]. rewrite Hpush. reflexivity.
    + split; [auto |]. split; [cbn [List.filter]; rewrite Hpush; simpl; lia | discriminate].
  - exists (HandlerCalled name params :: pushes), status, reply.
    split; [reflexivity |]. split; [| split; [| split]].
    + constructor; [reflexivity |].
      destruct Hpushes as [[_ ->] | (res & chunk & _ & ->)]; [constructor |].
      constructor; [| constructor].
      destruct (write_action_is_push srv' res chunk) as [-> _]. reflexivity.
    + destruct Hstatus as [[-> _] | [[-> | ->] _]]; auto.
    + destruct Hpushes as [[_ ->] | (res & chunk & _ & ->)]; [simpl; lia |].
      destruct (write_action_is_push srv' res chunk) as [Hpush _].
      cbn [List.filter is_push]. rewrite Hpush. simpl. lia.
    + intros _. exists name, params. now left.
Qed.

(** In a list that ends with its only reply, a reply is the last element. *)
Lemma reply_is_last (pre : list Action) (r : Action) (before : list Action) (a : Action)
  (after : list Action) :
  Forall (fun b => is_reply b = false) pre ->
  (pre ++ [r])%list = (before ++ a :: after)%list -> is_reply a = true ->
  after = [] /\ before = pre /\ a = r.
Proof.
  intros Hpre. revert before. induction Hpre as [|b pre Hb _ IH]; intros before Heq Ha.
  - destruct before as [|b' before]; cbn [app] in Heq.
    + injection Heq as <- <-. auto.
    + injection Heq as _ Heq. destruct before; discriminate Heq.
  - destruct before as [|b' before]; cbn [app] in Heq.
    + injection Heq as <- _. congruence.
    + injection Heq as <- Heq. destruct (IH before Heq Ha) as (-> & -> & ->). auto.
Qed.

(** X2: no invocation request is answered twice, and nothing happens after
    the answer: a reply is the last action of the route and the only reply.
    Its status is 202, 400 or 500; at most one Event is pushed in all; a 202
    is sent only after a tool handler was called; and when an exception
    leaves the route, the route has done nothing else, so it has neither
    pushed nor replied. *)
Theorem at_most_one_reply (srv : Server) (now : Z) (body : jsval)
  (net : Network) (srv' : Server) (now' : Z) :
  let trace := toolCallHandler srv now body net srv' now' in
  (forall before a after,
     trace = (before ++ a :: after)%list -> is_reply a = true ->
     after = [] /\ Forall (fun b => is_reply b = false) before)
  /\ (forall status reply,
        In (HttpReply status reply) trace -> status = 202 \/ status = 400 \/ status = 500)
  /\ (length (List.filter is_push trace) <= 1)%nat
  /\ (forall before reply after,
        trace = (before ++ HttpReply 202 reply :: after)%list ->
        exists name params, In (HandlerCalled name params) before)
  /\ (forall e, In (RouteThrew e) trace -> trace = [RouteThrew e]).
Proof.
  intros trace. subst trace.
  destruct (trace_ends srv now body net srv' now')
    as [(pre & status & reply & -> & Hkind & Hstatus & Hpush & Hcalled) | [e ->]].
  - assert (Hin : forall a, In a pre -> is_push a || is_handler_call a = true).
    { apply List.Forall_forall. exact Hkind. }
    assert (Hpre : Forall (fun a => is_reply a = false) pre).
    { apply List.Forall_forall. intros a Ha. apply Hin in Ha. destruct a; try reflexivity.
      discriminate Ha. }
    split; [| split; [| split; [| split]]].
    + intros before a after Heq Ha.
      destruct (reply_is_last pre _ before a after Hpre Heq Ha) as (-> & -> & _). auto.
    + intros status' reply' Hmem. apply in_app_or in Hmem as [Hmem | [Hmem | []]].
      * apply Hin in Hmem. discriminate Hmem.
      * injection Hmem as <- _. exact Hstatus.
    + rewrite List.filter_app, length_app. cbn [List.filter is_push length]. lia.
    + intros before reply' after Heq.
      destruct (reply_is_last pre _ before _ after Hpre Heq eq_refl) as (_ & -> & Hr).
      injection Hr as <- _. auto.
    + intros e Hmem. apply in_app_or in Hmem as [Hmem | [Hmem | []]]; [| discriminate Hmem].
      apply Hin in Hmem. discriminate Hmem.
  - split; [| split; [| split; [| split]]].
    + intros before a after Heq Ha. destruct before as [|b before]; cbn [app] in Heq.
      * injection Heq as <- _. discriminate Ha.
      * injection Heq as _ Heq. destruct before; discriminate Heq.
    + intros status reply [Hmem | []]. discriminate Hmem.
    + simpl. lia.
    + intros before reply after Heq. destruct before as [|b before]; cbn [app] in Heq.
      * discriminate Heq.
      * injection Heq as _ Heq. destruct before; discriminate Heq.
    + intros e' [Hmem | []]. injection Hmem as ->. reflexivity.
Qed.

Lemma handler_called_shape (srv : Server) (now : Z) (body : jsval)
  (net : Network) (srv' : Server) (now' : Z) (name : string) (params : jsval) :
  In (HandlerCalled name params) (toolCallHandler srv now body net srv' now') ->
  exists cid tool,
    get "client_id" body = JStr cid
    /\ sessions_has cid srv = true
    /\ get "tool_name" body = JStr name
    /\ map_get name tools = Some tool
    /\ parse Number_toString (schema tool) (get "parameters" body) = Parsed params.
Proof.
  intros Hin.
  destruct (toolCallHandler_shape srv now body net srv' now')
    as [[payload Heq] | [(cid & Hc & res & chunk & payload & Hres & Heq)
       | [(cid & name' & tool & params' & pushes & status & reply & Hc & Hne & Hlive & Ht
          & Hreg & Hparse & Heq & Hpushes & Hstatus) | [e Heq]]]];
    cbv zeta in Heq; rewrite Heq in Hin.
  - destruct Hin as [Hin | []]. discriminate.
  - destruct Hin as [Hin | [Hin | []]]; [| discriminate].
    unfold write_action in Hin. destruct (write_throws srv res); discriminate.
  - destruct Hin as [Hin | Hin].
    + injection Hin as -> ->. exists cid, tool. auto.
    + apply in_app_or in Hin as [Hin | [Hin | []]]; [| discriminate].
      destruct Hpushes as [[_ ->] | (res & chunk & _ & ->)]; [destruct Hin |].
      destruct Hin as [Hin | []]. unfold write_action in Hin.
      destruct (write_throws srv' res); discriminate.
  - destruct Hin as [Hin | []]. discriminate.
Qed.

(** X3: a tool handler is called only for a request whose [client_id]
    names a session that is live when the request arrives, whose
    [tool_name] is registered, and with the parameters as the tool's schema
    parsed them. *)
Theorem handler_called_only_when_valid (srv : Server) (now : Z) (body : jsval)
  (net : Network) (srv' : Server) (now' : Z) (name : string) (params : jsval) :
  In (HandlerCalled name params) (toolCallHandler srv now body net srv' now') ->
  exists cid tool,
    get "client_id" body = JStr cid
    /\ sessions_has cid srv = true
    /\ get "tool_name" body = JStr name
    /\ map_get name tools = Some tool
    /\ parse Number_toString (schema tool) (get "parameters" body) = Parsed params.
Proof. apply handler_called_shape. Qed.

(** X4: when the session is gone by the time the tool's promise settles,
    the result is not pushed anywhere, and the request is still answered
    with the 202 that announces it. *)
Theorem result_dropped_when_session_gone (srv : Server) (now : Z) (body : jsval)
  (net : Network) (srv' : Server) (now' : Z) (cid name : string)
  (tool : ToolDefinition) (params result : jsval) :
  get "client_id" body = JStr cid -> cid <> "" -> sessions_has cid srv = true ->
  get "tool_name" body = JStr name -> map_get name tools = Some tool ->
  parse Number_toString (schema tool) (get "parameters" body) = Parsed params ->
  handler tool net params = Returned result ->
  activeSseClients srv' !! cid = None ->
  toolCallHandler srv now body net srv' now'
  = [ HandlerCalled name params; HttpReply 202 (accepted_reply (get "id" body)) ].
Proof.
  intros Hc Hne Hlive Ht Hreg Hparse Hres Hgone. unfold toolCallHandler.
  rewrite (dispatch_invoke srv now body cid name tool params Hc Hne Hlive Ht Hreg Hparse).
  rewrite Hres. unfold settle, push_and_reply. rewrite sendSseMessage_actions, Hgone.
  reflexivity.
Qed.

(** X5: whatever an invocation pushes is written on the response
    registered under the request's own [client_id], as the registry stands
    when the request arrives or when the tool settles; no other session's
    channel is written. *)
Theorem pushes_go_to_the_named_session (srv : Server) (now : Z) (body : jsval)
  (net : Network) (srv' : Server) (now' : Z) (a : Action) :
  In a (toolCallHandler srv now body net srv' now') -> is_push a = true ->
  exists cid res chunk,
    get "client_id" body = JStr cid
    /\ ((activeSseClients srv !! cid = Some res /\ a = write_action srv res chunk)
        \/ (activeSseClients srv' !! cid = Some res /\ a = write_action srv' res chunk)).
Proof.
  intros Hin Hpush.
  destruct (toolCallHandler_shape srv now body net srv' now')
    as [[payload Heq] | [(cid & Hc & res & chunk & payload & Hres & Heq)
       | [(cid & name & tool & params & pushes & status & reply & Hc & Hne & Hlive & Ht
          & Hreg & Hparse & Heq & Hpushes & Hstatus) | [e Heq]]]];
    cbv zeta in Heq; rewrite Heq in Hin.
  - destruct Hin as [<- | []]. discriminate.
  - destruct Hin as [<- | [<- | []]]; [| discriminate].
    exists cid, res, chunk. auto.
  - destruct Hin as [<- | Hin]; [discriminate |].
    apply in_app_or in Hin as [Hin | [<- | []]]; [| discriminate].
    destruct Hpushes as [[_ ->] | (res & chunk & Hres & ->)]; [destruct Hin |].
    destruct Hin as [<- | []]. exists cid, res, chunk. auto.
  - destruct Hin as [<- | []]. discriminate.
Qed.

(** ** Sessions across requests *)

Lemma rejected_when_not_live (srv : Server) (now : Z) (body : jsval)
  (net : Network) (srv' : Server) (now' : Z) (cid : string) :
  get "client_id" body = JStr cid -> cid <> "" ->
  activeSseClients srv !! cid = None ->
  toolCallHandler srv now body net srv' now'
  = [ HttpReply 400
        (error_payload (js_or (get "id" body) (JStr "unknown")) "invalid_client_id"
           ("No active SSE session found for client_id: " ++ cid
            ++ ". Please connect to /sse first.")) ].
Proof.
  intros Hc Hne Hgone. unfold toolCallHandler, dispatch.
  rewrite (get_string_defined "client_id" body cid Hc), Hc.
  apply truthy_str_iff in Hne. unfold truthy_str in Hne.
  cbn [truthy]. rewrite Hne. cbn [negb].
  assert (Hhas : sessions_has cid srv = false).
  { unfold sessions_has. apply bool_decide_eq_false. rewrite Hgone.
    intros [x Hx]. discriminate. }
  rewrite Hhas. reflexivity.
Qed.

Lemma new_clientId_nonempty (t : Z) (random36 : string) : new_clientId t random36 <> "".
Proof. unfold new_clientId. simpl. discriminate. Qed.

(** X6: a token does not outlive its channel.  Once a teardown event of the
    channel has fired, and also when the initial writes of the channel open
    failed, a request carrying the token is answered [invalid_client_id]
    with status 400 and nothing else happens. *)
Theorem late_invocation_rejected (srv : Server) (res : Response) (t0 t1 t2 : Z)
  (random36 : string) (ev : ChannelEvent) (now : Z) (body : jsval)
  (net : Network) (srv' : Server) (now' : Z) :
  let o := sse_open srv res t0 t1 t2 random36 in
  let cid := opened_clientId o in
  get "client_id" body = JStr cid ->
  let rejection :=
    [ HttpReply 400
        (error_payload (js_or (get "id" body) (JStr "unknown")) "invalid_client_id"
           ("No active SSE session found for client_id: " ++ cid
            ++ ". Please connect to /sse first.")) ] in
  toolCallHandler (on_channel_event cid ev (opened_server o)) now body net srv' now'
  = rejection
  /\ (write_throws srv res = true ->
      toolCallHandler (opened_server o) now body net srv' now' = rejection).
Proof.
  intros o cid Hc rejection.
  assert (Hcid : cid = new_clientId t0 random36).
  { subst cid o. unfold sse_open.
    destruct (write_throws (sessions_set (new_clientId t0 random36) res srv) res);
      reflexivity. }
  assert (Hne : cid <> "") by (rewrite Hcid; apply new_clientId_nonempty).
  split.
  - apply (rejected_when_not_live _ now body net srv' now' cid Hc Hne).
    rewrite on_channel_event_delete. apply sessions_delete_lookup.
  - intros Hw. apply (rejected_when_not_live _ now body net srv' now' cid Hc Hne).
    subst cid o. unfold sse_open in *.
    change (write_throws (sessions_set (new_clientId t0 random36) res srv) res)
      with (write_throws srv res) in *.
    rewrite Hw in *. cbn [opened_server opened_clientId]. apply sessions_delete_lookup.
Qed.

(** X7: opening a channel and tearing one down leave every other session
    as it was: a token other than the one concerned is bound to the same
    response before and after, and the transport state is not touched. *)
Theorem other_sessions_untouched (srv : Server) (res : Response) (t0 t1 t2 : Z)
  (random36 : string) (cid other : string) (ev : ChannelEvent) :
  other <> new_clientId t0 random36 -> other <> cid ->
  let o := sse_open srv res t0 t1 t2 random36 in
  activeSseClients (opened_server o) !! other = activeSseClients srv !! other
  /\ broken (opened_server o) = broken srv
  /\ activeSseClients (on_channel_event cid ev srv) !! other = activeSseClients srv !! other
  /\ broken (on_channel_event cid ev srv) = broken srv.
Proof.
  intros Hnew Hcid o. subst o. unfold sse_open.
  change (write_throws (sessions_set (new_clientId t0 random36) res srv) res)
    with (write_throws srv res).
  rewrite on_channel_event_delete.
  destruct (write_throws srv res); cbn [opened_server];
    unfold sessions_delete, sessions_set; cbn [activeSseClients broken];
    repeat split;
    repeat (rewrite lookup_delete_ne by congruence);
    repeat (rewrite lookup_insert_ne by congruence); reflexivity.
Qed.

(** ** What the registered schemas accept *)

Lemma Qle_bool_both (lo hi x : Q) :
  Qle_bool lo x && Qle_bool x hi = true <-> (lo <= x)%Q /\ (x <= hi)%Q.
Proof. rewrite andb_true_iff, !Qle_bool_iff. reflexivity. Qed.

Lemma bounds_issues (k : string) (lo hi x : Q) :
  (check_number Number_toString [k] x (NMin lo)
   ++ check_number Number_toString [k] x (NMax hi) ++ [])%list = []
  <-> (lo <= x)%Q /\ (x <= hi)%Q.
Proof.
  rewrite <- Qle_bool_both. cbn [check_number].
  destruct (Qle_bool lo x), (Qle_bool x hi); simpl; split; intros H;
    try reflexivity; discriminate.
Qed.

Lemma length_issues (k : string) (n : nat) (s : string) :
  (check_string [k] s (SLength n) ++ [])%list = [] <-> utf16_length s = n.
Proof. rewrite app_nil_r. apply (check_string_passes [k] s (SLength n)). Qed.

(** Case analysis on the issue list a parse branches on. *)
Ltac parse_cases E :=
  match goal with
  | |- match ?l with [] => _ | _ :: _ => _ end = _ -> _ =>
      destruct l eqn:E; [| discriminate]
  end.

(** X8: the [get-forecast] schema accepts a payload exactly when it is an
    object whose [latitude] is a number in [-90, 90] and whose [longitude]
    is a number in [-180, 180]; the handler then receives these two fields
    and nothing else. *)
Theorem forecast_schema_accepts (parameters out : jsval) :
  parse Number_toString get_forecast_schema parameters = Parsed out
  <-> exists fields latitude longitude,
        parameters = JObj fields
        /\ lookup_field "latitude" fields = JNum latitude
        /\ lookup_field "longitude" fields = JNum longitude
        /\ (-90 <= latitude)%Q /\ (latitude <= 90)%Q
        /\ (-180 <= longitude)%Q /\ (longitude <= 180)%Q
        /\ out = JObj [("latitude", JNum latitude); ("longitude", JNum longitude)].
Proof.
  unfold parse, object_issues, object_output, get_forecast_schema.
  cbn [flat_map omap list_omap fst snd describe zod_issues zod_output].
  split.
  - destruct parameters as [ | |b|q|str|items|fields]; try discriminate.
    destruct (lookup_field "latitude" fields) as [ | |b|lat|str|items|fs] eqn:Hlat;
      destruct (lookup_field "longitude" fields) as [ | |b'|lon|str'|items'|fs'] eqn:Hlon;
      parse_cases E; try discriminate E;
      apply app_eq_nil in E as [Elat Elon]; try discriminate Elon.
    rewrite app_nil_r in Elon. apply bounds_issues in Elat, Elon.
    intros [= <-]. exists fields, lat, lon. tauto.
  - intros (fields & lat & lon & -> & Hlat & Hlon & H1 & H2 & H3 & H4 & ->).
    rewrite Hlat, Hlon.
    rewrite (proj2 (bounds_issues "latitude" (-90) 90 lat) (conj H1 H2)).
    rewrite (proj2 (bounds_issues "longitude" (-180) 180 lon) (conj H3 H4)).
    reflexivity.
Qed.

Lemma alerts_schema_shape (parameters out : jsval) :
  parse Number_toString get_alerts_schema parameters = Parsed out
  <-> exists fields state,
        parameters = JObj fields
        /\ lookup_field "state" fields = JStr state
        /\ utf16_length state = 2%nat
        /\ out = JObj [("state", JStr state)].
Proof.
  unfold parse, object_issues, object_output, get_alerts_schema.
  cbn [flat_map omap list_omap fst snd describe zod_issues zod_output].
  split.
  - destruct parameters as [ | |b|q|str|items|fields]; try discriminate.
    destruct (lookup_field "state" fields) as [ | |b|q|state|items|fs] eqn:Hstate;
      parse_cases E; try discriminate E.
    rewrite app_nil_r in E. apply length_issues in E.
    intros [= <-]. exists fields, state. auto.
  - intros (fields & state & -> & Hstate & Hlen & ->).
    rewrite Hstate, app_nil_r.
    rewrite (proj2 (length_issues "state" 2 state) Hlen). reflexivity.
Qed.

(** X9: the [get-alerts] schema accepts a payload exactly when it is an
    object whose [state] is a string of length 2; the handler receives that
    field alone. *)
Theorem alerts_schema_accepts (parameters out : jsval) :
  parse Number_toString get_alerts_schema parameters = Parsed out
  <-> exists fields state,
        parameters = JObj fields
        /\ lookup_field "state" fields = JStr state
        /\ utf16_length state = 2%nat
        /\ out = JObj [("state", JStr state)].
Proof. apply alerts_schema_shape. Qed.

(** What a search schema with an optional count bounded by [hi] accepts. *)
Lemma search_schema_accepts (dq dc : string) (hi : Q) (parameters out : jsval) :
  parse Number_toString
    [ ("query", describe dq (ZodString [] None));
      ("count", describe dc (ZodOptional (ZodNumber [NMin 1; NMax hi] None) None)) ]
    parameters = Parsed out
  <-> exists fields query,
        parameters = JObj fields
        /\ lookup_field "query" fields = JStr query
        /\ ((lookup_field "count" fields = JUndefined
             /\ out = JObj [("query", JStr query)])
            \/ exists count,
                 lookup_field "count" fields = JNum count
                 /\ (1 <= count)%Q /\ (count <= hi)%Q
                 /\ out = JObj [("query", JStr query); ("count", JNum count)]).
Proof.
  unfold parse, object_issues, object_output.
  cbn [flat_map omap list_omap fst snd describe zod_issues zod_output].
  split.
  - destruct parameters as [ | |b|q|str|items|fields]; try discriminate.
    destruct (lookup_field "query" fields) as [ | |b|q|query|items|fs] eqn:Hq;
      destruct (lookup_field "count" fields) as [ | |b'|count|str'|items'|fs'] eqn:Hc;
      parse_cases E; try discriminate E.
    + intros [= <-]. exists fields, query. auto.
    + cbn [app] in E. rewrite app_nil_r in E. apply bounds_issues in E.
      intros [= <-]. exists fields, query.
      split; [reflexivity | split; [exact Hq | right]]. exists count. tauto.
  - intros (fields & query & -> & Hq & [[Hc ->] | (count & Hc & H1 & H2 & ->)]);
      rewrite Hq, Hc; [reflexivity |].
    cbn [app]. rewrite app_nil_r.
    rewrite (proj2 (bounds_issues "count" 1 hi count) (conj H1 H2)). reflexivity.
Qed.

(** X10: both search schemas accept a payload exactly when it is an object
    whose [query] is a string and whose [count] is either absent or a number
    from 1 to the provider's maximum, 20 for Brave and 10 for Google; an
    absent count stays absent in what the handler receives. *)
Theorem search_schemas_accept (parameters out : jsval) :
  let accepts (hi : Q) :=
    exists fields query,
      parameters = JObj fields
      /\ lookup_field "query" fields = JStr query
      /\ ((lookup_field "count" fields = JUndefined
           /\ out = JObj [("query", JStr query)])
          \/ exists count,
               lookup_field "count" fields = JNum count
               /\ (1 <= count)%Q /\ (count <= hi)%Q
               /\ out = JObj [("query", JStr query); ("count", JNum count)]) in
  (parse Number_toString brave_web_search_schema parameters = Parsed out <-> accepts 20%Q)
  /\ (parse Number_toString google_search_schema parameters = Parsed out <-> accepts 10%Q).
Proof.
  intros accepts. subst accepts. split; apply search_schema_accepts.
Qed.

(** X11: a key of the payload that the tool's schema does not name never
    reaches the handler: the parameters a handler is called with are an
    object whose keys are keys of the schema, in the schema's order. *)
Theorem handler_sees_schema_keys_only (srv : Server) (now : Z) (body : jsval)
  (net : Network) (srv' : Server) (now' : Z) (name : string) (params : jsval) :
  In (HandlerCalled name params) (toolCallHandler srv now body net srv' now') ->
  exists tool fields,
    map_get name tools = Some tool
    /\ params = JObj fields
    /\ sublist (map fst fields) (map fst (schema tool)).
Proof.
  intros Hin.
  destruct (handler_called_shape srv now body net srv' now' name params Hin)
    as (cid & tool & _ & _ & _ & Hreg & Hparse).
  unfold parse in Hparse.
  destruct (get "parameters" body) as [ | |b|q|str|items|fields]; try discriminate.
  destruct (object_issues Number_toString (schema tool) fields); [| discriminate].
  injection Hparse as <-. exists tool, (object_output (schema tool) fields).
  split; [exact Hreg | split; [reflexivity |]].
  clear Hin. unfold object_output.
  induction (schema tool) as [|[k t] shape IH]; [constructor |].
  cbn [omap list_omap fst snd map].
  destruct (zod_output t (lookup_field k fields));
    first [ apply sublist_cons; exact IH | apply sublist_skip; exact IH ].
Qed.

(** ** The advertisement of a tool's parameters *)

Lemma lookup_set_field_same (k : string) (v : jsval) (fields : list (string * jsval)) :
  lookup_field k (set_field k v fields) = v.
Proof.
  induction fields as [|[k' w] fields IH]; cbn [set_field lookup_field].
  - now rewrite String.eqb_refl.
  - destruct (String.eqb k' k) eqn:E; cbn [lookup_field]; rewrite E; [reflexivity | exact IH].
Qed.

Lemma lookup_set_field_other (k k' : string) (v : jsval) (fields : list (string * jsval)) :
  k <> k' -> lookup_field k' (set_field k v fields) = lookup_field k' fields.
Proof.
  intros Hne. induction fields as [|[k0 w] fields IH]; cbn [set_field lookup_field].
  - destruct (String.eqb_spec k k'); [contradiction | reflexivity].
  - destruct (String.eqb_spec k0 k) as [->|Hk]; cbn [lookup_field].
    + destruct (String.eqb_spec k k'); [contradiction | reflexivity].
    + rewrite IH. reflexivity.
Qed.

Lemma set_field_fresh (k : string) (v : jsval) (fields : list (string * jsval)) :
  ~ In k (map fst fields) -> set_field k v fields = (fields ++ [(k, v)])%list.
Proof.
  induction fields as [|[k' w] fields IH]; intros Hfresh; cbn [set_field]; [reflexivity |].
  destruct (String.eqb_spec k' k) as [->|Hne].
  - exfalso. apply Hfresh. now left.
  - cbn [app]. rewrite IH; [reflexivity |]. intros Hin. apply Hfresh. now right.
Qed.

Lemma shape_loop_properties (shape : ZodObject) (properties : list (string * jsval))
  (required : list string) :
  List.NoDup (map fst properties ++ map fst shape) ->
  fst (shape_loop shape properties required)
  = (properties
     ++ map (fun kt => (fst kt, JObj (zodToJsonSchemaProperty (snd kt)))) shape)%list.
Proof.
  revert properties required. induction shape as [|[k t] shape IH];
    intros properties required Hnd; cbn [shape_loop map fst snd].
  - now rewrite app_nil_r.
  - assert (Hfresh : ~ In k (map fst properties)).
    { intros Hin. apply NoDup_remove_2 in Hnd. apply Hnd.
      apply in_or_app. now left. }
    rewrite IH.
    + rewrite (set_field_fresh k _ properties Hfresh), <- app_assoc. reflexivity.
    + rewrite (set_field_fresh k _ properties Hfresh), map_app. cbn [map fst].
      rewrite <- app_assoc. exact Hnd.
Qed.

(** X12: for a schema whose field names are distinct, the [properties]
    object of the tool's advertisement has one property per field, named as
    the field and in the schema's order, holding the field's JSON-schema
    description; every name in [required] is one of these properties. *)
Theorem advertised_properties_are_schema_fields (name : string) (def : ToolDefinition) :
  List.NoDup (map fst (schema def)) ->
  entry_properties (tool_entry (name, def))
  = map (fun kt => (fst kt, JObj (zodToJsonSchemaProperty (snd kt)))) (schema def)
  /\ (forall r, In r (entry_required (tool_entry (name, def))) ->
      exists k, r = JStr k /\ In k (map fst (entry_properties (tool_entry (name, def))))).
Proof.
  intros Hnd.
  assert (Hprops : entry_properties (tool_entry (name, def))
                   = map (fun kt => (fst kt, JObj (zodToJsonSchemaProperty (snd kt))))
                       (schema def)).
  { pose proof (shape_loop_properties (schema def) [] [] Hnd) as H. cbn [app] in H.
    unfold tool_entry.
    destruct (shape_loop (schema def) [] []) as [properties required].
    cbn [fst] in H. subst properties. reflexivity. }
  split; [exact Hprops |].
  intros r Hr. rewrite entry_required_tool_entry in Hr.
  apply in_map_iff in Hr as (k & <- & Hk). exists k. split; [reflexivity |].
  rewrite Hprops, map_map. cbn [fst]. unfold required_fields in Hk.
  apply in_map_iff in Hk as ([k' t] & <- & Hin). apply filter_In in Hin as [Hin _].
  apply in_map_iff. exists (k', t). split; [reflexivity | exact Hin].
Qed.

Lemma with_description_type (d : option string) (fields : list (string * jsval)) :
  lookup_field "type" (with_description d fields) = lookup_field "type" fields.
Proof.
  unfold with_description. destruct d as [text|]; [| reflexivity].
  destruct (truthy_str text); [| reflexivity].
  apply lookup_set_field_other. discriminate.
Qed.

(** X13: the JSON-schema type advertised for a field is that of the schema
    under its optional and default wrappers: [string], [number] or
    [boolean], and [object] for every other kind.  The description
    advertised for an optional field is the wrapped schema's own when it has
    one, and the wrapper's otherwise. *)
Theorem advertised_type_and_description (t : ZodType) (d : option string) :
  lookup_field "type" (zodToJsonSchemaProperty t) = JStr (advertised_type t)
  /\ lookup_field "description" (zodToJsonSchemaProperty (ZodOptional t d))
     = (if truthy (lookup_field "description" (zodToJsonSchemaProperty t))
        then lookup_field "description" (zodToJsonSchemaProperty t)
        else match d with
             | Some text =>
                 if truthy_str text then JStr text
                 else lookup_field "description" (zodToJsonSchemaProperty t)
             | None => lookup_field "description" (zodToJsonSchemaProperty t)
             end).
Proof.
  split.
  - unfold advertised_type.
    induction t as [checks d'|checks d'|d'|d'|inner IH d'|inner IH dflt d'];
      cbn [zodToJsonSchemaProperty unwrap zod_description];
      try (rewrite with_description_type; reflexivity).
    + destruct (description_truthy d'
                && negb (truthy (lookup_field "description" (zodToJsonSchemaProperty inner))));
        [rewrite with_description_type |]; exact IH.
    + destruct (description_truthy d'
                && negb (truthy (lookup_field "description" (zodToJsonSchemaProperty inner))));
        [rewrite with_description_type |]; exact IH.
  - cbn [zodToJsonSchemaProperty zod_description].
    destruct (truthy (lookup_field "description" (zodToJsonSchemaProperty t))) eqn:Hinner.
    + rewrite andb_false_r. reflexivity.
    + rewrite andb_true_r. unfold description_truthy, with_description.
      destruct d as [text|]; [| reflexivity].
      destruct (truthy_str text); [| reflexivity].
      apply lookup_set_field_same.
Qed.

(** ** Registering tools *)

(** X14: [registerTool] binds the name to the definition just given, also
    when the name was registered before: the earlier definition is replaced
    without notice and the number of tools stays the same; a new name adds
    one tool; every other name keeps its definition. *)
Theorem registerTool_overwrites (name other description : string) (schema : ZodObject)
  (handler : ToolHandler) (m : ToolMap) :
  other <> name ->
  map_get name (registerTool name description schema handler m)
  = Some (mkTool description schema handler)
  /\ map_get other (registerTool name description schema handler m) = map_get other m
  /\ length (registerTool name description schema handler m)
     = match map_get name m with
       | Some _ => length m
       | None => S (length m)
       end.
Proof.
  intros Hne. unfold registerTool.
  induction m as [|[k d] m (IH1 & IH2 & IH3)]; cbn [map_set map_get length].
  - rewrite String.eqb_refl. destruct (String.eqb_spec name other); [congruence | auto].
  - destruct (String.eqb_spec k name) as [->|Hk]; cbn [map_get length].
    + rewrite String.eqb_refl. destruct (String.eqb_spec name other); [congruence | auto].
    + destruct (String.eqb_spec k name); [contradiction |].
      rewrite IH1, IH2, IH3. repeat split.
      destruct (map_get name m); reflexivity.
Qed.

(** ** Collaborators that fail or answer oddly *)

Lemma makeNWSRequest_failed (net : Network) (n : nat) (url : string) :
  request_failed (net n url) -> makeNWSRequest net n url = JNull.
Proof.
  unfold makeNWSRequest, request_failed.
  destruct (net n url) as [|[] [data|]]; intros H; try reflexivity. destruct H.
Qed.

Lemma get_alerts_handler_string (net : Network) (params : jsval) (state : string) :
  get "state" params = JStr state ->
  get_alerts_handler net params
  = get_alerts_handler net (JObj [("state", JStr state)]).
Proof.
  intros Hs. unfold get_alerts_handler.
  rewrite (get_string_defined "state" params state Hs), Hs. reflexivity.
Qed.

(** Which query a search can put in its address. *)
Lemma encodeURIComponent_string (query : string) :
  encodeURIComponent (JStr query)
  = if has_lone_surrogate query then Threw (ThrownError "URI malformed")
    else Returned (percent_encode query).
Proof. reflexivity. Qed.

Lemma brave_search_failed (net : Network) (query : string) (count : jsval) :
  has_lone_surrogate query = false -> unprintable count = false ->
  (forall url, request_failed (net 0%nat url)) ->
  brave_search net (JStr query) count = Returned [].
Proof.
  intros Hquery Hcount Hdown. unfold brave_search.
  rewrite encodeURIComponent_string, Hquery. cbn [bind].
  destruct (String_of_printable (or_default count (JNum 10))) as [c ->].
  { destruct count; try reflexivity; exact Hcount. }
  cbn [bind].
  match goal with |- context [net 0%nat ?url] => specialize (Hdown url); revert Hdown end.
  unfold request_failed.
  match goal with |- context [net 0%nat ?url] =>
    destruct (net 0%nat url) as [|[] [data|]] end; intros H; try reflexivity.
  destruct H.
Qed.

Lemma google_search_failed (net : Network) (query : string) (count : jsval) :
  has_lone_surrogate query = false -> unprintable count = false ->
  (forall url, request_failed (net 0%nat url)) ->
  google_search net (JStr query) count = Returned [].
Proof.
  intros Hquery Hcount Hdown. unfold google_search.
  rewrite encodeURIComponent_string, Hquery. cbn [bind].
  destruct (String_of_printable (or_default count (JNum 5))) as [c ->].
  { destruct count; try reflexivity; exact Hcount. }
  cbn [bind].
  match goal with |- context [net 0%nat ?url] => specialize (Hdown url); revert Hdown end.
  unfold request_failed.
  match goal with |- context [net 0%nat ?url] =>
    destruct (net 0%nat url) as [|[] [data|]] end; intros H; try reflexivity.
  destruct H.
Qed.

Lemma or_default_printable (v d : jsval) :
  unprintable v = false -> unprintable d = false -> unprintable (or_default v d) = false.
Proof. destruct v; auto. Qed.

(** X15: while no request gets an answer (rejected fetch, status outside
    2xx, or a body that is not JSON), none of the four tools fails on
    parameters of the kind its schema lets through: each handler returns
    its text for "no data".  For the two searches that is a [query] that is
    a string without a lone surrogate, which [encodeURIComponent] would
    refuse, and a [count] that can be printed. *)
Theorem network_down_degrades (net : Network) (params : jsval) :
  (forall n url, request_failed (net n url)) ->
  (forall state, get "state" params = JStr state ->
     get_alerts_handler net params
     = Returned (JObj [("type", JStr "text");
                       ("text", JStr "Failed to retrieve alerts data")]))
  /\ (forall latitude longitude,
       get "latitude" params = JNum latitude -> get "longitude" params = JNum longitude ->
       get_forecast_handler net params
       = Returned (JObj [("type", JStr "text");
                         ("text", JStr "Failed to get forecast data for this location")]))
  /\ (forall query,
       get "query" params = JStr query -> has_lone_surrogate query = false ->
       unprintable (get "count" params) = false ->
       brave_web_search_handler net params
       = Returned (JObj [("type", JStr "text"); ("text", JStr "No search results found")])
       /\ google_search_handler net params
          = Returned (JObj [("type", JStr "text");
                            ("text", JStr "No results found from Google Search.")])).
Proof.
  intros Hdown. split; [| split].
  - intros state Hs. rewrite (get_alerts_handler_string net params state Hs).
    unfold get_alerts_handler. cbn [nullish get lookup_field String.eqb Ascii.eqb Bool.eqb].
    rewrite makeNWSRequest_failed by apply Hdown. reflexivity.
  - intros latitude longitude Hlat Hlon. unfold get_forecast_handler.
    rewrite (get_defined "latitude" params) by (rewrite Hlat; discriminate).
    rewrite Hlat, Hlon. rewrite makeNWSRequest_failed by apply Hdown. reflexivity.
  - intros query Hq Hsurrogate Hcount.
    pose proof (get_string_defined "query" params query Hq) as Hparams.
    split.
    + unfold brave_web_search_handler. rewrite Hparams, Hq.
      rewrite brave_search_failed;
        [reflexivity | exact Hsurrogate | | intros url; apply Hdown].
      apply or_default_printable; [exact Hcount | reflexivity].
    + unfold google_search_handler. rewrite Hparams, Hq.
      rewrite google_search_failed;
        [reflexivity | exact Hsurrogate | | intros url; apply Hdown].
      apply or_default_printable; [exact Hcount | reflexivity].
Qed.

(** X16: when the points request of [get-forecast] is answered with a
    forecast link and the request for that link is not, the handler returns
    the text [No forecast data available]. *)
Theorem forecast_link_unanswered (net : Network) (params : jsval)
  (latitude longitude : Q) (pointsData : jsval) (link : string) :
  get "latitude" params = JNum latitude -> get "longitude" params = JNum longitude ->
  net 0%nat (NWS_API_BASE ++ "/points/" ++ toFixed4 latitude ++ "," ++ toFixed4 longitude)
    = FetchResponse true (Some pointsData) ->
  get "forecast" (get "properties" pointsData) = JStr link -> link <> "" ->
  request_failed (net 1%nat link) ->
  get_forecast_handler net params
  = Returned (text_content "No forecast data available").
Proof.
  intros Hlat Hlon Hnet Hlink Hne Hfail. unfold get_forecast_handler.
  rewrite (get_defined "latitude" params) by (rewrite Hlat; discriminate).
  rewrite Hlat, Hlon.
  assert (Hpoints : makeNWSRequest net 0%nat
                      (NWS_API_BASE ++ "/points/" ++ toFixed4 latitude ++ ","
                       ++ toFixed4 longitude) = pointsData).
  { unfold makeNWSRequest. now rewrite Hnet. }
  rewrite Hpoints.
  destruct pointsData as [ | |b|q|str|items|fields]; try discriminate Hlink.
  cbn [opt_get].
  destruct (get "properties" (JObj fields)) as [ | |b|q|str|items|pfields] eqn:Hprops;
    try discriminate Hlink.
  cbn [opt_get]. rewrite Hlink. cbn [truthy].
  apply truthy_str_iff in Hne. unfold truthy_str in Hne. rewrite Hne. cbn [negb].
  cbn [String_of].
  rewrite (makeNWSRequest_failed net 1%nat link Hfail). reflexivity.
Qed.

(** X17: an answer of the weather service that is truthy but has no usable
    [features] (the key is absent, or holds null, false, 0 or the empty
    string) is read as "no alerts": the handler returns
    [No active alerts for] and the upper-cased state. *)
Theorem alerts_without_features (net : Network) (params : jsval) (state : string)
  (data : jsval) :
  get "state" params = JStr state ->
  net 0%nat (NWS_API_BASE ++ "/alerts?area=" ++ toUpperCase state)
    = FetchResponse true (Some data) ->
  truthy data = true ->
  truthy (get "features" data) = false ->
  get_alerts_handler net params
  = Returned (text_content ("No active alerts for " ++ toUpperCase state)).
Proof.
  intros Hs Hnet Hdata Hfeat. rewrite (get_alerts_handler_string net params state Hs).
  unfold get_alerts_handler. cbn [nullish get lookup_field String.eqb Ascii.eqb Bool.eqb].
  unfold makeNWSRequest. rewrite Hnet, Hdata. cbn [negb].
  unfold js_or. rewrite Hfeat. reflexivity.
Qed.

Lemma mapM_all_returned {A B : Type} (f : A -> Outcome B) (g : A -> B) (items : list A) :
  (forall x, In x items -> f x = Returned (g x)) ->
  mapM f items = Returned (map g items).
Proof.
  induction items as [|x items IH]; intros H; cbn [mapM map]; [reflexivity |].
  rewrite (H x (or_introl eq_refl)). cbn [bind].
  rewrite IH by (intros y Hy; apply H; now right). reflexivity.
Qed.

Lemma mapM_one_threw {A B : Type} (f : A -> Outcome B) (P : Thrown -> Prop)
  (items : list A) (x : A) (e : Thrown) :
  (forall y e', f y = Threw e' -> P e') ->
  In x items -> f x = Threw e ->
  exists e', mapM f items = Threw e' /\ P e'.
Proof.
  intros HP. induction items as [|y items IH]; intros Hin Hx; [destruct Hin |].
  cbn [mapM]. destruct (f y) as [b|e'] eqn:Hy.
  - cbn [bind]. destruct Hin as [-> | Hin]; [congruence |].
    destruct (IH Hin Hx) as (e' & -> & He'). exists e'. auto.
  - exists e'. split; [reflexivity | exact (HP y e' Hy)].
Qed.

Lemma existsb_nullish_false (items : list jsval) (x : jsval) :
  existsb nullish items = false -> In x items -> nullish x = false.
Proof.
  intros H Hin. destruct (nullish x) eqn:Hx; [| reflexivity].
  rewrite <- H. symmetry. apply existsb_exists. eauto.
Qed.

(** What the [map] callbacks of the two services make of the entries. *)
Lemma brave_results (items : list jsval) :
  match mapM brave_result items with
  | Returned results => results
  | Threw _ => []
  end
  = if existsb nullish items then [] else map to_search_result items.
Proof.
  destruct (existsb nullish items) eqn:Hnull.
  - apply existsb_exists in Hnull as (x & Hin & Hx).
    assert (Hthrow : exists e, brave_result x = Threw e).
    { destruct x; try discriminate Hx; eexists; reflexivity. }
    destruct Hthrow as [e He].
    destruct (mapM_one_threw brave_result (fun _ => True) items x e
                (fun _ _ _ => I) Hin He) as (e' & -> & _).
    reflexivity.
  - rewrite (mapM_all_returned brave_result to_search_result); [reflexivity |].
    intros x Hin. pose proof (existsb_nullish_false items x Hnull Hin) as Hx.
    destruct x; try discriminate Hx; reflexivity.
Qed.

Lemma google_results (items : list jsval) :
  match mapM google_result items with
  | Returned results => results
  | Threw _ => []
  end
  = if existsb nullish items then [] else map to_google_result items.
Proof.
  destruct (existsb nullish items) eqn:Hnull.
  - apply existsb_exists in Hnull as (x & Hin & Hx).
    assert (Hthrow : exists e, google_result x = Threw e).
    { destruct x; try discriminate Hx; eexists; reflexivity. }
    destruct Hthrow as [e He].
    destruct (mapM_one_threw google_result (fun _ => True) items x e
                (fun _ _ _ => I) Hin He) as (e' & -> & _).
    reflexivity.
  - rewrite (mapM_all_returned google_result to_google_result); [reflexivity |].
    intros x Hin. pose proof (existsb_nullish_false items x Hnull Hin) as Hx.
    destruct x; try discriminate Hx; reflexivity.
Qed.

(** X18: the search services keep all entries of the provider's answer or
    none.  For a query that is a string without a lone surrogate and a count
    that can be printed: when the answer holds an array of results, the
    service returns one record per entry, in order (the [link] of an entry
    that is a string being the method strings inherit), unless an entry is
    null, in which case the exception is caught and the whole search comes
    back empty.  A query that holds a lone surrogate makes the search throw
    the [URIError] of [encodeURIComponent], whatever the provider would
    answer. *)
Theorem search_results_all_or_none (net : Network) (query : string) (count data : jsval)
  (items : list jsval) :
  (forall url, net 0%nat url = FetchResponse true (Some data)) ->
  unprintable count = false ->
  (has_lone_surrogate query = false ->
   (get "results" (get "web" data) = JArr items ->
    brave_search net (JStr query) count
    = Returned (if existsb nullish items then [] else map to_search_result items))
   /\ (get "items" data = JArr items ->
       google_search net (JStr query) count
       = Returned (if existsb nullish items then [] else map to_google_result items)))
  /\ (has_lone_surrogate query = true ->
      brave_search net (JStr query) count = Threw (ThrownError "URI malformed")
      /\ google_search net (JStr query) count = Threw (ThrownError "URI malformed")).
Proof.
  intros Hnet Hcount. split; intros Hquery.
  - split; intros Hitems.
    + unfold brave_search. rewrite encodeURIComponent_string, Hquery. cbn [bind].
      destruct (String_of_printable (or_default count (JNum 10))) as [c ->];
        [apply or_default_printable; [exact Hcount | reflexivity] |].
      cbn [bind]. rewrite Hnet. f_equal.
      destruct data as [ | |b|q|str|its|fields]; try discriminate Hitems.
      destruct (get "web" (JObj fields)) as [ | |b|q|str|its|wfields] eqn:Hweb;
        try discriminate Hitems.
      cbn [opt_get]. rewrite Hitems. apply brave_results.
    + unfold google_search. rewrite encodeURIComponent_string, Hquery. cbn [bind].
      destruct (String_of_printable (or_default count (JNum 5))) as [c ->];
        [apply or_default_printable; [exact Hcount | reflexivity] |].
      cbn [bind]. rewrite Hnet. f_equal.
      destruct data as [ | |b|q|str|its|fields]; try discriminate Hitems.
      rewrite Hitems. unfold js_or. cbn [truthy]. apply google_results.
  - unfold brave_search, google_search.
    rewrite encodeURIComponent_string, Hquery. split; reflexivity.
Qed.

Lemma formatAlert_throws_error (feature : jsval) (e : Thrown) :
  formatAlert feature = Threw e -> exists msg, e = ThrownError msg.
Proof.
  unfold formatAlert, get_strict, cannot_read.
  assert (Hbind : forall (v : jsval) (k : string -> Outcome string),
            (forall s e', k s = Threw e' -> exists msg, e' = ThrownError msg) ->
            forall e', bind (to_str v) k = Threw e' -> exists msg, e' = ThrownError msg).
  { intros v k Hk e' H. destruct (to_str v) as [printed|e0] eqn:Hv; cbn [bind] in H.
    - exact (Hk printed e' H).
    - injection H as <-. apply String_of_threw in Hv as [_ ->]. eexists; reflexivity. }
  destruct feature; cbn [bind]; try (intros [= <-]; eauto);
    match goal with
    | |- context [match ?p with _ => _ end] => destruct p
    end; try (intros H; injection H as <-; eauto; fail);
    revert e; repeat (apply Hbind; intros ?); intros e' H; discriminate H.
Qed.

(** A value that is printed with a fallback for the falsy ones fails to
    print exactly when it does itself. *)
Lemma unprintable_js_or (v : jsval) (fallback : string) :
  unprintable (js_or v (JStr fallback)) = unprintable v.
Proof.
  unfold js_or. destruct (truthy v) eqn:H; [reflexivity |].
  destruct v; try reflexivity; discriminate H.
Qed.

Lemma formatAlert_cases (feature : jsval) :
  (exists e, formatAlert feature = Threw e)
  <-> nullish feature = true
      \/ nullish (get "properties" feature) = true
      \/ exists key, In key ["event"; "areaDesc"; "severity"; "status"; "headline"]
                     /\ unprintable (get key (get "properties" feature)) = true.
Proof.
  assert (Hprops : forall props,
            nullish props = false ->
            ((exists e,
                bind (to_str (js_or (get "event" props) (JStr "Unknown"))) (fun event =>
                bind (to_str (js_or (get "areaDesc" props) (JStr "Unknown"))) (fun areaDesc =>
                bind (to_str (js_or (get "severity" props) (JStr "Unknown"))) (fun severity =>
                bind (to_str (js_or (get "status" props) (JStr "Unknown"))) (fun status =>
                bind (to_str (js_or (get "headline" props) (JStr "No headline")))
                  (fun headline =>
                Returned (join LF
                  [ "Event: " ++ event; "Area: " ++ areaDesc; "Severity: " ++ severity;
                    "Status: " ++ status; "Headline: " ++ headline; "---" ]))))))
                = Threw e)
             <-> exists key, In key ["event"; "areaDesc"; "severity"; "status"; "headline"]
                             /\ unprintable (get key props) = true)).
  { intros props _.
    destruct (String_of_cases (js_or (get "event" props) (JStr "Unknown")))
      as [[H1 [s1 ->]] | [H1 ->]];
    destruct (String_of_cases (js_or (get "areaDesc" props) (JStr "Unknown")))
      as [[H2 [s2 ->]] | [H2 ->]];
    destruct (String_of_cases (js_or (get "severity" props) (JStr "Unknown")))
      as [[H3 [s3 ->]] | [H3 ->]];
    destruct (String_of_cases (js_or (get "status" props) (JStr "Unknown")))
      as [[H4 [s4 ->]] | [H4 ->]];
    destruct (String_of_cases (js_or (get "headline" props) (JStr "No headline")))
      as [[H5 [s5 ->]] | [H5 ->]];
    rewrite unprintable_js_or in H1, H2, H3, H4, H5; cbn [bind];
    (split;
     [ intros [e He];
       first [ discriminate He
             | exists "event"; split; [simpl; tauto | exact H1]
             | exists "areaDesc"; split; [simpl; tauto | exact H2]
             | exists "severity"; split; [simpl; tauto | exact H3]
             | exists "status"; split; [simpl; tauto | exact H4]
             | exists "headline"; split; [simpl; tauto | exact H5] ]
     | intros (key & Hkey & Hbad);
       first [ eexists; reflexivity
             | exfalso; simpl in Hkey;
               destruct Hkey as [<- | [<- | [<- | [<- | [<- | []]]]]]; congruence ] ]). }
  unfold formatAlert, get_strict.
  destruct feature as [ | |b|q|str|items|fields]; cbn [bind nullish get];
    try (split; [intros _; auto | intros _; eexists; reflexivity]).
  destruct (lookup_field "properties" fields) as [ | |b|q|str|items|pfields] eqn:Hp;
    cbn [nullish];
    try (split; [intros _; auto | intros _; eexists; reflexivity]);
    (rewrite Hprops by reflexivity;
     split; [auto | intros [H | [H | H]]; [discriminate H | discriminate H | exact H]]).
Qed.

(** X19: [formatAlert] throws exactly when the feature, or its
    [properties], is null or undefined, or when one of the five properties
    it prints cannot be printed (an object with an own [toString] property,
    or an array that holds one); on every other feature it returns a text. *)
Theorem formatAlert_fails_iff (feature : jsval) :
  (exists e, formatAlert feature = Threw e)
  <-> nullish feature = true
      \/ nullish (get "properties" feature) = true
      \/ exists key, In key ["event"; "areaDesc"; "severity"; "status"; "headline"]
                     /\ unprintable (get key (get "properties" feature)) = true.
Proof. exact (formatAlert_cases feature). Qed.

Lemma nonempty_is_not_zero (x : jsval) (items : list jsval) :
  is_zero (length_of (JArr (x :: items))) = false.
Proof.
  cbn [length_of is_zero length]. destruct (Qeq_bool _ 0) eqn:E; [| reflexivity].
  apply Qeq_bool_iff in E. unfold Qeq in E. cbn in E. lia.
Qed.

(** X20: one alert of the weather service's answer that is null, or has no
    [properties], fails the whole [get-alerts] invocation: nothing is
    listed, an error Event of type [tool_error] is pushed and the reply has
    status 500. *)
Theorem malformed_alert_fails_invocation (srv : Server) (now : Z) (body : jsval)
  (net : Network) (srv' : Server) (now' : Z) (cid : string) (res : Response)
  (fields : list (string * jsval)) (state : string) (data : jsval)
  (items : list jsval) (item : jsval) :
  get "client_id" body = JStr cid -> cid <> "" -> sessions_has cid srv = true ->
  get "tool_name" body = JStr "get-alerts" ->
  get "parameters" body = JObj fields ->
  lookup_field "state" fields = JStr state -> utf16_length state = 2%nat ->
  net 0%nat (NWS_API_BASE ++ "/alerts?area=" ++ toUpperCase state)
    = FetchResponse true (Some data) ->
  get "features" data = JArr items ->
  In item items ->
  nullish item = true \/ nullish (get "properties" item) = true ->
  activeSseClients srv' !! cid = Some res ->
  exists msg,
    let payload := error_payload (get "id" body) "tool_error" msg in
    toolCallHandler srv now body net srv' now'
    = [ HandlerCalled "get-alerts" (JObj [("state", JStr state)]);
        write_action srv' res
          (sse_frame ("err-" ++ Z_toString now') "mcp" (stringify payload));
        HttpReply 500 payload ].
Proof.
  intros Hc Hne Hlive Ht Hp Hstate Hlen Hnet Hfeat Hin Hbad Hlive'.
  assert (Hparse : parse Number_toString get_alerts_schema (get "parameters" body)
                   = Parsed (JObj [("state", JStr state)])).
  { rewrite Hp. exact (alerts_parse fields state Hstate Hlen). }
  assert (Hthrows : exists e, formatAlert item = Threw e).
  { apply formatAlert_cases. tauto. }
  destruct Hthrows as [e He].
  destruct (mapM_one_threw formatAlert (fun e => exists msg, e = ThrownError msg)
              items item e formatAlert_throws_error Hin He) as (e' & Hmap & msg & ->).
  exists msg. cbv zeta. unfold toolCallHandler.
  rewrite (dispatch_invoke srv now body cid "get-alerts" _ _ Hc Hne Hlive Ht
             tools_get_alerts Hparse).
  cbn [handler]. unfold get_alerts_handler.
  cbn [get lookup_field String.eqb Ascii.eqb Bool.eqb nullish].
  unfold makeNWSRequest. rewrite Hnet.
  destruct data as [ | |b|q|str|its|dfields]; try discriminate Hfeat.
  cbn [truthy negb]. rewrite Hfeat. unfold js_or. cbn [truthy].
  destruct items as [|x items]; [destruct Hin |].
  rewrite nonempty_is_not_zero, Hmap. cbn [bind].
  unfold settle, catch_block, push_and_reply.
  rewrite (sendSseMessage_live srv' now' cid "mcp" _ "err" res Hlive').
  reflexivity.
Qed.

Lemma upper_ascii_idempotent (c : ascii) : upper_ascii (upper_ascii c) = upper_ascii c.
Proof. destruct c as [[] [] [] [] [] [] [] []]; reflexivity. Qed.

Lemma ascii_toUpperCase_idempotent (s : string) :
  ascii_toUpperCase (ascii_toUpperCase s) = ascii_toUpperCase s.
Proof.
  induction s as [|c s IH]; cbn [ascii_toUpperCase]; [reflexivity |].
  now rewrite upper_ascii_idempotent, IH.
Qed.

(** X21: the state code of [get-alerts] is case-insensitive: for two codes
    with the same upper-case form the handler asks the weather service the
    same question and gives the same answer; so it does for a code and for
    its upper-case form, upper-casing being idempotent. *)
Theorem alerts_state_is_case_insensitive (net : Network) (state other : string) :
  (toUpperCase state = toUpperCase other ->
   get_alerts_handler net (JObj [("state", JStr state)])
   = get_alerts_handler net (JObj [("state", JStr other)]))
  /\ (toUpperCase (toUpperCase state) = toUpperCase state ->
      get_alerts_handler net (JObj [("state", JStr state)])
      = get_alerts_handler net (JObj [("state", JStr (toUpperCase state))])).
Proof.
  unfold get_alerts_handler.
  cbn [get lookup_field String.eqb Ascii.eqb Bool.eqb nullish].
  split; intros Hsame; rewrite Hsame; reflexivity.
Qed.

(** ** Configuration *)

Lemma split_on_cons (sep : ascii) (s : string) :
  exists piece pieces, split_on sep s = piece :: pieces.
Proof.
  induction s as [|c s (piece & pieces & IH)]; cbn [split_on]; [eauto |].
  destruct (Ascii.eqb c sep); [eauto |]. rewrite IH. eauto.
Qed.

Lemma join_cons_cons (sep p q : string) (rest : list string) :
  join sep (p :: q :: rest) = p ++ sep ++ join sep (q :: rest).
Proof. reflexivity. Qed.

(** Splitting and joining on the same character gives the text back. *)
Lemma join_split_on (sep : ascii) (s : string) :
  join (String sep EmptyString) (split_on sep s) = s.
Proof.
  induction s as [|c s IH]; cbn [split_on]; [reflexivity |].
  destruct (split_on_cons sep s) as (piece & pieces & Hs). rewrite Hs in IH |- *.
  destruct (Ascii.eqb_spec c sep) as [->|Hne].
  - rewrite join_cons_cons, IH. reflexivity.
  - destruct pieces as [|q rest].
    + cbn [join] in IH |- *. now rewrite IH.
    + rewrite join_cons_cons in IH |- *. rewrite <- IH. reflexivity.
Qed.

Lemma split_on_first (sep : ascii) (key rest : string) :
  occurs sep key = false ->
  split_on sep (key ++ String sep rest) = key :: split_on sep rest.
Proof.
  induction key as [|c key IH]; cbn [occurs String.append split_on]; intros Hocc.
  - now rewrite Ascii.eqb_refl.
  - apply orb_false_iff in Hocc as [Hc Hkey]. rewrite Hc, (IH Hkey). reflexivity.
Qed.

Lemma split_on_absent (sep : ascii) (s : string) :
  occurs sep s = false -> split_on sep s = [s].
Proof.
  induction s as [|c s IH]; cbn [occurs split_on]; intros Hocc; [reflexivity |].
  apply orb_false_iff in Hocc as [Hc Hs]. rewrite Hc, (IH Hs). reflexivity.
Qed.

Lemma split_on_last (sep : ascii) (content line : string) :
  occurs sep line = false ->
  split_on sep (content ++ String sep line) = (split_on sep content ++ [line])%list.
Proof.
  intros Hline. induction content as [|c content IH]; cbn [String.append split_on].
  - rewrite Ascii.eqb_refl, (split_on_absent sep line Hline). reflexivity.
  - destruct (Ascii.eqb c sep); rewrite IH; [reflexivity |].
    destruct (split_on_cons sep content) as (piece & pieces & ->). reflexivity.
Qed.

Lemma parse_env_line_first_equals (key value : string) :
  occurs "=" key = false ->
  parse_env_line (key ++ "=" ++ value) = (trim key, strip_quotes (trim value)).
Proof.
  intros Hkey. unfold parse_env_line.
  change (key ++ "=" ++ value) with (key ++ String "=" value).
  rewrite (split_on_first "=" key value Hkey).
  change "=" with (String "="%char EmptyString) at 1. rewrite join_split_on. reflexivity.
Qed.

(** X22: a line of the [.env] file is cut at its first equals sign: the
    name is what stands before it, trimmed, and the value is all that
    follows, further equals signs included, trimmed and then freed of its
    quotes; a line without an equals sign defines its name as the empty
    string. *)
Theorem env_line_is_cut_at_first_equals (key value : string) :
  occurs "=" key = false ->
  parse_env_line (key ++ "=" ++ value) = (trim key, strip_quotes (trim value))
  /\ parse_env_line key = (trim key, "").
Proof.
  intros Hkey. split; [exact (parse_env_line_first_equals key value Hkey) |].
  unfold parse_env_line. rewrite (split_on_absent "=" key Hkey). reflexivity.
Qed.

Lemma strip_closing_quote_end (v : string) (q : ascii) (tail : string) :
  is_quote q = true -> tail = "" \/ tail = ";" ->
  strip_closing_quote (v ++ String q tail) = v.
Proof.
  intros Hq Htail. induction v as [|c v IH]; cbn [String.append strip_closing_quote].
  - rewrite Hq. destruct Htail as [-> | ->]; reflexivity.
  - assert (Hrest : String.eqb (v ++ String q tail) "" || String.eqb (v ++ String q tail) ";"
                    = false).
    { destruct v as [|c' v]; cbn [String.append].
      - destruct Htail as [-> | ->]; cbn [String.eqb].
        + destruct (Ascii.eqb_spec q ";") as [->|]; [discriminate Hq | reflexivity].
        + destruct (Ascii.eqb q ";"); reflexivity.
      - cbn [String.eqb]. destruct (Ascii.eqb c' ";"); [| reflexivity].
        destruct v; reflexivity. }
    rewrite Hrest, andb_false_r, IH. reflexivity.
Qed.

(** X23: a value written between quotes, single or double, with or without
    a semicolon after the closing quote, loses the quotes and the semicolon
    and keeps what stands between them as it is. *)
Theorem quotes_around_a_value_are_removed (q q' : ascii) (v : string) :
  is_quote q = true -> is_quote q' = true ->
  strip_quotes (String q (v ++ String q' "")) = v
  /\ strip_quotes (String q (v ++ String q' ";")) = v.
Proof.
  intros Hq Hq'. unfold strip_quotes. rewrite Hq.
  split; apply strip_closing_quote_end; auto.
Qed.

Lemma env_entries_last (content line : string) :
  occurs (ascii_of_nat 10) line = false ->
  env_entries (content ++ LF ++ line)
  = (env_entries content
     ++ if is_env_line line then [parse_env_line line] else [])%list.
Proof.
  intros Hline. unfold env_entries.
  change (content ++ LF ++ line) with (content ++ String (ascii_of_nat 10) line).
  rewrite (split_on_last _ content line Hline), List.filter_app, map_app.
  cbn [List.filter]. destruct (is_env_line line); reflexivity.
Qed.

Lemma assign_env_last (entries : list (string * string)) (k v : string)
  (env : gmap string string) :
  assign_env (entries ++ [(k, v)]) env = setenv k v (assign_env entries env).
Proof. unfold assign_env. rewrite fold_left_app. reflexivity. Qed.

Lemma setenv_unnamed (v : string) (env : gmap string string) : setenv "" v env = env.
Proof. reflexivity. Qed.

Lemma setenv_lookup (k v : string) (env : gmap string string) :
  k <> "" -> setenv k v env !! k = Some v.
Proof.
  intros Hne. unfold setenv.
  destruct (String.eqb_spec k ""); [contradiction | apply lookup_insert_eq].
Qed.

Lemma is_env_line_false (line : string) :
  is_env_line line = false <-> line = "" \/ exists rest, line = String "#" rest.
Proof.
  destruct line as [|c rest]; cbn [is_env_line].
  - split; auto.
  - destruct (Ascii.eqb_spec c "#") as [->|Hc]; cbn [negb]; split; eauto; try discriminate.
    intros [H | [rest' H]]; [discriminate H | injection H as -> _; contradiction].
Qed.

(** X24: the last line of a [.env] file without NUL characters decides.
    If it is empty or starts with the comment mark, the file means what it
    means without that line.  If it is a definition whose name comes out
    empty (nothing but white space before the equals sign), it is dropped
    as well, for the environment takes no variable of the empty name.  If
    it is a definition of a name, that name is bound to the line's value in
    the environment afterwards, whatever the file or the environment said
    before. *)
Theorem last_env_line_decides (content line : string) (scriptFile : option string)
  (env : gmap string string) :
  occurs (ascii_of_nat 0) content = false -> occurs (ascii_of_nat 0) line = false ->
  occurs (ascii_of_nat 10) line = false ->
  let loaded := load_env true (Some (content ++ LF ++ line)) scriptFile env in
  let without := load_env true (Some content) scriptFile env in
  let name := fst (parse_env_line line) in
  let value := snd (parse_env_line line) in
  ((line = "" \/ exists rest, line = String "#" rest) -> loaded = without)
  /\ (is_env_line line = true -> name = "" -> loaded = without)
  /\ (is_env_line line = true -> name <> "" -> loaded !! name = Some value).
Proof.
  intros _ _ Hline loaded without name value. subst loaded without name value.
  unfold load_env. rewrite (env_entries_last content line Hline).
  split; [| split].
  - intros Hskip. apply is_env_line_false in Hskip. rewrite Hskip. now rewrite app_nil_r.
  - intros Hdef Hname. rewrite Hdef.
    destruct (parse_env_line line) as [k v]. cbn [fst] in Hname. subst k.
    rewrite assign_env_last. apply setenv_unnamed.
  - intros Hdef Hname. rewrite Hdef.
    destruct (parse_env_line line) as [k v]. cbn [fst snd] in *.
    rewrite assign_env_last. now apply setenv_lookup.
Qed.

Lemma new_ConfigImpl_cases (env : gmap string string) :
  match env !! "BRAVE_API_KEY" with
  | Some key =>
      if truthy_str key
      then new_ConfigImpl env
           = Returned (mkConfigImpl key
                         (env_or env "BRAVE_BASE_URL" "https://api.search.brave.com/res/v1")
                         (env_or env "WEATHER_USER_AGENT" "WeatherApp/1.0")
                         (env_or env "WEATHER_API_BASE" "https://api.weather.gov"))
      else new_ConfigImpl env = Threw (ThrownError "BRAVE_API_KEY is required")
  | None => new_ConfigImpl env = Threw (ThrownError "BRAVE_API_KEY is required")
  end.
Proof.
  unfold new_ConfigImpl. cbn [impl_BRAVE_API_KEY].
  assert (Hor : env_or env "BRAVE_API_KEY" ""
                = match env !! "BRAVE_API_KEY" with
                  | Some key => if truthy_str key then key else ""
                  | None => ""
                  end) by reflexivity.
  rewrite Hor. destruct (env !! "BRAVE_API_KEY") as [key|]; [| reflexivity].
  destruct (truthy_str key) eqn:Hkey; [rewrite Hkey |]; reflexivity.
Qed.

(** X25: the configuration is built exactly when [BRAVE_API_KEY] is set to
    a non-empty string, and then carries it; otherwise the constructor
    throws [BRAVE_API_KEY is required], also when every other setting is
    present.  A setting that is unset or empty takes its default. *)
Theorem config_requires_brave_key (env : gmap string string) :
  ((exists c, new_ConfigImpl env = Returned c)
   <-> exists key, env !! "BRAVE_API_KEY" = Some key /\ key <> "")
  /\ (forall c, new_ConfigImpl env = Returned c ->
      env !! "BRAVE_API_KEY" = Some (impl_BRAVE_API_KEY c)
      /\ (env !! "WEATHER_API_BASE" = None \/ env !! "WEATHER_API_BASE" = Some "" ->
          impl_WEATHER_API_BASE c = "https://api.weather.gov")
      /\ (env !! "BRAVE_BASE_URL" = None \/ env !! "BRAVE_BASE_URL" = Some "" ->
          impl_BRAVE_BASE_URL c = "https://api.search.brave.com/res/v1"))
  /\ ((forall c, new_ConfigImpl env <> Returned c) ->
      new_ConfigImpl env = Threw (ThrownError "BRAVE_API_KEY is required")).
Proof.
  pose proof (new_ConfigImpl_cases env) as H.
  destruct (env !! "BRAVE_API_KEY") as [key|] eqn:Hk.
  - destruct (truthy_str key) eqn:Hkey.
    + rewrite H. split; [| split].
      * split; [intros _; exists key; split; [reflexivity | now apply truthy_str_iff] | eauto].
      * intros c [= <-]. cbn. split; [reflexivity |].
        split; intros [Hn | He]; unfold env_or; rewrite ?Hn, ?He; reflexivity.
      * intros Hno. exfalso. eapply Hno. reflexivity.
    + rewrite H. split; [| split].
      * split; [intros [c Hc]; discriminate Hc |].
        intros (key' & [= <-] & Hne). apply truthy_str_iff in Hne. congruence.
      * intros c Hc. discriminate Hc.
      * reflexivity.
  - rewrite H. split; [| split].
    + split; [intros [c Hc]; discriminate Hc | intros (key' & Hk' & _); discriminate Hk'].
    + intros c Hc. discriminate Hc.
    + reflexivity.
Qed.

(** X26: a [.env] file in the working directory, without NUL characters,
    whose last line defines [BRAVE_API_KEY] decides whether the
    configuration can be built, whatever the environment held and whatever
    the file beside the script says.  With a value that is not empty once
    trimmed and unquoted the configuration is built, with that value as the
    key; with a value that is empty once trimmed and unquoted the
    constructor throws [BRAVE_API_KEY is required], also when the
    environment had a key. *)
Theorem dotenv_supplies_brave_key (content value : string) (scriptFile : option string)
  (env : gmap string string) :
  occurs (ascii_of_nat 0) content = false -> occurs (ascii_of_nat 0) value = false ->
  occurs (ascii_of_nat 10) value = false ->
  let key := strip_quotes (trim value) in
  let loaded := load_env true (Some (content ++ LF ++ "BRAVE_API_KEY=" ++ value))
                  scriptFile env in
  (key <> "" ->
   exists c, new_ConfigImpl loaded = Returned c /\ impl_BRAVE_API_KEY c = key)
  /\ (key = "" -> new_ConfigImpl loaded = Threw (ThrownError "BRAVE_API_KEY is required")).
Proof.
  intros _ _ Hvalue key loaded.
  assert (Hkey : loaded !! "BRAVE_API_KEY" = Some key).
  { subst loaded key. unfold load_env.
    rewrite (env_entries_last content ("BRAVE_API_KEY=" ++ value)) by exact Hvalue.
    cbn [is_env_line String.append Ascii.eqb Bool.eqb negb].
    change (String "B" (String "R" (String "A" (String "V" (String "E" (String "_"
             (String "A" (String "P" (String "I" (String "_" (String "K" (String "E"
             (String "Y" (String "=" value))))))))))))))
      with ("BRAVE_API_KEY" ++ "=" ++ value).
    rewrite (parse_env_line_first_equals "BRAVE_API_KEY" value eq_refl).
    rewrite assign_env_last. apply setenv_lookup. discriminate. }
  pose proof (new_ConfigImpl_cases loaded) as H. rewrite Hkey in H.
  split.
  - intros Hne. apply truthy_str_iff in Hne. rewrite Hne in H.
    eexists. split; [exact H | reflexivity].
  - intros Hempty. rewrite Hempty in H. exact H.
Qed.

End Gateway.

(** * Examples *)

(** The request of the acceptance example: [get-alerts] for [zz], on the
    sample session. *)
Lemma handler_runs_before_acceptance_witness :
  let trace := toolCallHandler integer_toString integer_toFixed4
                               ascii_toUpperCase id sample_config
                 sample_server 5
                 (sample_request (JStr sample_clientId) (JStr "get-alerts")
                    (JObj [("state", JStr "zz")]))
                 no_alerts_network sample_server 6 in
  before_reply is_handler_call trace = true
  /\ trace = [ HandlerCalled "get-alerts" (JObj [("state", JStr "zz")]);
               SseWrite 7%nat
                 (sse_frame "toolrsp-6" "mcp"
                    (stringify_text integer_toString
                       (tool_response_message (JStr "req-1") "get-alerts"
                          (text_content "No active alerts for ZZ"))));
               HttpReply 202 (accepted_reply (JStr "req-1")) ].
Proof.
  destruct (handler_runs_before_acceptance integer_toString integer_toFixed4
                                           ascii_toUpperCase id sample_config sample_server 5
              (sample_request (JStr sample_clientId) (JStr "get-alerts")
                 (JObj [("state", JStr "zz")]))
              no_alerts_network sample_server 6 sample_clientId "get-alerts"
              (mkTool "Get weather alerts for a state" get_alerts_schema
                 (get_alerts_handler integer_toString ascii_toUpperCase sample_config))
              (JObj [("state", JStr "zz")]))
    as (Hfirst & Hok & _); try reflexivity; try discriminate.
  split; [exact Hfirst |].
  apply (Hok (text_content "No active alerts for ZZ")). reflexivity.
Defined.

(** C1, as stated, fails on that request: the handler is called and the
    Event is pushed before the synchronous reply. *)
Lemma acceptance_is_not_first :
  ~ acknowledged_first
      (toolCallHandler integer_toString integer_toFixed4 ascii_toUpperCase id sample_config
         sample_server 5
         (sample_request (JStr sample_clientId) (JStr "get-alerts")
            (JObj [("state", JStr "zz")]))
         no_alerts_network sample_server 6).
Proof. intros [H _]. vm_compute in H. discriminate. Qed.

(** A forecast request with both coordinates out of range: the two bounds
    that are broken are both reported. *)
Lemma invalid_parameters_rejected_witness :
  toolCallHandler integer_toString integer_toFixed4
                  ascii_toUpperCase id sample_config sample_server 5
    (sample_request (JStr sample_clientId) (JStr "get-forecast")
       (JObj [("latitude", JNum 999); ("longitude", JNum (-999))]))
    no_alerts_network sample_server 6
  = let payload :=
      JObj [ ("id", JStr "req-1");
             ("type", JStr "error");
             ("error_type", JStr "invalid_parameters");
             ("message", JStr "Parameter validation failed: Number must be less than or equal to 90, Number must be greater than or equal to -180") ] in
    [ SseWrite 7%nat (sse_frame "err-5" "mcp" (stringify_text integer_toString payload));
      HttpReply 400 payload ].
Proof.
  refine (proj1 (invalid_parameters_rejected integer_toString integer_toFixed4
                                             ascii_toUpperCase id sample_config sample_server 5
              (sample_request (JStr sample_clientId) (JStr "get-forecast")
                 (JObj [("latitude", JNum 999); ("longitude", JNum (-999))]))
              no_alerts_network sample_server 6 sample_clientId "get-forecast" 7%nat
              (mkTool "Get weather forecast for a location" get_forecast_schema
                 (get_forecast_handler integer_toString integer_toFixed4 sample_config))
              [ mkIssue too_big ["latitude"] "Number must be less than or equal to 90";
                mkIssue too_small ["longitude"]
                  "Number must be greater than or equal to -180" ]
              _ _ _ _ _ _));
    try reflexivity; discriminate.
Defined.

(** A search for 25 results on the sample session. *)
Lemma brave_count_25_rejected_witness :
  exists msg,
    let payload := error_payload (JStr "req-1") "invalid_parameters" msg in
    toolCallHandler integer_toString integer_toFixed4
                    ascii_toUpperCase id sample_config sample_server 5
      (sample_request (JStr sample_clientId) (JStr "brave-web-search")
         (JObj [("query", JStr "rocq"); ("count", JNum 25)]))
      no_alerts_network sample_server 6
    = [ write_action sample_server 7%nat
          (sse_frame "err-5" "mcp" (stringify_text integer_toString payload));
        HttpReply 400 payload ].
Proof.
  destruct (brave_count_25_rejected integer_toString integer_toFixed4
                                    ascii_toUpperCase id sample_config
              sample_server 5
              (sample_request (JStr sample_clientId) (JStr "brave-web-search")
                 (JObj [("query", JStr "rocq"); ("count", JNum 25)]))
              no_alerts_network sample_server 6 sample_clientId 7%nat
              [("query", JStr "rocq"); ("count", JNum 25)]
              eq_refl ltac:(discriminate) eq_refl eq_refl eq_refl eq_refl)
    as (msg & Htrace & _).
  exists msg. exact Htrace.
Defined.

(** C4, as stated, fails on that request: an Event is pushed. *)
Lemma brave_count_25_is_pushed :
  ~ no_push
      (toolCallHandler integer_toString integer_toFixed4
                       ascii_toUpperCase id sample_config sample_server 5
         (sample_request (JStr sample_clientId) (JStr "brave-web-search")
            (JObj [("query", JStr "rocq"); ("count", JNum 25)]))
         no_alerts_network sample_server 6).
Proof.
  unfold no_push. intros H. vm_compute in H. inversion H as [|a l Hpush _]. discriminate.
Qed.

(** A request without [client_id], and one naming a session nobody opened. *)
Lemma client_id_rejected_witness :
  toolCallHandler integer_toString integer_toFixed4
                  ascii_toUpperCase id sample_config sample_server 5
    (JObj [("id", JStr "req-1"); ("tool_name", JStr "get-alerts")])
    no_alerts_network sample_server 6
  = [ HttpReply 400
        (JObj [ ("id", JStr "req-1");
                ("type", JStr "error");
                ("error_type", JStr "missing_client_id");
                ("message",
                  JStr "client_id is required in the request body for /tool_call.") ]) ]
  /\ toolCallHandler integer_toString integer_toFixed4
                     ascii_toUpperCase id sample_config sample_server 5
       (sample_request (JStr "client-0-nobody") (JStr "get-alerts") (JObj []))
       no_alerts_network sample_server 6
     = [ HttpReply 400
           (JObj [ ("id", JStr "req-1");
                   ("type", JStr "error");
                   ("error_type", JStr "invalid_client_id");
                   ("message",
                     JStr "No active SSE session found for client_id: client-0-nobody. Please connect to /sse first.") ]) ].
Proof.
  split.
  - exact (proj1 (proj2 (client_id_rejected integer_toString integer_toFixed4
                                            ascii_toUpperCase id sample_config sample_server 5
                           (JObj [("id", JStr "req-1"); ("tool_name", JStr "get-alerts")])
                           no_alerts_network sample_server 6 (or_introl eq_refl)))
             eq_refl eq_refl).
  - assert (Hunmapped : forall cid,
              get "client_id"
                (sample_request (JStr "client-0-nobody") (JStr "get-alerts") (JObj []))
              = JStr cid -> sessions_has cid sample_server = false).
    { intros cid [= <-]. reflexivity. }
    destruct (proj2 (proj2 (client_id_rejected
        integer_toString integer_toFixed4 ascii_toUpperCase id sample_config sample_server 5
                              (sample_request (JStr "client-0-nobody") (JStr "get-alerts")
                                 (JObj []))
                              no_alerts_network sample_server 6 (or_intror Hunmapped)))
                eq_refl eq_refl) as (printed & Hprinted & _ & Htrace).
    injection Hprinted as <-. exact Htrace.
Defined.

(** C7, as stated, fails on a request whose [client_id] is the empty
    string: the field is present and names no session, yet the reply says
    [missing_client_id]. *)
Lemma empty_client_id_is_reported_missing :
  let body := sample_request (JStr "") (JStr "get-alerts") (JObj [("state", JStr "CA")]) in
  get "client_id" body = JStr ""
  /\ sessions_has "" sample_server = false
  /\ reply_error_type
       (toolCallHandler integer_toString integer_toFixed4
                        ascii_toUpperCase id sample_config sample_server 5
          body no_alerts_network sample_server 6)
     <> JStr "invalid_client_id".
Proof. repeat split; try reflexivity. vm_compute. discriminate. Qed.

(** A request without [tool_name] on the sample session. *)
Lemma missing_tool_name_is_unknown_tool_witness :
  let payload :=
    error_payload (JStr "req-1") "unknown_tool" "Tool 'undefined' not found." in
  toolCallHandler integer_toString integer_toFixed4
                  ascii_toUpperCase id sample_config sample_server 5
    (JObj [("id", JStr "req-1"); ("parameters", JObj []);
           ("client_id", JStr sample_clientId)])
    no_alerts_network sample_server 6
  = [ write_action sample_server 7%nat
        (sse_frame "err-5" "mcp" (stringify_text integer_toString payload));
      HttpReply 400 payload ].
Proof.
  exact (proj1 (missing_tool_name_is_unknown_tool
      integer_toString integer_toFixed4 ascii_toUpperCase id sample_config sample_server 5
                  (JObj [("id", JStr "req-1"); ("parameters", JObj []);
                         ("client_id", JStr sample_clientId)])
                  no_alerts_network sample_server 6 sample_clientId 7%nat
                  eq_refl ltac:(discriminate) eq_refl eq_refl)).
Defined.

(** C5, as stated, fails on the sample session when its transport refuses
    writes: the write of the Event throws, and the token is still
    registered afterwards; and a request error followed by the close of the
    request runs the removal twice. *)
Lemma failed_push_keeps_session :
  let sent := sendSseMessage integer_toString sample_broken_server 5 sample_clientId
                "mcp" (JObj []) "msg" in
  snd sent = [ SseWriteThrew 7%nat (sse_frame "msg-5" "mcp" "{}") ]
  /\ activeSseClients (fst sent) !! sample_clientId = Some 7%nat
  /\ snd (run_channel_events sample_clientId [ReqError; ReqClose] sample_server) = 2%nat.
Proof. repeat split; reflexivity. Qed.

(** A channel opened on an empty registry. *)
Lemma channel_open_pushes_handshake_then_identity_witness :
  opened_actions
    (sse_open integer_toString integer_toFixed4
              ascii_toUpperCase id sample_config (mkServer ∅ ∅) 3%nat
       1700000000000 1700000000001 1700000000002 "0.4fzyo82mvyr")
  = [ SseWrite 3%nat
        (sse_frame "sse-handshake-1700000000001" "mcp"
           (stringify_text integer_toString
              (mcpHandshakeResponse integer_toString integer_toFixed4
                                    ascii_toUpperCase id sample_config )));
      SseWrite 3%nat
        (sse_frame "sse-clientid-1700000000002" "mcp"
           (stringify_text integer_toString
              (JObj [ ("type", JStr "client_id_assigned");
                      ("client_id", JStr "client-1700000000000-4fzyo") ]))) ].
Proof.
  exact (proj1 (channel_open_pushes_handshake_then_identity
      integer_toString integer_toFixed4 ascii_toUpperCase id sample_config (mkServer ∅ ∅) 3%nat
                  1700000000000 1700000000001 1700000000002 "0.4fzyo82mvyr" eq_refl)).
Defined.

(** [get-alerts] for [ZZ] on the sample session. *)
Lemma get_alerts_without_alerts_witness :
  toolCallHandler integer_toString integer_toFixed4
                  ascii_toUpperCase id sample_config sample_server 5
    (sample_request (JStr sample_clientId) (JStr "get-alerts")
       (JObj [("state", JStr "ZZ")]))
    no_alerts_network sample_server 6
  = [ HandlerCalled "get-alerts" (JObj [("state", JStr "ZZ")]);
      write_action sample_server 7%nat
        (sse_frame "toolrsp-6" "mcp"
           (stringify_text integer_toString
              (JObj [ ("id", JStr "req-1");
                      ("type", JStr "tool_response");
                      ("tool_name", JStr "get-alerts");
                      ("tool_response",
                        JObj [("type", JStr "text");
                              ("text", JStr "No active alerts for ZZ")]) ])));
      HttpReply 202
        (JObj [ ("id", JStr "req-1");
                ("status", JStr "processing");
                ("message", JStr "Tool call accepted, response will be sent via SSE.") ]) ]
  /\ stdio_get_alerts_handler integer_toString ascii_toUpperCase sample_config
       no_alerts_network (JObj [("state", JStr "ZZ")])
     = Returned (JObj [("content", JArr [JObj [("type", JStr "text");
                                               ("text", JStr "No active alerts for ZZ")]])]).
Proof.
  exact (get_alerts_without_alerts integer_toString integer_toFixed4
                                   ascii_toUpperCase id sample_config
           sample_server 5
           (sample_request (JStr sample_clientId) (JStr "get-alerts")
              (JObj [("state", JStr "ZZ")]))
           no_alerts_network sample_server 6 sample_clientId 7%nat
           [("state", JStr "ZZ")] "ZZ"
           (JObj [("type", JStr "FeatureCollection"); ("features", JArr [])])
           eq_refl ltac:(discriminate) eq_refl eq_refl eq_refl eq_refl eq_refl eq_refl
           eq_refl eq_refl).
Defined.

(** * Examples for the further properties *)

(** A request for a tool nobody registered, and one whose [tool_name] is an
    object with a [toString] property. *)
Lemma unregistered_tool_is_unknown_tool_witness :
  (let payload :=
     JObj [ ("id", JStr "req-1");
            ("type", JStr "error");
            ("error_type", JStr "unknown_tool");
            ("message", JStr "Tool 'no-such-tool' not found.") ] in
   toolCallHandler integer_toString integer_toFixed4
                   ascii_toUpperCase id sample_config sample_server 5
     (sample_request (JStr sample_clientId) (JStr "no-such-tool") (JObj []))
     no_alerts_network sample_server 6
   = [ write_action sample_server 7%nat
         (sse_frame "err-5" "mcp" (stringify_text integer_toString payload));
       HttpReply 400 payload ])
  /\ toolCallHandler integer_toString integer_toFixed4
                     ascii_toUpperCase id sample_config sample_server 5
       (sample_request (JStr sample_clientId) (JObj [("toString", JNum 1)]) (JObj []))
       no_alerts_network sample_server 6
     = [ RouteThrew (ThrownError "Cannot convert object to primitive value") ].
Proof.
  split.
  - assert (Hunregistered : forall name,
              get "tool_name"
                (sample_request (JStr sample_clientId) (JStr "no-such-tool") (JObj []))
              = JStr name -> map_get name (tools
                  integer_toString integer_toFixed4 ascii_toUpperCase id sample_config ) = None).
    { intros name [= <-]. reflexivity. }
    destruct (proj1 (unregistered_tool_is_unknown_tool
        integer_toString integer_toFixed4 ascii_toUpperCase id sample_config sample_server 5
                       (sample_request (JStr sample_clientId) (JStr "no-such-tool") (JObj []))
                       no_alerts_network sample_server 6 sample_clientId 7%nat
                       eq_refl ltac:(discriminate) eq_refl Hunregistered)
                eq_refl) as (printed & Hprinted & _ & Htrace).
    injection Hprinted as <-. exact Htrace.
  - assert (Hunregistered : forall name,
              get "tool_name"
                (sample_request (JStr sample_clientId) (JObj [("toString", JNum 1)])
                   (JObj []))
              = JStr name -> map_get name (tools
                  integer_toString integer_toFixed4 ascii_toUpperCase id sample_config ) = None).
    { intros name H. discriminate H. }
    exact (proj2 (unregistered_tool_is_unknown_tool
        integer_toString integer_toFixed4 ascii_toUpperCase id sample_config sample_server 5
                    (sample_request (JStr sample_clientId) (JObj [("toString", JNum 1)])
                       (JObj []))
                    no_alerts_network sample_server 6 sample_clientId 7%nat
                    eq_refl ltac:(discriminate) eq_refl Hunregistered)
             eq_refl).
Defined.

Lemma handler_called_only_when_valid_witness :
  exists cid tool,
    get "client_id" (sample_request (JStr sample_clientId) (JStr "get-alerts")
                       (JObj [("state", JStr "zz"); ("verbose", JBool true)]))
    = JStr cid
    /\ sessions_has cid sample_server = true
    /\ get "tool_name" (sample_request (JStr sample_clientId) (JStr "get-alerts")
                          (JObj [("state", JStr "zz"); ("verbose", JBool true)]))
       = JStr "get-alerts"
    /\ map_get "get-alerts" (tools integer_toString integer_toFixed4
                                   ascii_toUpperCase id sample_config )
       = Some tool
    /\ parse integer_toString (schema tool)
         (get "parameters" (sample_request (JStr sample_clientId) (JStr "get-alerts")
                              (JObj [("state", JStr "zz"); ("verbose", JBool true)])))
       = Parsed (JObj [("state", JStr "zz")]).
Proof.
  apply (handler_called_only_when_valid integer_toString integer_toFixed4
                                        ascii_toUpperCase id sample_config sample_server 5
           (sample_request (JStr sample_clientId) (JStr "get-alerts")
              (JObj [("state", JStr "zz"); ("verbose", JBool true)]))
           no_alerts_network sample_server 6 "get-alerts" (JObj [("state", JStr "zz")])).
  left. reflexivity.
Defined.

Lemma result_dropped_when_session_gone_witness :
  toolCallHandler integer_toString integer_toFixed4
                  ascii_toUpperCase id sample_config sample_server 5
    (sample_request (JStr sample_clientId) (JStr "get-alerts")
       (JObj [("state", JStr "ZZ")]))
    no_alerts_network (mkServer ∅ ∅) 6
  = [ HandlerCalled "get-alerts" (JObj [("state", JStr "ZZ")]);
      HttpReply 202 (accepted_reply (JStr "req-1")) ].
Proof.
  refine (result_dropped_when_session_gone integer_toString integer_toFixed4
                                           ascii_toUpperCase id sample_config sample_server 5
            (sample_request (JStr sample_clientId) (JStr "get-alerts")
               (JObj [("state", JStr "ZZ")]))
            no_alerts_network (mkServer ∅ ∅) 6 sample_clientId "get-alerts"
            (mkTool "Get weather alerts for a state" get_alerts_schema
               (get_alerts_handler integer_toString ascii_toUpperCase sample_config))
            (JObj [("state", JStr "ZZ")]) (text_content "No active alerts for ZZ")
            eq_refl _ eq_refl eq_refl eq_refl eq_refl eq_refl eq_refl).
  discriminate.
Defined.

Lemma pushes_go_to_the_named_session_witness :
  exists cid res chunk,
    get "client_id" (sample_request (JStr sample_clientId) (JStr "no-such-tool") (JObj []))
    = JStr cid
    /\ ((activeSseClients sample_server !! cid = Some res
         /\ SseWrite 7%nat
              (sse_frame "err-5" "mcp"
                 (stringify_text integer_toString
                    (error_payload (JStr "req-1") "unknown_tool"
                       "Tool 'no-such-tool' not found.")))
            = write_action sample_server res chunk)
        \/ (activeSseClients sample_server !! cid = Some res
            /\ SseWrite 7%nat
                 (sse_frame "err-5" "mcp"
                    (stringify_text integer_toString
                       (error_payload (JStr "req-1") "unknown_tool"
                          "Tool 'no-such-tool' not found.")))
               = write_action sample_server res chunk)).
Proof.
  apply (pushes_go_to_the_named_session integer_toString integer_toFixed4
                                        ascii_toUpperCase id sample_config sample_server 5
           (sample_request (JStr sample_clientId) (JStr "no-such-tool") (JObj []))
           no_alerts_network sample_server 6).
  - left. reflexivity.
  - reflexivity.
Defined.

Lemma late_invocation_rejected_witness :
  toolCallHandler integer_toString integer_toFixed4 ascii_toUpperCase id sample_config
    (on_channel_event "client-1700000000000-4fzyo" ReqClose
       (opened_server
          (sse_open integer_toString integer_toFixed4
                    ascii_toUpperCase id sample_config (mkServer ∅ ∅)
             3%nat 1700000000000 1700000000001 1700000000002 "0.4fzyo82mvyr")))
    5 (sample_request (JStr "client-1700000000000-4fzyo") (JStr "get-alerts")
         (JObj [("state", JStr "CA")]))
    no_alerts_network sample_server 6
  = [ HttpReply 400
        (error_payload (JStr "req-1") "invalid_client_id"
           "No active SSE session found for client_id: client-1700000000000-4fzyo. Please connect to /sse first.") ].
Proof.
  exact (proj1 (late_invocation_rejected integer_toString integer_toFixed4
                                         ascii_toUpperCase id sample_config (mkServer ∅ ∅) 3%nat 1700000000000 1700000000001
                  1700000000002 "0.4fzyo82mvyr" ReqClose 5
                  (sample_request (JStr "client-1700000000000-4fzyo") (JStr "get-alerts")
                     (JObj [("state", JStr "CA")]))
                  no_alerts_network sample_server 6 eq_refl)).
Defined.

Lemma other_sessions_untouched_witness :
  let o := sse_open integer_toString integer_toFixed4
                    ascii_toUpperCase id sample_config sample_server
             3%nat 5 5 5 "0.4fzyo82mvyr" in
  activeSseClients (opened_server o) !! sample_clientId
  = activeSseClients sample_server !! sample_clientId
  /\ broken (opened_server o) = broken sample_server
  /\ activeSseClients (on_channel_event "client-0-nobody" ReqError sample_server)
       !! sample_clientId
     = activeSseClients sample_server !! sample_clientId
  /\ broken (on_channel_event "client-0-nobody" ReqError sample_server)
     = broken sample_server.
Proof.
  apply (other_sessions_untouched integer_toString integer_toFixed4
                                  ascii_toUpperCase id sample_config
           sample_server 3%nat 5 5 5 "0.4fzyo82mvyr" "client-0-nobody" sample_clientId
           ReqError).
  - intros H. vm_compute in H. discriminate H.
  - discriminate.
Defined.

Lemma handler_sees_schema_keys_only_witness :
  exists tool fields,
    map_get "get-alerts" (tools integer_toString integer_toFixed4
                                ascii_toUpperCase id sample_config )
    = Some tool
    /\ JObj [("state", JStr "zz")] = JObj fields
    /\ sublist (map fst fields) (map fst (schema tool)).
Proof.
  apply (handler_sees_schema_keys_only integer_toString integer_toFixed4
                                       ascii_toUpperCase id sample_config sample_server 5
           (sample_request (JStr sample_clientId) (JStr "get-alerts")
              (JObj [("state", JStr "zz"); ("verbose", JBool true)]))
           no_alerts_network sample_server 6 "get-alerts" (JObj [("state", JStr "zz")])).
  left. reflexivity.
Defined.

Lemma advertised_properties_are_schema_fields_witness :
  entry_properties
    (tool_entry ("get-forecast",
                 mkTool "Get weather forecast for a location" get_forecast_schema
                   (get_forecast_handler integer_toString integer_toFixed4 sample_config)))
  = [ ("latitude", JObj [("type", JStr "number");
                         ("description", JStr "Latitude of the location")]);
      ("longitude", JObj [("type", JStr "number");
                          ("description", JStr "Longitude of the location")]) ].
Proof.
  refine (proj1 (advertised_properties_are_schema_fields "get-forecast"
                   (mkTool "Get weather forecast for a location" get_forecast_schema
                      (get_forecast_handler integer_toString integer_toFixed4
                         sample_config)) _)).
  repeat constructor; simpl; intuition discriminate.
Defined.

Lemma registerTool_overwrites_witness :
  let m := tools integer_toString integer_toFixed4 ascii_toUpperCase id sample_config in
  let again :=
    registerTool "get-alerts" "Alerts, second edition" []
      (fun _ _ => Returned JNull) m in
  map_get "get-alerts" again
  = Some (mkTool "Alerts, second edition" [] (fun _ _ => Returned JNull))
  /\ map_get "get-forecast" again = map_get "get-forecast" m
  /\ length again = 4%nat.
Proof.
  apply (registerTool_overwrites "get-alerts" "get-forecast" "Alerts, second edition" []
           (fun _ _ => Returned JNull)
           (tools integer_toString integer_toFixed4 ascii_toUpperCase id sample_config)).
  discriminate.
Defined.

Lemma network_down_degrades_witness :
  brave_web_search_handler integer_toString id sample_config down_network
    (JObj [("query", JStr "rocq")])
  = Returned (JObj [("type", JStr "text"); ("text", JStr "No search results found")])
  /\ google_search_handler integer_toString id sample_config down_network
       (JObj [("query", JStr "rocq")])
     = Returned (JObj [("type", JStr "text");
                       ("text", JStr "No results found from Google Search.")]).
Proof.
  exact (proj2 (proj2 (network_down_degrades integer_toString integer_toFixed4
                                             ascii_toUpperCase id sample_config
                         down_network (JObj [("query", JStr "rocq")]) (fun _ _ => I)))
           "rocq" eq_refl eq_refl eq_refl).
Defined.

Lemma forecast_link_unanswered_witness :
  get_forecast_handler integer_toString integer_toFixed4 sample_config
    points_only_network (JObj [("latitude", JNum 39); ("longitude", JNum (-95))])
  = Returned (text_content "No forecast data available").
Proof.
  refine (forecast_link_unanswered integer_toString integer_toFixed4 sample_config
            points_only_network (JObj [("latitude", JNum 39); ("longitude", JNum (-95))])
            39 (-95)
            (JObj [("properties", JObj [("forecast", JStr sample_forecast_link)])])
            sample_forecast_link eq_refl eq_refl eq_refl eq_refl _ I).
  discriminate.
Defined.

Lemma alerts_without_features_witness :
  get_alerts_handler integer_toString ascii_toUpperCase sample_config featureless_network
    (JObj [("state", JStr "ca")])
  = Returned (text_content "No active alerts for CA").
Proof.
  exact (alerts_without_features integer_toString ascii_toUpperCase sample_config
           featureless_network
           (JObj [("state", JStr "ca")]) "ca" (JObj [("title", JStr "Not Found")])
           eq_refl eq_refl eq_refl eq_refl).
Defined.

Lemma search_results_all_or_none_witness :
  brave_search integer_toString id sample_config search_network (JStr "rocq") (JNum 10)
  = Returned []
  /\ google_search integer_toString id sample_config search_network (JStr "rocq") (JNum 5)
     = Returned [ mkGoogleSearchResult (JStr "Rocq") (LinkValue JUndefined) JUndefined;
                  mkGoogleSearchResult JUndefined StringPrototypeLink JUndefined ].
Proof.
  split.
  - exact (proj1 (proj1 (search_results_all_or_none integer_toString id sample_config
                           search_network "rocq" (JNum 10) sample_search_data
                           [JObj [("title", JStr "Rocq")]; JNull]
                           (fun _ => eq_refl) eq_refl) eq_refl) eq_refl).
  - exact (proj2 (proj1 (search_results_all_or_none integer_toString id sample_config
                           search_network "rocq" (JNum 5) sample_search_data
                           [JObj [("title", JStr "Rocq")]; JStr "rocq-prover.org"]
                           (fun _ => eq_refl) eq_refl) eq_refl) eq_refl).
Defined.

Lemma malformed_alert_fails_invocation_witness :
  exists msg,
    let payload := error_payload (JStr "req-1") "tool_error" msg in
    toolCallHandler integer_toString integer_toFixed4
                    ascii_toUpperCase id sample_config sample_server 5
      (sample_request (JStr sample_clientId) (JStr "get-alerts")
         (JObj [("state", JStr "CA")]))
      null_alert_network sample_server 6
    = [ HandlerCalled "get-alerts" (JObj [("state", JStr "CA")]);
        write_action sample_server 7%nat
          (sse_frame "err-6" "mcp" (stringify_text integer_toString payload));
        HttpReply 500 payload ].
Proof.
  refine (malformed_alert_fails_invocation integer_toString integer_toFixed4
                                           ascii_toUpperCase id sample_config sample_server 5
            (sample_request (JStr sample_clientId) (JStr "get-alerts")
               (JObj [("state", JStr "CA")]))
            null_alert_network sample_server 6 sample_clientId 7%nat
            [("state", JStr "CA")] "CA" (JObj [("features", JArr [JNull])])
            [JNull] JNull
            eq_refl _ eq_refl eq_refl eq_refl eq_refl eq_refl eq_refl eq_refl
            (or_introl eq_refl) (or_introl eq_refl) eq_refl).
  discriminate.
Defined.

Lemma env_line_is_cut_at_first_equals_witness :
  parse_env_line "TOKEN = abc=def== " = ("TOKEN", "abc=def==")
  /\ parse_env_line "TOKEN " = ("TOKEN", "").
Proof.
  exact (env_line_is_cut_at_first_equals "TOKEN " " abc=def== " eq_refl).
Defined.

Lemma quotes_around_a_value_are_removed_witness :
  strip_quotes (String (ascii_of_nat 34) ("a b" ++ String (ascii_of_nat 39) "")) = "a b"
  /\ strip_quotes (String (ascii_of_nat 34) ("a b" ++ String (ascii_of_nat 39) ";")) = "a b".
Proof.
  exact (quotes_around_a_value_are_removed (ascii_of_nat 34) (ascii_of_nat 39) "a b"
           eq_refl eq_refl).
Defined.

Lemma last_env_line_decides_witness :
  load_env true (Some ("PORT=1" ++ LF ++ "PORT=3")) None {[ "PORT" := "9" ]} !! "PORT"
  = Some "3"
  /\ load_env true (Some ("PORT=1" ++ LF ++ "")) None {[ "PORT" := "9" ]}
     = load_env true (Some "PORT=1") None {[ "PORT" := "9" ]}
  /\ load_env true (Some ("PORT=1" ++ LF ++ " =3")) None {[ "PORT" := "9" ]}
     = load_env true (Some "PORT=1") None {[ "PORT" := "9" ]}.
Proof.
  split; [| split].
  - refine (proj2 (proj2 (last_env_line_decides "PORT=1" "PORT=3" None
                            {[ "PORT" := "9" ]} eq_refl eq_refl eq_refl))
              eq_refl _).
    discriminate.
  - exact (proj1 (last_env_line_decides "PORT=1" "" None {[ "PORT" := "9" ]}
                    eq_refl eq_refl eq_refl)
             (or_introl eq_refl)).
  - exact (proj1 (proj2 (last_env_line_decides "PORT=1" " =3" None {[ "PORT" := "9" ]}
                           eq_refl eq_refl eq_refl))
             eq_refl eq_refl).
Defined.

(** A quoted key, and a key that is a no-break space. *)
Lemma dotenv_supplies_brave_key_witness :
  (exists c,
     new_ConfigImpl (load_env true (Some ("# keys" ++ LF ++ "BRAVE_API_KEY=" ++ " 'k1'; "))
                       None ∅)
     = Returned c
     /\ impl_BRAVE_API_KEY c = "k1")
  /\ new_ConfigImpl
       (load_env true
          (Some ("# keys" ++ LF ++ "BRAVE_API_KEY="
                 ++ String (ascii_of_nat 194) (String (ascii_of_nat 160) "")))
          None {[ "BRAVE_API_KEY" := "k0" ]})
     = Threw (ThrownError "BRAVE_API_KEY is required").
Proof.
  split.
  - refine (proj1 (dotenv_supplies_brave_key "# keys" " 'k1'; " None ∅
                     eq_refl eq_refl eq_refl) _).
    discriminate.
  - exact (proj2 (dotenv_supplies_brave_key "# keys"
                    (String (ascii_of_nat 194) (String (ascii_of_nat 160) ""))
                    None {[ "BRAVE_API_KEY" := "k0" ]} eq_refl eq_refl eq_refl)
             eq_refl).
Defined.

(** The codes [ca], [Ca] and [CA]. *)
Lemma alerts_state_is_case_insensitive_witness :
  get_alerts_handler integer_toString ascii_toUpperCase sample_config no_alerts_network
    (JObj [("state", JStr "ca")])
  = get_alerts_handler integer_toString ascii_toUpperCase sample_config no_alerts_network
      (JObj [("state", JStr "Ca")])
  /\ get_alerts_handler integer_toString ascii_toUpperCase sample_config no_alerts_network
       (JObj [("state", JStr "ca")])
     = get_alerts_handler integer_toString ascii_toUpperCase sample_config no_alerts_network
         (JObj [("state", JStr "CA")]).
Proof.
  split.
  - exact (proj1 (alerts_state_is_case_insensitive integer_toString ascii_toUpperCase
                    sample_config no_alerts_network "ca" "Ca") eq_refl).
  - exact (proj2 (alerts_state_is_case_insensitive integer_toString ascii_toUpperCase
                    sample_config no_alerts_network "ca" "Ca") eq_refl).
Defined.
